(** * graspologic: tutorial notebooks and CI workflows

    The thirteen files of the slice hold fifteen documents: thirteen
    Jupyter notebooks and two GitHub Actions workflow definitions.

    - [Actions] has the workflow files as the data GitHub reads (triggers,
      jobs, steps, conditions) and the documented meaning of conditions and
      trigger filters; [Runner] says which steps a run executes and how
      jobs are scheduled.
    - [Py] is the syntax of the Python the notebooks contain; one module
      per notebook holds its code cells, parsed ([Mcc], [PaddedGM], ...);
      [Slice] lists the files and collects cells and definitions.
    - [Tutorials] models the notebook code that computes something itself
      ([compute_match_ratio], [lookup_roi_name], the edge-wise test loop) as
      functions; [Interp] evaluates the Python fragment of
      [compute_match_ratio], so that the model can be compared with the
      parsed source. *)

From Stdlib Require Import ZArith QArith Ascii String List Bool Lia.
From stdpp Require Import base strings list gmap.

Local Open Scope string_scope.
Local Open Scope list_scope.

(** ** Text helpers *)

Module Text.

(** The double-quote character, for source text that contains it. *)
Definition dq : string := String (ascii_of_nat 34) EmptyString.

(** ASCII lower-casing, as used by case-insensitive comparison. *)
Definition lower_ascii (c : ascii) : ascii :=
  let n := nat_of_ascii c in
  if (65 <=? n)%nat && (n <=? 90)%nat then ascii_of_nat (n + 32) else c.

Fixpoint lower (s : string) : string :=
  match s with
  | EmptyString => EmptyString
  | String c r => String (lower_ascii c) (lower r)
  end.

(** [contains needle hay]: [needle] occurs in [hay] as a substring. *)
Fixpoint contains (needle hay : string) : bool :=
  String.prefix needle hay ||
  match hay with
  | EmptyString => false
  | String _ r => contains needle r
  end.

Definition starts_with (p s : string) : bool := String.prefix p s.

End Text.

(** ** GitHub Actions: workflow files as data *)

Module Actions.
Import Text.

(** Expressions of [if:] conditions, the fragment the workflows use. *)
Inductive gh_expr :=
| EGithubRef                      (* github.ref *)
| ELit (s : string)               (* 'literal' *)
| EEq (a b : gh_expr)             (* a == b *)
| EOr (a b : gh_expr).            (* a || b *)

Record step := {
  step_name : option string;
  step_uses : option string;
  step_if : option gh_expr;
  step_run : list string;                 (* lines of the run script *)
  step_with : list (string * string);
  step_env : list (string * string);
  step_shell : option string
}.

Record job := {
  job_id : string;
  job_runs_on : option string;
  job_uses : option string;               (* reusable workflow called *)
  job_needs : list string;
  job_if : option gh_expr;
  job_matrix : list (string * list string);
  job_fail_fast : option bool;
  job_permissions : list (string * string);
  job_steps : list step
}.

(** Filters of a [push] or [pull_request] trigger; [None] is an absent key. *)
Record filter := {
  f_branches : option (list string);
  f_branches_ignore : option (list string);
  f_paths_ignore : option (list string)
}.

Record triggers := {
  on_push : option filter;
  on_pull_request : option filter;
  on_workflow_call : bool
}.

Record workflow := {
  wf_name : string;
  wf_on : triggers;
  wf_jobs : list job
}.

Definition mk_step name uses cond run w : step :=
  {| step_name := name; step_uses := uses; step_if := cond; step_run := run;
     step_with := w; step_env := []; step_shell := None |}.

Definition ref_is (r : string) : gh_expr := EEq EGithubRef (ELit r).

(** *** src/.github/workflows/publish.yml *)

Definition publish_with_twine : step :=
  {| step_name := Some "Publish with twine"; step_uses := None;
     step_if := Some (EOr (ref_is "refs/heads/main") (ref_is "refs/heads/dev"));
     step_run := [ "twine upload dist/*" ];
     step_with := [];
     step_env := [ ("TWINE_USERNAME", "${{ secrets.PYPI_USERNAME }}");
                   ("TWINE_PASSWORD", "${{ secrets.PYPI_PASSWORD }}") ];
     step_shell := None |}.

Definition publish_steps : list step :=
  [ mk_step None (Some "actions/checkout@v2") None [] [];
    mk_step (Some "Set up Python 3.8") (Some "actions/setup-python@v2") None []
      [("python-version", "3.8")];
    mk_step (Some "Install dependencies") None None
      [ "python -m pip install --upgrade pip setuptools wheel twine";
        "pip install -r requirements.txt" ] [];
    mk_step (Some "Create version environment variable") None None
      [ "echo " +:+ dq +:+ "GRASPOLOGIC_VERSION=`python setup.py --version`"
          +:+ dq +:+ " >> $GITHUB_ENV";
        "echo " +:+ dq +:+ "GRASPOLOGIC_TAG=v`python setup.py --version`"
          +:+ dq +:+ " >> $GITHUB_ENV" ] [];
    mk_step (Some "Build Release with setuptools") None
      (Some (ref_is "refs/heads/main"))
      [ "python setup.py sdist" ] [];
    mk_step (Some "Build Prerelease with setuptools") None
      (Some (ref_is "refs/heads/dev"))
      [ "python setup.py egg_info -b " +:+ dq +:+ "dev$GITHUB_RUN_ID" +:+ dq
          +:+ " sdist" ] [];
    publish_with_twine;
    mk_step (Some "Download documentation artifact")
      (Some "actions/download-artifact@v2") None []
      [ ("name", "documentation-site"); ("path", "docs/documentation-site") ];
    mk_step (Some "Publish reference docs (dev branch)")
      (Some "peaceiris/actions-gh-pages@v3") (Some (ref_is "refs/heads/dev")) []
      [ ("github_token", "${{ secrets.GITHUB_TOKEN }}");
        ("publish_dir", "docs/documentation-site");
        ("destination_dir", "pre-release") ];
    mk_step (Some "Publish reference docs (main branch)")
      (Some "peaceiris/actions-gh-pages@v3") (Some (ref_is "refs/heads/main")) []
      [ ("github_token", "${{ secrets.GITHUB_TOKEN }}");
        ("publish_dir", "docs/documentation-site");
        ("destination_dir", "${{ env.GRASPOLOGIC_VERSION }}") ];
    mk_step (Some "Publish latest reference docs (main branch)")
      (Some "peaceiris/actions-gh-pages@v3") (Some (ref_is "refs/heads/main")) []
      [ ("github_token", "${{ secrets.GITHUB_TOKEN }}");
        ("publish_dir", "docs/documentation-site");
        ("destination_dir", "latest") ];
    mk_step (Some "Create tag and GitHub release")
      (Some "ncipollo/release-action@v1") (Some (ref_is "refs/heads/main")) []
      [ ("tag", "${{ env.GRASPOLOGIC_TAG }}");
        ("token", "${{ secrets.GITHUB_TOKEN }}");
        ("artifacts", "versions_at_release.txt") ] ].

Definition ignored_paths : list string :=
  [ ".all-contributorsrc"; "CONTRIBUTORS.md" ].

Definition build_job : job :=
  {| job_id := "build"; job_runs_on := None;
     job_uses := Some "./.github/workflows/build.yml";
     job_needs := []; job_if := None; job_matrix := [];
     job_fail_fast := None; job_permissions := []; job_steps := [] |}.

Definition publish_job : job :=
  {| job_id := "publish"; job_runs_on := Some "ubuntu-latest";
     job_uses := None;
     job_needs := [ "build" ];
     job_if := Some (EOr (ref_is "refs/heads/main") (ref_is "refs/heads/dev"));
     job_matrix := []; job_fail_fast := None; job_permissions := [];
     job_steps := publish_steps |}.

Definition publish_yml : workflow :=
  {| wf_name := "graspologic Publish";
     wf_on :=
       {| on_push :=
            Some {| f_branches := Some [ "main"; "dev" ];
                    f_branches_ignore := None;
                    f_paths_ignore := Some ignored_paths |};
          on_pull_request := None;
          on_workflow_call := false |};
     wf_jobs := [ build_job; publish_job ] |}.


(** *** The build workflow called by [publish_yml]

    Source: the document named [graspologic Build] stored after the
    notebook in src/docs/tutorials/inference/latent_position_test.ipynb
    (lines 215-336); it declares the [workflow_call] trigger that the
    [build] job of [publish_yml] uses.  Block scalars ([path: |]) are
    recorded without their final newline. *)

Definition setup_python_38 : step :=
  mk_step (Some "Set up Python 3.8") (Some "actions/setup-python@v2") None []
    [("python-version", "3.8")].

Definition checkout : step :=
  mk_step None (Some "actions/checkout@v2") None [] [].

Definition static_code_analysis : job :=
  {| job_id := "static-code-analysis"; job_runs_on := Some "ubuntu-latest";
     job_uses := None; job_needs := []; job_if := None; job_matrix := [];
     job_fail_fast := None;
     job_permissions := [ ("actions", "read"); ("contents", "read");
                          ("security-events", "write") ];
     job_steps :=
       [ mk_step (Some "Checkout repository") (Some "actions/checkout@v2") None [] [];
         mk_step (Some "Initialize CodeQL") (Some "github/codeql-action/init@v1")
           None [] [ ("languages", "python") ];
         mk_step (Some "Perform CodeQL Analysis")
           (Some "github/codeql-action/analyze@v1") None [] [] ] |}.

Definition build_reference_documentation : job :=
  {| job_id := "build-reference-documentation";
     job_runs_on := Some "ubuntu-latest";
     job_uses := None; job_needs := []; job_if := None; job_matrix := [];
     job_fail_fast := None; job_permissions := [];
     job_steps :=
       [ checkout; setup_python_38;
         mk_step (Some "Run Reference Documentation Generation") None None
           [ "sudo apt install pandoc";
             "pip install -U pip setuptools wheel";
             "pip install -r requirements.txt";
             "pip install pipdeptree";
             "echo " +:+ dq +:+ "documentation" +:+ dq
               +:+ " > dependencies_documentation.txt";
             "pipdeptree >> dependencies_documentation.txt";
             "sphinx-build -W -t build_tutorials -a docs/ docs/_build/html" ] [];
         mk_step (Some "Archive documentation version artifact")
           (Some "actions/upload-artifact@v2") None []
           [ ("name", "dependencies");
             ("path", "dependencies_documentation.txt") ];
         mk_step (Some "Archive documentation artifacts")
           (Some "actions/upload-artifact@v2") None []
           [ ("name", "documentation-site"); ("path", "docs/_build/html") ] ] |}.

Definition code_format_check : job :=
  {| job_id := "code-format-check"; job_runs_on := Some "ubuntu-latest";
     job_uses := None; job_needs := []; job_if := None; job_matrix := [];
     job_fail_fast := None; job_permissions := [];
     job_steps :=
       [ checkout; setup_python_38;
         mk_step (Some "Run Format Check") None None
           [ "pip install -U pip setuptools wheel";
             "pip install -r requirements.txt";
             "black --check --diff ./graspologic ./tests";
             "isort --check-only ./graspologic ./tests" ] [] ] |}.

Definition test_coverage : job :=
  {| job_id := "test-coverage"; job_runs_on := Some "ubuntu-latest";
     job_uses := None; job_needs := []; job_if := None; job_matrix := [];
     job_fail_fast := None; job_permissions := [];
     job_steps :=
       [ checkout; setup_python_38;
         mk_step (Some "Run Test Coverage") None None
           [ "pip install -U pip setuptools wheel";
             "pip install -r requirements.txt";
             "python -m pytest --co --cov=graspologic graspologic tests" ] [] ] |}.

Definition unit_and_doc_test : job :=
  {| job_id := "unit-and-doc-test"; job_runs_on := Some "${{matrix.os}}";
     job_uses := None; job_needs := []; job_if := None;
     job_matrix :=
       [ ("os", [ "ubuntu-latest"; "windows-latest"; "macos-latest" ]);
         ("python_version", [ "3.8"; "3.9"; "3.10"; "3.11" ]) ];
     job_fail_fast := Some false; job_permissions := [];
     job_steps :=
       [ checkout;
         mk_step (Some "Set up Python ${{matrix.python_version}} ${{matrix.os}}")
           (Some "actions/setup-python@v2") None []
           [ ("python-version", "${{matrix.python_version}}") ];
         mk_step
           (Some "Install dependencies Python ${{matrix.python_version}} ${{matrix.os}}")
           None None
           [ "pip install -U pip setuptools wheel";
             "pip install -r requirements.txt" ] [];
         mk_step
           (Some "Run Unit Tests and Doctests Python ${{matrix.python_version}} ${{matrix.os}}")
           None None
           [ "pytest tests  # note: should be pytest graspologic tests, but we're skipping doctests for now and re-enabling them in another PR" ]
           [];
         mk_step
           (Some "Run mypy type check Python ${{matrix.python_version}} ${{matrix.os}}")
           None None [ "mypy ./graspologic" ] [];
         {| step_name := Some "Generate dependency tree"; step_uses := None;
            step_if := None;
            step_run :=
              [ "pip install pipdeptree";
                "export DEPS='dependencies_${{matrix.python_version}}_${{matrix.os}}.txt'";
                "echo " +:+ dq +:+ "${{matrix.python_version}} ${{matrix.os}}"
                  +:+ dq +:+ " > $DEPS";
                "pipdeptree >> $DEPS" ];
            step_with := []; step_env := []; step_shell := Some "bash" |};
         mk_step (Some "Archive dependency tree")
           (Some "actions/upload-artifact@v2") None []
           [ ("name", "dependencies");
             ("path", "dependencies_${{matrix.python_version}}_${{matrix.os}}.txt") ] ] |}.

Definition build_yml : workflow :=
  {| wf_name := "graspologic Build";
     wf_on :=
       {| on_push :=
            Some {| f_branches := None;
                    f_branches_ignore := Some [ "dev"; "main" ];
                    f_paths_ignore := Some ignored_paths |};
          on_pull_request :=
            Some {| f_branches := None;
                    f_branches_ignore := None;
                    f_paths_ignore := Some ignored_paths |};
          on_workflow_call := true |};
     wf_jobs :=
       [ static_code_analysis; build_reference_documentation;
         code_format_check; test_coverage; unit_and_doc_test ] |}.

(** The workflow definitions of the slice. *)
Definition ci_workflows : list workflow := [ publish_yml; build_yml ].

(** *** Conditions

    [==] on strings ignores case, as GitHub's expression language does;
    a value is truthy unless it is [false] or the empty string; [||]
    yields its first truthy operand. *)

Inductive gh_val := VStr (s : string) | VBool (b : bool).

Definition truthy (v : gh_val) : bool :=
  match v with
  | VBool b => b
  | VStr EmptyString => false
  | VStr _ => true
  end.

Definition val_eq (a b : gh_val) : bool :=
  match a, b with
  | VStr x, VStr y => String.eqb (lower x) (lower y)
  | VBool x, VBool y => Bool.eqb x y
  | _, _ => false
  end.

Fixpoint eval (ref : string) (e : gh_expr) : gh_val :=
  match e with
  | EGithubRef => VStr ref
  | ELit s => VStr s
  | EEq a b => VBool (val_eq (eval ref a) (eval ref b))
  | EOr a b => let va := eval ref a in if truthy va then va else eval ref b
  end.

(** An absent [if:] is [success()], which the status tracking of
    [run_steps] and [job_starts] supplies; a present one that names no
    status function is conjoined with it. *)
Definition cond_holds (ref : string) (c : option gh_expr) : bool :=
  match c with
  | None => true
  | Some e => truthy (eval ref e)
  end.

(** *** Triggers *)

Inductive git_ref := Branch (name : string) | Tag (name : string).

Definition ref_string (r : git_ref) : string :=
  match r with
  | Branch b => "refs/heads/" +:+ b
  | Tag t => "refs/tags/" +:+ t
  end.

Inductive event :=
| Push (r : git_ref) (changed : list string)
| PullRequest (base : string) (changed : list string)
| WorkflowCall.

(** Characters with a meaning in filter patterns (the last one is the
    backslash).  A pattern without them matches exactly the name it
    spells; the others are outside the fragment modelled here and make
    matching undefined ([None]). *)
Definition is_meta (c : ascii) : bool :=
  existsb (Ascii.eqb c)
    ([ "*"; "?"; "+"; "["; "]"; "!" ]%char ++ [ ascii_of_nat 92 ]).

Definition literal_pattern (p : string) : bool :=
  forallb (fun c => negb (is_meta c)) (list_ascii_of_string p).

Definition pattern_matches (p s : string) : option bool :=
  if literal_pattern p then Some (String.eqb p s) else None.

Fixpoint matches_any (ps : list string) (s : string) : option bool :=
  match ps with
  | [] => Some false
  | p :: r =>
      b ← pattern_matches p s;
      c ← matches_any r s;
      Some (b || c)
  end.

Fixpoint all_match (ps : list string) (paths : list string) : option bool :=
  match paths with
  | [] => Some true
  | x :: r =>
      b ← matches_any ps x;
      c ← all_match ps r;
      Some (b && c)
  end.

(** [branches] admits the branches it lists, [branches-ignore] all but
    the ones it lists; with neither key every branch passes. *)
Definition branch_passes (f : filter) (b : string) : option bool :=
  inc ← match f_branches f with
        | Some ps => matches_any ps b
        | None => Some true
        end;
  exc ← match f_branches_ignore f with
        | Some ps => matches_any ps b
        | None => Some false
        end;
  Some (inc && negb exc).

(** [paths-ignore]: the workflow runs when at least one changed path
    matches none of the patterns, and does not run when all of them
    match (so not for a push without changed paths either). *)
Definition paths_pass (f : filter) (changed : list string) : option bool :=
  match f_paths_ignore f with
  | None => Some true
  | Some ps => negb <$> all_match ps changed
  end.

Definition has_branch_filter (f : filter) : bool :=
  match f_branches f, f_branches_ignore f with
  | None, None => false
  | _, _ => true
  end.

Definition triggered (w : workflow) (ev : event) : option bool :=
  match ev with
  | Push (Branch b) changed =>
      match on_push (wf_on w) with
      | None => Some false
      | Some f =>
          br ← branch_passes f b;
          pa ← paths_pass f changed;
          Some (br && pa)
      end
  | Push (Tag _) _ =>
      (* a workflow that filters branches only does not run for tags;
         path filters are not evaluated for tags *)
      match on_push (wf_on w) with
      | None => Some false
      | Some f => Some (negb (has_branch_filter f))
      end
  | PullRequest base changed =>
      match on_pull_request (wf_on w) with
      | None => Some false
      | Some f =>
          br ← branch_passes f base;
          pa ← paths_pass f changed;
          Some (br && pa)
      end
  | WorkflowCall => Some (on_workflow_call (wf_on w))
  end.

End Actions.

(** ** GitHub Actions: what a workflow run executes *)

Module Runner.
Import Text Actions.

Inductive outcome := Succeeded | Failed.
Inductive conclusion := CSuccess | CFailure | CSkipped.

Definition is_ok (o : outcome) : bool :=
  match o with Succeeded => true | Failed => false end.

Definition conclude (o : outcome) : conclusion :=
  match o with Succeeded => CSuccess | Failed => CFailure end.

(** What a run cannot decide by itself: the ref it runs for, how each
    called workflow ends, and how each step that executes ends. *)
Record run_ctx := {
  ctx_ref : string;
  ctx_called : string -> outcome;
  ctx_step : string -> nat -> outcome
}.

(** A run for the branch [main] in which every job and step succeeds. *)
Definition main_run : run_ctx :=
  {| ctx_ref := "refs/heads/main";
     ctx_called := fun _ => Succeeded;
     ctx_step := fun _ _ => Succeeded |}.

(** Steps run in order.  A step executes when every step executed
    before it succeeded and its condition holds; a skipped step leaves
    the job's status as it was. *)
Fixpoint run_steps (ref : string) (out : nat -> outcome) (i : nat) (ok : bool)
    (ss : list step) : list (step * bool) :=
  match ss with
  | [] => []
  | s :: r =>
      let runs := ok && cond_holds ref (step_if s) in
      let ok' := ok && (negb runs || is_ok (out i)) in
      (s, runs) :: run_steps ref out (S i) ok' r
  end.

Fixpoint steps_succeed (ref : string) (out : nat -> outcome) (i : nat) (ok : bool)
    (ss : list step) : bool :=
  match ss with
  | [] => ok
  | s :: r =>
      let runs := ok && cond_holds ref (step_if s) in
      steps_succeed ref out (S i) (ok && (negb runs || is_ok (out i))) r
  end.

Definition need_met (done : gmap string conclusion) (n : string) : bool :=
  match done !! n with
  | Some CSuccess => true
  | _ => false
  end.

(** A job starts when all the jobs it needs concluded with success and
    its own condition holds; otherwise it is skipped. *)
Definition job_starts (ctx : run_ctx) (done : gmap string conclusion) (j : job) : bool :=
  forallb (need_met done) (job_needs j) && cond_holds (ctx_ref ctx) (job_if j).

Definition job_conclusion (ctx : run_ctx) (done : gmap string conclusion) (j : job)
    : conclusion :=
  if job_starts ctx done j then
    match job_uses j with
    | Some _ => conclude (ctx_called ctx (job_id j))
    | None =>
        if steps_succeed (ctx_ref ctx) (ctx_step ctx (job_id j)) 0 true (job_steps j)
        then CSuccess else CFailure
    end
  else CSkipped.

Definition job_executes (ctx : run_ctx) (done : gmap string conclusion) (j : job)
    : list (string * step) :=
  if job_starts ctx done j then
    List.map (fun p => (job_id j, fst p))
      (List.filter snd
         (run_steps (ctx_ref ctx) (ctx_step ctx (job_id j)) 0 true (job_steps j)))
  else [].

(** Jobs are taken in the order of the file, which lists every job after
    the jobs it needs (see [needs_declared_before]). *)
Fixpoint run_jobs (ctx : run_ctx) (done : gmap string conclusion) (js : list job)
    : list (string * step) :=
  match js with
  | [] => []
  | j :: r =>
      job_executes ctx done j
        ++ run_jobs ctx (<[job_id j := job_conclusion ctx done j]> done) r
  end.

(** The steps a run of [w] executes, each with the id of its job. *)
Definition executed (ctx : run_ctx) (w : workflow) : list (string * step) :=
  run_jobs ctx ∅ (wf_jobs w).

Fixpoint needs_declared_before (seen : list string) (js : list job) : bool :=
  match js with
  | [] => true
  | j :: r =>
      forallb (fun n => existsb (String.eqb n) seen) (job_needs j)
      && needs_declared_before (job_id j :: seen) r
  end.

(** *** Job scheduling as a transition system *)

Inductive job_state := Waiting | Running | Done (c : conclusion).

Definition initial (w : workflow) : gmap string job_state :=
  list_to_map (List.map (fun j => (job_id j, Waiting)) (wf_jobs w)).

Inductive sched_step (ref : string) (w : workflow)
    : gmap string job_state -> gmap string job_state -> Prop :=
| sched_start j σ :
    In j (wf_jobs w) ->
    σ !! job_id j = Some Waiting ->
    (forall n, In n (job_needs j) -> σ !! n = Some (Done CSuccess)) ->
    cond_holds ref (job_if j) = true ->
    sched_step ref w σ (<[job_id j := Running]> σ)
| sched_skip j σ :
    In j (wf_jobs w) ->
    σ !! job_id j = Some Waiting ->
    (forall n, In n (job_needs j) -> exists c, σ !! n = Some (Done c)) ->
    (exists n, In n (job_needs j) /\ σ !! n <> Some (Done CSuccess))
      \/ cond_holds ref (job_if j) = false ->
    sched_step ref w σ (<[job_id j := Done CSkipped]> σ)
| sched_finish j o σ :
    In j (wf_jobs w) ->
    σ !! job_id j = Some Running ->
    sched_step ref w σ (<[job_id j := Done (conclude o)]> σ).

Definition reachable (ref : string) (w : workflow) (σ : gmap string job_state) : Prop :=
  rtc (sched_step ref w) (initial w) σ.

(** A job has started once it is running or has concluded otherwise
    than by being skipped. *)
Definition started (σ : gmap string job_state) (id : string) : Prop :=
  σ !! id = Some Running \/ σ !! id = Some (Done CSuccess)
  \/ σ !! id = Some (Done CFailure).

(** Every started job has all the jobs it needs concluded with success. *)
Definition needs_respected (w : workflow) (σ : gmap string job_state) : Prop :=
  forall j, In j (wf_jobs w) -> started σ (job_id j) ->
  forall n, In n (job_needs j) -> σ !! n = Some (Done CSuccess).

(** *** Reading steps *)

Definition runs_command (cmd : string) (s : step) : bool :=
  existsb (contains cmd) (step_run s).

Definition uses_action (a : string) (s : step) : bool :=
  match step_uses s with
  | Some u => starts_with a u
  | None => false
  end.

Definition uploads_package (s : step) : bool := runs_command "twine upload" s.
Definition publishes_pages (s : step) : bool := uses_action "peaceiris/actions-gh-pages@" s.
Definition publishes (s : step) : bool := uploads_package s || publishes_pages s.

Definition installs_dependencies (s : step) : bool :=
  runs_command "pip install -r requirements.txt" s.
Definition runs_tests (s : step) : bool := runs_command "pytest" s.
Definition runs_type_check (s : step) : bool := runs_command "mypy" s.
Definition builds_sphinx_docs (s : step) : bool := runs_command "sphinx-build" s.
Definition runs_linter (s : step) : bool :=
  runs_command "black --check" s || runs_command "isort --check-only" s.

Definition named (n : string) (s : step) : bool :=
  match step_name s with
  | Some m => String.eqb n m
  | None => false
  end.

(** Some step with the given name executes in the run. *)
Definition step_executes (ctx : run_ctx) (w : workflow) (n : string) : bool :=
  existsb (fun p => named n (snd p)) (executed ctx w).

(** The job instances a matrix expands to: one per combination. *)
Fixpoint matrix_combos (axes : list (string * list string))
    : list (list (string * string)) :=
  match axes with
  | [] => [ [] ]
  | (k, vs) :: r =>
      flat_map (fun v => List.map (cons (k, v)) (matrix_combos r)) vs
  end.

Definition all_steps (w : workflow) : list (string * step) :=
  flat_map (fun j => List.map (pair (job_id j)) (job_steps j)) (wf_jobs w).

End Runner.

(** ** Notebooks: code cells as Python syntax

    A notebook is the list of its cells.  A code cell is the list of its
    statements, parsed; comments are dropped.  String literals are kept as
    the source spells them between the quotes (escape sequences are not
    processed), floating-point literals as their spelling. *)

Module Py.

Local Set Warnings "-register-all".

Inductive binop := OAdd | OSub | OMult | ODiv | OFloorDiv | OMod | OMatMult.
Inductive unop := UNeg | UNot.
Inductive cmpop := CmpEq | CmpNotEq | CmpLt | CmpGt | CmpIs.
Inductive boolop := BAnd | BOr.

Inductive expr :=
| EName (x : string)
| EInt (n : Z)
| EFloat (spelling : string)
| EStr (s : string)
| EBool (b : bool)
| ENone
| EFString (parts : list expr)                   (* f"...{e}..." *)
| EFormat (e : expr) (spec : option string)      (* {e:spec} inside an f-string *)
| EAttr (e : expr) (attr : string)               (* e.attr *)
| ECall (f : expr) (args : list expr)            (* f(args) *)
| EKeyword (name : string) (e : expr)            (* name=e among the arguments *)
| EStarred (e : expr)                            (* *e among the arguments *)
| ESubscript (e : expr) (index : expr)           (* e[index] *)
| ESlice (lo hi : option expr)                   (* lo:hi *)
| EBinOp (op : binop) (l r : expr)
| EUnary (op : unop) (e : expr)
| ECompare (op : cmpop) (l r : expr)
| EBoolOp (op : boolop) (operands : list expr)
| EIfExp (test body orelse : expr)               (* body if test else orelse *)
| EListComp (elt target iter : expr)             (* [elt for target in iter] *)
| ELambda (params : list string) (body : expr)
| ETuple (elts : list expr)
| EList (elts : list expr)
| ESet (elts : list expr)
| EDict (keys values : list expr).

Arguments EInt n%_Z.

Record param := Param {
  p_name : string;
  p_default : option expr;
  p_kwonly : bool
}.

Inductive stmt :=
| SImport (names : list (string * option string))
| SImportFrom (module : string) (names : list (string * option string))
| SMagic (line : string)                         (* IPython line magic *)
| SAssign (target value : expr)
| SAugAssign (target : expr) (op : binop) (value : expr)
| SExpr (e : expr)
| SFor (target iter : expr) (body : list stmt)
| SIf (test : expr) (body orelse : list stmt)
| STry (body : list stmt) (exn : option expr) (handler : list stmt)
| SWith (items : list expr) (body : list stmt)
| SDef (name : string) (params : list param) (body : list stmt)
| SReturn (e : option expr).

Inductive cell := Markdown | Code (body : list stmt).

Record notebook := {
  nb_path : string;
  nb_title : string;
  nb_cells : list cell
}.

(** *** Traversals *)

Definition opt_any {A} (f : A -> bool) (o : option A) : bool :=
  match o with
  | Some a => f a
  | None => false
  end.

(** Some expression inside [e], [e] included, satisfies [p]. *)
Fixpoint expr_any (p : expr -> bool) (e : expr) : bool :=
  p e ||
  match e with
  | EName _ | EInt _ | EFloat _ | EStr _ | EBool _ | ENone => false
  | EFString es | EBoolOp _ es | ETuple es | EList es | ESet es =>
      existsb (expr_any p) es
  | EFormat a _ | EAttr a _ | EKeyword _ a | EStarred a | EUnary _ a | ELambda _ a =>
      expr_any p a
  | ECall f args => expr_any p f || existsb (expr_any p) args
  | ESubscript a b | EBinOp _ a b | ECompare _ a b => expr_any p a || expr_any p b
  | ESlice lo hi => opt_any (expr_any p) lo || opt_any (expr_any p) hi
  | EIfExp a b c | EListComp a b c => expr_any p a || expr_any p b || expr_any p c
  | EDict ks vs => existsb (expr_any p) ks || existsb (expr_any p) vs
  end.

(** The expressions a statement holds directly, not those of nested
    statements. *)
Definition stmt_exprs (s : stmt) : list expr :=
  match s with
  | SImport _ | SImportFrom _ _ | SMagic _ => []
  | SAssign t v => [ t; v ]
  | SAugAssign t _ v => [ t; v ]
  | SExpr e => [ e ]
  | SFor t i _ => [ t; i ]
  | SIf c _ _ => [ c ]
  | STry _ (Some x) _ => [ x ]
  | STry _ None _ => []
  | SWith items _ => items
  | SDef _ ps _ => flat_map (fun q => match p_default q with Some d => [ d ] | None => [] end) ps
  | SReturn (Some e) => [ e ]
  | SReturn None => []
  end.

(** Some statement inside [s], [s] included, satisfies [ps], or some
    expression inside them satisfies [pe]. *)
Fixpoint stmt_any (ps : stmt -> bool) (pe : expr -> bool) (s : stmt) : bool :=
  ps s || existsb (expr_any pe) (stmt_exprs s) ||
  match s with
  | SFor _ _ b | SWith _ b | SDef _ _ b => existsb (stmt_any ps pe) b
  | SIf _ b c | STry b _ c => existsb (stmt_any ps pe) b || existsb (stmt_any ps pe) c
  | _ => false
  end.

Definition block_any (ps : stmt -> bool) (pe : expr -> bool) (b : list stmt) : bool :=
  existsb (stmt_any ps pe) b.

(** All statements of a block, nested ones included, in source order. *)
Fixpoint flatten (s : stmt) : list stmt :=
  s ::
  match s with
  | SFor _ _ b | SWith _ b | SDef _ _ b => flat_map flatten b
  | SIf _ b c | STry b _ c => flat_map flatten b ++ flat_map flatten c
  | _ => []
  end.

(** All expressions inside [e], [e] first. *)
Fixpoint subexprs (e : expr) : list expr :=
  e ::
  match e with
  | EName _ | EInt _ | EFloat _ | EStr _ | EBool _ | ENone => []
  | EFString es | EBoolOp _ es | ETuple es | EList es | ESet es =>
      flat_map subexprs es
  | EFormat a _ | EAttr a _ | EKeyword _ a | EStarred a | EUnary _ a | ELambda _ a =>
      subexprs a
  | ECall f args => subexprs f ++ flat_map subexprs args
  | ESubscript a b | EBinOp _ a b | ECompare _ a b => subexprs a ++ subexprs b
  | ESlice lo hi =>
      match lo with Some a => subexprs a | None => [] end
      ++ match hi with Some a => subexprs a | None => [] end
  | EIfExp a b c | EListComp a b c => subexprs a ++ subexprs b ++ subexprs c
  | EDict ks vs => flat_map subexprs ks ++ flat_map subexprs vs
  end.

Definition block_stmts (b : list stmt) : list stmt := flat_map flatten b.

Definition block_exprs (b : list stmt) : list expr :=
  flat_map (fun s => flat_map subexprs (stmt_exprs s)) (block_stmts b).

(** The code cells of a notebook with their position among its cells. *)
Fixpoint code_cells_from (i : nat) (cs : list cell) : list (nat * list stmt) :=
  match cs with
  | [] => []
  | Markdown :: r => code_cells_from (S i) r
  | Code b :: r => (i, b) :: code_cells_from (S i) r
  end.

Definition code_cells (nb : notebook) : list (nat * list stmt) :=
  code_cells_from 0 (nb_cells nb).

Definition nb_code (nb : notebook) : list stmt :=
  flat_map snd (code_cells nb).

(** *** Control flow, error handling, definitions *)

Definition is_loop_stmt (s : stmt) : bool :=
  match s with SFor _ _ _ => true | _ => false end.
Definition is_loop_expr (e : expr) : bool :=
  match e with EListComp _ _ _ => true | _ => false end.
Definition is_branch_stmt (s : stmt) : bool :=
  match s with SIf _ _ _ => true | _ => false end.
Definition is_branch_expr (e : expr) : bool :=
  match e with EIfExp _ _ _ => true | _ => false end.
Definition is_try (s : stmt) : bool :=
  match s with STry _ _ _ => true | _ => false end.
Definition never {A} (_ : A) : bool := false.

Definition has_loop (b : list stmt) : bool := block_any is_loop_stmt is_loop_expr b.
Definition has_branch (b : list stmt) : bool := block_any is_branch_stmt is_branch_expr b.
Definition has_control_flow (b : list stmt) : bool := has_loop b || has_branch b.
Definition has_error_handling (b : list stmt) : bool := block_any is_try never b.

(** An operator applied in the notebook's own code. *)
Definition is_operator (e : expr) : bool :=
  match e with
  | EBinOp _ _ _ | EUnary _ _ | ECompare _ _ _ | EBoolOp _ _ | EIfExp _ _ _ => true
  | _ => false
  end.

Record fundef := {
  fd_name : string;
  fd_params : list param;
  fd_body : list stmt
}.

Definition defs_of (b : list stmt) : list fundef :=
  flat_map (fun s => match s with
                     | SDef n ps body => [ {| fd_name := n; fd_params := ps; fd_body := body |} ]
                     | _ => []
                     end) (block_stmts b).

Definition find_def (name : string) (b : list stmt) : option fundef :=
  List.find (fun d => String.eqb (fd_name d) name) (defs_of b).

(** The part of a dotted name before the first dot. *)
Fixpoint before_dot (s : string) : string :=
  match s with
  | EmptyString => EmptyString
  | String c r => if Ascii.eqb c "."%char then EmptyString else String c (before_dot r)
  end.

(** Names bound by the import statements of a block, with the module
    each comes from: [import a.b as c] binds [c], [import a.b] binds
    [a], [from m import x as y] binds [y], [from m import x] binds [x]. *)
Definition bound_by_import (n : string * option string) : string :=
  match snd n with
  | Some a => a
  | None => before_dot (fst n)
  end.

Definition bound_by_from (n : string * option string) : string :=
  match snd n with
  | Some a => a
  | None => fst n
  end.

Definition imports_of (b : list stmt) : list (string * string) :=
  flat_map (fun s => match s with
                     | SImport ns => List.map (fun n => (fst n, bound_by_import n)) ns
                     | SImportFrom m ns => List.map (fun n => (m, bound_by_from n)) ns
                     | _ => []
                     end) (block_stmts b).


(** The callees of all calls in a block. *)
Definition callees (b : list stmt) : list expr :=
  flat_map (fun e => match e with ECall f _ => [ f ] | _ => [] end) (block_exprs b).

(** The bare names called as functions in a block. *)
Definition called_names (b : list stmt) : list string :=
  flat_map (fun f => match f with EName x => [ x ] | _ => [] end) (callees b).

(** Python's built-in functions among the names the notebooks call. *)
Definition builtins : list string :=
  [ "abs"; "dict"; "int"; "len"; "print"; "range"; "str"; "zip" ].

Definition mem (x : string) (l : list string) : bool := existsb (String.eqb x) l.


End Py.

(** *** src/docs/tutorials/connectomics/mcc.ipynb *)

Module Mcc.
Import Text Py.

Definition c1 : list stmt :=
  [ SImport [("matplotlib.pyplot", Some "plt")];
    SImport [("numpy", Some "np")];
    SImport [("pandas", Some "pd")];
    SImport [("seaborn", Some "sns")];
    SImport [("warnings", None)];
    SAssign (EAttr (EAttr (EAttr (EName "pd") "options") "mode") "chained_assignment")
      ENone;
    SMagic "%matplotlib inline" ].

Definition c3 : list stmt :=
  [SImportFrom "graspologic.datasets" [("load_mice", None)]].

Definition c4 : list stmt :=
  [ SAssign (EName "mice") (ECall (EName "load_mice") []);
    SAssign (EName "graphs")
      (ECall (EAttr (EName "np") "array") [EAttr (EName "mice") "graphs"]);
    SAssign (EName "n_subjects")
      (ESubscript (EAttr (EName "mice") "meta") (EStr "n_subjects"));
    SAssign (EName "n_vertices")
      (ESubscript (EAttr (EName "mice") "meta") (EStr "n_vertices")) ].

Definition c5 : list stmt :=
  [ SAssign (EName "btbr")
      (ESubscript (EName "graphs")
        (ECompare CmpEq (EAttr (EName "mice") "labels") (EStr "BTBR")));
    SAssign (EName "b6")
      (ESubscript (EName "graphs")
        (ECompare CmpEq (EAttr (EName "mice") "labels") (EStr "B6")));
    SAssign (EName "cast")
      (ESubscript (EName "graphs")
        (ECompare CmpEq (EAttr (EName "mice") "labels") (EStr "CAST")));
    SAssign (EName "dba2")
      (ESubscript (EName "graphs")
        (ECompare CmpEq (EAttr (EName "mice") "labels") (EStr "DBA2")));
    SAssign (EName "connectomes")
      (EList [EName "btbr"; EName "b6"; EName "cast"; EName "dba2"]) ].

Definition c7 : list stmt :=
  [SImportFrom "hyppo.ksample" [("KSample", None)]].

Definition c9 : list stmt :=
  [ SAssign (EName "indices")
      (ECall (EName "zip")
        [ EStarred
            (ECall (EAttr (EName "np") "triu_indices") [EName "n_vertices"; EInt 1]) ]) ].

Definition c10 : list stmt :=
  [ SAssign (EName "edge_pvals") (EList []);
    SFor (ETuple [EName "roi_i"; EName "roi_j"]) (EName "indices")
      [ SAssign (EName "samples")
          (EListComp
            (ESubscript (EName "genotype")
              (ETuple [ESlice None None; EName "roi_i"; EName "roi_j"]))
            (EName "genotype")
            (EName "connectomes"));
        STry
          [ SAssign (ETuple [EName "statistic"; EName "pvalue"])
              (ECall (EAttr (ECall (EName "KSample") [EStr "Dcorr"]) "test")
                [ EStarred (EName "samples");
                  EKeyword "reps" (EInt 10000);
                  EKeyword "workers" (EUnary UNeg (EInt 1)) ]) ]
          (Some (EName "ValueError"))
          [ SAssign (EName "statistic") (EAttr (EName "np") "nan");
            SAssign (EName "pvalue") (EInt 1) ];
        SExpr
          (ECall (EAttr (EName "edge_pvals") "append")
            [EList [EName "roi_i"; EName "roi_j"; EName "statistic"; EName "pvalue"]]) ] ].

Definition c12 : list stmt :=
  [ SAssign (EName "edge_pvals")
      (ECall (EAttr (EName "pd") "DataFrame")
        [ EName "edge_pvals";
          EKeyword "columns"
            (EList [EStr "ROI_1"; EStr "ROI_2"; EStr "stat"; EStr "pval"]) ]);
    SExpr
      (ECall (EAttr (EName "edge_pvals") "sort_values")
        [ EKeyword "by" (EStr "pval");
          EKeyword "inplace" (EBool true);
          EKeyword "ignore_index" (EBool true) ]);
    SAssign (EName "pval_rank")
      (ECall (EAttr (ESubscript (EName "edge_pvals") (EStr "pval")) "rank")
        [EKeyword "ascending" (EBool false); EKeyword "method" (EStr "max")]);
    SAssign (ESubscript (EName "edge_pvals") (EStr "holm_pval"))
      (ECall (EAttr (ESubscript (EName "edge_pvals") (EStr "pval")) "multiply")
        [EName "pval_rank"]);
    SAssign (ESubscript (EName "edge_pvals") (EStr "holm_pval"))
      (ECall (EAttr (ESubscript (EName "edge_pvals") (EStr "holm_pval")) "apply")
        [ ELambda
            ["pval"]
            (EIfExp (ECompare CmpGt (EName "pval") (EInt 1)) (EInt 1) (EName "pval")) ]);
    SAssign (EName "alpha") (EFloat "0.05");
    SAssign (ESubscript (EName "edge_pvals") (EStr "significant"))
      (ECompare CmpLt (ESubscript (EName "edge_pvals") (EStr "holm_pval")) (EName "alpha"));
    SAssign (EName "edge_pvals_top") (ECall (EAttr (EName "edge_pvals") "head") [EInt 10]);
    SDef "lookup_roi_name"
      [Param "index" None false]
      [ SAssign (EName "hemisphere")
          (EIfExp (EBinOp OFloorDiv (EName "index") (EInt 166)) (EStr "R") (EStr "L"));
        SAssign (EName "index") (EBinOp OMod (EName "index") (EInt 166));
        SAssign (EName "roi_name")
          (ECall
            (EAttr
              (ESubscript
                (ECall (EAttr (EAttr (EName "mice") "atlas") "query")
                  [ EFString
                      [ EStr "ROI == ";
                        EFormat (EBinOp OAdd (EName "index") (EInt 1)) None ] ])
                (EStr "Structure"))
              "item")
            []);
        SReturn
          (Some
            (EFString
              [ EFormat (EName "roi_name") None;
                EStr " (";
                EFormat (EName "hemisphere") None;
                EStr ")" ])) ];
    SAssign (ESubscript (EName "edge_pvals_top") (EStr "ROI_1"))
      (ECall (EAttr (ESubscript (EName "edge_pvals_top") (EStr "ROI_1")) "apply")
        [EName "lookup_roi_name"]);
    SAssign (ESubscript (EName "edge_pvals_top") (EStr "ROI_2"))
      (ECall (EAttr (ESubscript (EName "edge_pvals_top") (EStr "ROI_2")) "apply")
        [EName "lookup_roi_name"]);
    SExpr (ECall (EAttr (EName "edge_pvals_top") "head") []) ].

Definition c15 : list stmt :=
  [ SImportFrom "graspologic.embed" [("OmnibusEmbed", None)];
    SImportFrom "graspologic.plot" [("pairplot", None)] ].

Definition c16 : list stmt :=
  [ SAssign (EName "embedder") (ECall (EName "OmnibusEmbed") []);
    SAssign (EName "omni_embedding")
      (ECall (EAttr (EName "embedder") "fit_transform") [EName "graphs"]);
    SExpr (ECall (EName "print") [EAttr (EName "omni_embedding") "shape"]) ].

Definition c18 : list stmt :=
  [ SWith
      [ECall (EAttr (EName "warnings") "catch_warnings") []]
      [ SExpr
          (ECall (EAttr (EName "warnings") "filterwarnings")
            [EStr "ignore"; EKeyword "module" (EStr "hyppo")]);
        SExpr
          (ECall (EAttr (EName "warnings") "filterwarnings")
            [EStr "ignore"; EKeyword "category" (EName "RuntimeWarning")]);
        SAssign (EName "vertex_pvals") (EList []);
        SFor (EName "vertex_i") (ECall (EName "range") [EName "n_vertices"])
          [ SAssign (EName "samples")
              (EListComp
                (ESubscript (EName "omni_embedding")
                  (ETuple
                    [ ECompare CmpEq (EAttr (EName "mice") "labels") (EName "genotype");
                      EName "vertex_i";
                      ESlice None None ]))
                (EName "genotype")
                (ECall (EAttr (EName "np") "unique") [EAttr (EName "mice") "labels"]));
            SAssign (ETuple [EName "statistic"; EName "pvalue"; EName "_"])
              (ECall (EAttr (ECall (EName "KSample") [EStr "MGC"]) "test")
                [ EStarred (EName "samples");
                  EKeyword "reps" (EInt 250);
                  EKeyword "workers" (EUnary UNeg (EInt 1)) ]);
            SExpr
              (ECall (EAttr (EName "vertex_pvals") "append")
                [EList [EName "vertex_i"; EName "statistic"; EName "pvalue"]]) ] ] ].

Definition c20 : list stmt :=
  [ SAssign (EName "vertex_pvals")
      (ECall (EAttr (EName "pd") "DataFrame")
        [ EName "vertex_pvals";
          EKeyword "columns" (EList [EStr "ROI"; EStr "stat"; EStr "pval"]) ]);
    SExpr
      (ECall (EAttr (EName "vertex_pvals") "sort_values")
        [ EKeyword "by" (EStr "pval");
          EKeyword "inplace" (EBool true);
          EKeyword "ignore_index" (EBool true) ]);
    SAssign (EName "pval_rank")
      (ECall (EAttr (ESubscript (EName "vertex_pvals") (EStr "pval")) "rank")
        [EKeyword "ascending" (EBool false); EKeyword "method" (EStr "max")]);
    SAssign (ESubscript (EName "vertex_pvals") (EStr "holm_pval"))
      (ECall (EAttr (ESubscript (EName "vertex_pvals") (EStr "pval")) "multiply")
        [EName "pval_rank"]);
    SAssign (ESubscript (EName "vertex_pvals") (EStr "holm_pval"))
      (ECall (EAttr (ESubscript (EName "vertex_pvals") (EStr "holm_pval")) "apply")
        [ ELambda
            ["pval"]
            (EIfExp (ECompare CmpGt (EName "pval") (EInt 1)) (EInt 1) (EName "pval")) ]);
    SAssign (EName "alpha") (EFloat "0.05");
    SAssign (ESubscript (EName "vertex_pvals") (EStr "significant"))
      (ECompare CmpLt (ESubscript (EName "vertex_pvals") (EStr "holm_pval"))
        (EName "alpha"));
    SAssign (EName "vertex_pvals_top")
      (ECall (EAttr (EName "vertex_pvals") "head") [EInt 10]);
    SAssign (ESubscript (EName "vertex_pvals_top") (EStr "ROI"))
      (ECall (EAttr (ESubscript (EName "vertex_pvals_top") (EStr "ROI")) "apply")
        [EName "lookup_roi_name"]);
    SExpr (ECall (EAttr (EName "vertex_pvals_top") "head") []) ].

Definition c22 : list stmt :=
  [ SAssign (EName "left")
      (ECall (EName "pairplot")
        [ ESubscript (EName "omni_embedding")
            (ETuple
              [ ESlice None None;
                EBinOp OSub (EInt 121) (EInt 1);
                ESlice None (Some (EInt 3)) ]);
          EAttr (EName "mice") "labels";
          EKeyword "palette"
            (EList [EStr "#e7298a"; EStr "#1b9e77"; EStr "#d95f02"; EStr "#7570b3"]);
          EKeyword "title" (EStr "Left Corpus Callosum") ]) ].

Definition c23 : list stmt :=
  [ SAssign (EName "right")
      (ECall (EName "pairplot")
        [ ESubscript (EName "omni_embedding")
            (ETuple
              [ ESlice None None;
                EBinOp OSub (EBinOp OAdd (EInt 121) (EInt 166)) (EInt 1);
                ESlice None (Some (EInt 3)) ]);
          EAttr (EName "mice") "labels";
          EKeyword "palette"
            (EList [EStr "#e7298a"; EStr "#1b9e77"; EStr "#d95f02"; EStr "#7570b3"]);
          EKeyword "title" (EStr "Right Corpus Callosum") ]) ].

Definition c25 : list stmt :=
  [ SImportFrom "graspologic.embed" [("ClassicalMDS", None)];
    SImportFrom "graspologic.plot" [("heatmap", None)] ].

Definition c27 : list stmt :=
  [ SAssign (EName "cmds") (ECall (EName "ClassicalMDS") [EInt 2]);
    SAssign (EName "cmds_embedding")
      (ECall (EAttr (EName "cmds") "fit_transform") [EName "omni_embedding"]);
    SAssign (EName "cmds_embedding")
      (ECall (EAttr (EName "pd") "DataFrame")
        [ EName "cmds_embedding";
          EKeyword "columns" (EList [EStr "Dimension 1"; EStr "Dimension 2"]) ]);
    SAssign (ESubscript (EName "cmds_embedding") (EStr "Genotype"))
      (EAttr (EName "mice") "labels");
    SExpr
      (ECall (EAttr (EName "sns") "scatterplot")
        [ EKeyword "x" (EStr "Dimension 1");
          EKeyword "y" (EStr "Dimension 2");
          EKeyword "hue" (EStr "Genotype");
          EKeyword "data" (EName "cmds_embedding");
          EKeyword "palette"
            (EList [EStr "#e7298a"; EStr "#1b9e77"; EStr "#d95f02"; EStr "#7570b3"]) ]);
    SExpr (ECall (EAttr (EName "plt") "show") []) ].

Definition c28 : list stmt :=
  [ SAssign (EName "dis") (EAttr (EName "cmds") "dissimilarity_matrix_");
    SAssign (EName "scaled_dissimilarity")
      (EBinOp ODiv (EName "dis") (ECall (EAttr (EName "np") "max") [EName "dis"]));
    SExpr
      (ECall (EName "heatmap")
        [ EName "scaled_dissimilarity";
          EKeyword "context" (EStr "paper");
          EKeyword "inner_hier_labels" (EAttr (EName "mice") "labels") ]);
    SExpr (ECall (EAttr (EName "plt") "show") []) ].

Definition notebook : Py.notebook :=
  {| nb_path := "docs/tutorials/connectomics/mcc.ipynb";
     nb_title := "Methods for Multiscale Comparative Connectomics";
     nb_cells :=
       [ Markdown; Code c1; Markdown; Code c3; Code c4; Code c5; Markdown;
         Code c7; Markdown; Code c9; Code c10; Markdown; Code c12; Markdown;
         Markdown; Code c15; Code c16; Markdown; Code c18; Markdown; Code c20;
         Markdown; Code c22; Code c23; Markdown; Code c25; Markdown; Code c27;
         Code c28; Markdown ] |}.

End Mcc.

(** *** src/docs/tutorials/connectomics/mcc.ipynb (second notebook of the file, from line 498) *)

Module PaddedGM.
Import Text Py.

Definition c3 : list stmt :=
  [ SImport [("numpy", Some "np")];
    SImport [("matplotlib.pyplot", Some "plt")];
    SImportFrom "graspologic.match" [("graph_match", None)];
    SImportFrom "graspologic.simulations" [("sbm_corr", None)];
    SImportFrom "graspologic.plot" [("heatmap", None)];
    SExpr (ECall (EAttr (EAttr (EName "np") "random") "seed") [EInt 1]);
    SAssign (EName "rng")
      (ECall (EAttr (EAttr (EName "np") "random") "default_rng") [EInt 1]);
    SAssign (EName "directed") (EBool false);
    SAssign (EName "loops") (EBool false);
    SAssign (EName "block_probs")
      (EList
        [ EList [EFloat "0.9"; EFloat "0.4"; EFloat "0.3"; EFloat "0.2"];
          EList [EFloat "0.4"; EFloat "0.9"; EFloat "0.4"; EFloat "0.3"];
          EList [EFloat "0.3"; EFloat "0.4"; EFloat "0.9"; EFloat "0.4"];
          EList [EFloat "0.2"; EFloat "0.3"; EFloat "0.4"; EFloat "0.7"] ]);
    SAssign (EName "n") (EInt 100);
    SAssign (EName "n_blocks") (EInt 4);
    SAssign (EName "rho") (EFloat "0.5");
    SAssign (EName "block_members")
      (ECall (EAttr (EName "np") "array")
        [EBinOp OMult (EName "n_blocks") (EList [EName "n"])]);
    SAssign (EName "n_verts") (ECall (EAttr (EName "block_members") "sum") []);
    SAssign (ETuple [EName "G1"; EName "G2_full"])
      (ECall (EName "sbm_corr")
        [ EName "block_members";
          EName "block_probs";
          EName "rho";
          EName "directed";
          EName "loops" ]);
    SAssign (EName "keep_indices")
      (ECall (EAttr (EName "np") "concatenate")
        [ ETuple
            [ ECall (EAttr (EName "np") "arange") [EInt 75];
              ECall (EAttr (EName "np") "arange") [EInt 100; EInt 175];
              ECall (EAttr (EName "np") "arange") [EInt 200; EInt 275];
              ECall (EAttr (EName "np") "arange") [EInt 300; EInt 375] ] ]);
    SAssign (EName "G2")
      (ESubscript (ESubscript (EName "G2_full") (EName "keep_indices"))
        (ETuple [ESlice None None; EName "keep_indices"]));
    SAssign (EName "G2_deleted")
      (ECall (EAttr (EName "np") "full")
        [EAttr (EName "G1") "shape"; EUnary UNeg (EInt 1)]);
    SAssign
      (ESubscript (EName "G2_deleted")
        (ECall (EAttr (EName "np") "ix_") [EName "keep_indices"; EName "keep_indices"]))
      (EName "G2");
    SAssign (EName "topleft_G2")
      (ECall (EAttr (EName "np") "zeros") [ETuple [EInt 400; EInt 400]]);
    SAssign
      (ESubscript (EName "topleft_G2")
        (ETuple [ESlice None (Some (EInt 300)); ESlice None (Some (EInt 300))]))
      (EName "G2");
    SAssign (ETuple [EName "fig"; EName "axs"])
      (ECall (EAttr (EName "plt") "subplots")
        [EInt 1; EInt 4; EKeyword "figsize" (ETuple [EInt 20; EInt 10])]);
    SExpr
      (ECall (EName "heatmap")
        [ EName "G1";
          EKeyword "ax" (ESubscript (EName "axs") (EInt 0));
          EKeyword "cbar" (EBool false);
          EKeyword "title" (EStr "G1'") ]);
    SExpr
      (ECall (EName "heatmap")
        [ EName "G2_full";
          EKeyword "ax" (ESubscript (EName "axs") (EInt 1));
          EKeyword "cbar" (EBool false);
          EKeyword "title" (EStr "G2 (before deletions)") ]);
    SExpr
      (ECall (EName "heatmap")
        [ EName "G2_deleted";
          EKeyword "ax" (ESubscript (EName "axs") (EInt 2));
          EKeyword "cbar" (EBool false);
          EKeyword "title" (EStr "G2 (after deletions)") ]);
    SAssign (EName "_")
      (ECall (EName "heatmap")
        [ EName "topleft_G2";
          EKeyword "ax" (ESubscript (EName "axs") (EInt 3));
          EKeyword "cbar" (EBool false);
          EKeyword "title" (EStr "G2 (to top left corner)") ]) ].

Definition c5 : list stmt :=
  [ SAssign (EName "seed2")
      (ECall (EAttr (EName "rng") "choice")
        [ ECall (EAttr (EName "np") "arange")
            [ESubscript (EAttr (EName "G2") "shape") (EInt 0)];
          EInt 8 ]);
    SAssign (EName "seed1")
      (EListComp
        (EBinOp OAdd
          (EBinOp OMult (ECall (EName "int") [EBinOp ODiv (EName "x") (EInt 75)])
            (EInt 25))
          (EName "x"))
        (EName "x")
        (EName "seed2"));
    SAssign (EName "partial_match")
      (ECall (EAttr (EName "np") "column_stack") [ETuple [EName "seed1"; EName "seed2"]]);
    SAssign
      (ETuple [EName "naive_indices1"; EName "naive_indices2"; EName "_"; EName "_"])
      (ECall (EName "graph_match")
        [ EName "G1";
          EName "G2";
          EKeyword "partial_match" (EName "partial_match");
          EKeyword "padding" (EStr "naive");
          EKeyword "rng" (EName "rng") ]);
    SAssign (EName "G2_naive")
      (ESubscript (ESubscript (EName "G2") (EName "naive_indices2"))
        (ETuple [ESlice None None; EName "naive_indices2"]));
    SAssign (EName "G2_naive_full")
      (ECall (EAttr (EName "np") "zeros") [EAttr (EName "G1") "shape"]);
    SAssign
      (ESubscript (EName "G2_naive_full")
        (ECall (EAttr (EName "np") "ix_")
          [EName "naive_indices1"; EName "naive_indices1"]))
      (EName "G2_naive");
    SAssign
      (ETuple [EName "adopted_indices1"; EName "adopted_indices2"; EName "_"; EName "_"])
      (ECall (EName "graph_match")
        [ EName "G1";
          EName "G2";
          EKeyword "partial_match" (EName "partial_match");
          EKeyword "padding" (EStr "adopted");
          EKeyword "rng" (EName "rng") ]);
    SAssign (EName "G2_adopted")
      (ESubscript (ESubscript (EName "G2") (EName "adopted_indices2"))
        (ETuple [ESlice None None; EName "adopted_indices2"]));
    SAssign (EName "G2_adopted_full")
      (ECall (EAttr (EName "np") "zeros") [EAttr (EName "G1") "shape"]);
    SAssign
      (ESubscript (EName "G2_adopted_full")
        (ECall (EAttr (EName "np") "ix_")
          [EName "adopted_indices1"; EName "adopted_indices1"]))
      (EName "G2_adopted");
    SAssign (ETuple [EName "fig"; EName "axs"])
      (ECall (EAttr (EName "plt") "subplots")
        [EInt 1; EInt 2; EKeyword "figsize" (ETuple [EInt 14; EInt 7])]);
    SExpr
      (ECall (EName "heatmap")
        [ EName "G2_naive_full";
          EKeyword "ax" (ESubscript (EName "axs") (EInt 0));
          EKeyword "cbar" (EBool false);
          EKeyword "title" (EStr "Naive Padding") ]);
    SExpr
      (ECall (EName "heatmap")
        [ EName "G2_adopted_full";
          EKeyword "ax" (ESubscript (EName "axs") (EInt 1));
          EKeyword "cbar" (EBool false);
          EKeyword "title" (EStr "Adopted Padding") ]);
    SDef "compute_match_ratio"
      [Param "indices1" None false; Param "indices2" None false]
      [ SAssign (EName "match_ratio") (EInt 0);
        SFor (EName "i") (ECall (EName "range") [ECall (EName "len") [EName "indices2"]])
          [ SIf
              (EBoolOp BAnd
                [ ECompare CmpEq (ESubscript (EName "indices1") (EName "i"))
                    (ESubscript (EName "keep_indices") (EName "i"));
                  ECompare CmpEq (ESubscript (EName "indices2") (EName "i")) (EName "i") ])
              [SAugAssign (EName "match_ratio") OAdd (EInt 1)]
              [] ];
        SReturn
          (Some
            (EBinOp ODiv (EName "match_ratio") (ECall (EName "len") [EName "indices2"]))) ];
    SExpr
      (ECall (EName "print")
        [ EFString
            [ EStr "Matching accuracy with naive padding: ";
              EFormat
                (ECall (EName "compute_match_ratio")
                  [EName "naive_indices1"; EName "naive_indices2"])
                (Some ".2f") ] ]);
    SExpr
      (ECall (EName "print")
        [ EFString
            [ EStr "Matching accuracy with adopted padding: ";
              EFormat
                (ECall (EName "compute_match_ratio")
                  [EName "adopted_indices1"; EName "adopted_indices2"])
                (Some ".2f") ] ]) ].

Definition notebook : Py.notebook :=
  {| nb_path := "docs/tutorials/connectomics/mcc.ipynb";
     nb_title := "Padded Graph Matching";
     nb_cells :=
       [ Markdown; Markdown; Markdown; Code c3; Markdown; Code c5; Markdown ] |}.

End PaddedGM.

(** *** src/docs/tutorials/embedding/AdjacencySpectralEmbed.ipynb *)

Module ASE.
Import Text Py.

Definition c1 : list stmt :=
  [ SImport [("numpy", Some "np")];
    SImport [("pandas", Some "pd")];
    SImport [("matplotlib.pyplot", Some "plt")];
    SImport [("seaborn", Some "sns")];
    SImportFrom "sklearn.metrics" [("adjusted_rand_score", None)];
    SImportFrom "sklearn.cluster" [("KMeans", None)];
    SImportFrom "graspologic.embed" [("AdjacencySpectralEmbed", None)];
    SImportFrom "graspologic.simulations" [("sbm", None)];
    SImportFrom "graspologic.plot" [("heatmap", None); ("pairplot", None)];
    SImport [("warnings", None)];
    SExpr (ECall (EAttr (EName "warnings") "filterwarnings") [EStr "ignore"]);
    SExpr (ECall (EAttr (EAttr (EName "np") "random") "seed") [EInt 8889]);
    SMagic "%matplotlib inline" ].

Definition c3 : list stmt :=
  [ SAssign (EName "n_verts") (EInt 100);
    SAssign (EName "labels_sbm")
      (EBinOp OAdd (EBinOp OMult (EName "n_verts") (EList [EInt 0]))
        (EBinOp OMult (EName "n_verts") (EList [EInt 1])));
    SAssign (EName "P")
      (ECall (EAttr (EName "np") "array")
        [EList [EList [EFloat "0.8"; EFloat "0.2"]; EList [EFloat "0.2"; EFloat "0.8"]]]);
    SAssign (EName "undirected_sbm")
      (ECall (EName "sbm") [EBinOp OMult (EInt 2) (EList [EName "n_verts"]); EName "P"]);
    SAssign (EName "directed_sbm")
      (ECall (EName "sbm")
        [ EBinOp OMult (EInt 2) (EList [EName "n_verts"]);
          EName "P";
          EKeyword "directed" (EBool true) ]);
    SAssign (ETuple [EName "fig"; EName "axes"])
      (ECall (EAttr (EName "plt") "subplots")
        [EInt 1; EInt 2; EKeyword "figsize" (ETuple [EInt 16; EInt 8])]);
    SExpr
      (ECall (EName "heatmap")
        [ EName "undirected_sbm";
          EKeyword "title" (EStr "2-block SBM (undirected)");
          EKeyword "inner_hier_labels" (EName "labels_sbm");
          EKeyword "ax" (ESubscript (EName "axes") (EInt 0)) ]);
    SExpr
      (ECall (EName "heatmap")
        [ EName "directed_sbm";
          EKeyword "title" (EStr "2-block SBM (directed)");
          EKeyword "inner_hier_labels" (EName "labels_sbm");
          EKeyword "ax" (ESubscript (EName "axes") (EInt 1)) ]) ].

Definition c6 : list stmt :=
  [ SAssign (EName "ase") (ECall (EName "AdjacencySpectralEmbed") []);
    SAssign (EName "Xhat")
      (ECall (EAttr (EName "ase") "fit_transform") [EName "undirected_sbm"]);
    SAssign (EName "_")
      (ECall (EName "pairplot")
        [EName "Xhat"; EKeyword "title" (EStr "SBM adjacency spectral embedding")]) ].

Definition c9 : list stmt :=
  [ SAssign (EName "ase") (ECall (EName "AdjacencySpectralEmbed") []);
    SAssign (ETuple [EName "Xhat"; EName "Yhat"])
      (ECall (EAttr (EName "ase") "fit_transform") [EName "directed_sbm"]);
    SExpr
      (ECall (EName "pairplot")
        [ EName "Xhat";
          EKeyword "title"
            (EStr ("SBM adjacency spectral embedding " +:+ dq +:+ "out" +:+ dq)) ]);
    SAssign (EName "_")
      (ECall (EName "pairplot")
        [ EName "Yhat";
          EKeyword "title"
            (EStr ("SBM adjacency spectral embedding " +:+ dq +:+ "in" +:+ dq)) ]) ].

Definition c12 : list stmt :=
  [ SAssign (EName "ase")
      (ECall (EName "AdjacencySpectralEmbed")
        [EKeyword "n_components" (EInt 2); EKeyword "algorithm" (EStr "truncated")]);
    SAssign (EName "Xhat")
      (ECall (EAttr (EName "ase") "fit_transform") [EName "undirected_sbm"]);
    SExpr
      (ECall (EName "pairplot")
        [ EName "Xhat";
          EKeyword "title" (EStr "2-component embedding");
          EKeyword "height" (EInt 4) ]) ].

Definition c14 : list stmt :=
  [ SAssign (EName "palette")
      (EDict
        [EStr "Right"; EStr "Wrong"]
        [ ETuple [EInt 0; EFloat "0.7"; EFloat "0.2"];
          ETuple [EFloat "0.8"; EFloat "0.1"; EFloat "0.1"] ]);
    SFor (EName "insularity")
      (ECall (EAttr (EName "np") "linspace") [EFloat "0.5"; EFloat "0.625"; EInt 4])
      [ SAssign (EName "P")
          (ECall (EAttr (EName "np") "array")
            [ EList
                [ EList [EName "insularity"; EBinOp OSub (EInt 1) (EName "insularity")];
                  EList [EBinOp OSub (EInt 1) (EName "insularity"); EName "insularity"] ] ]);
        SAssign (EName "sampled_sbm")
          (ECall (EName "sbm")
            [EBinOp OMult (EInt 2) (EList [EName "n_verts"]); EName "P"]);
        SAssign (EName "Xhat")
          (ECall
            (EAttr
              (ECall (EName "AdjacencySpectralEmbed") [EKeyword "n_components" (EInt 2)])
              "fit_transform")
            [EName "sampled_sbm"]);
        SAssign (EName "labels_kmeans")
          (ECall
            (EAttr (ECall (EName "KMeans") [EKeyword "n_clusters" (EInt 2)]) "fit_predict")
            [EName "Xhat"]);
        SAssign (EName "ari")
          (ECall (EName "adjusted_rand_score")
            [EName "labels_sbm"; EName "labels_kmeans"]);
        SAssign (EName "error") (EBinOp OSub (EName "labels_sbm") (EName "labels_kmeans"));
        SAssign (EName "error") (ECompare CmpNotEq (EName "error") (EInt 0));
        SIf
          (ECompare CmpGt
            (EBinOp ODiv (ECall (EAttr (EName "np") "sum") [EName "error"])
              (EBinOp OMult (EInt 2) (EName "n_verts")))
            (EFloat "0.5"))
          [SAssign (EName "error") (ECompare CmpEq (EName "error") (EInt 0))]
          [];
        SAssign (EName "error_rate")
          (EBinOp ODiv (ECall (EAttr (EName "np") "sum") [EName "error"])
            (EBinOp OMult (EInt 2) (EName "n_verts")));
        SAssign (EName "error_label")
          (EBinOp OMult (EBinOp OMult (EInt 2) (EName "n_verts")) (EList [EStr "Right"]));
        SAssign (EName "error_label")
          (ECall (EAttr (EName "np") "array") [EName "error_label"]);
        SAssign (ESubscript (EName "error_label") (EName "error")) (EStr "Wrong");
        SExpr
          (ECall (EName "heatmap")
            [ EName "sampled_sbm";
              EKeyword "title"
                (EFString
                  [ EStr "Insularity: ";
                    EFormat
                      (ESubscript (ECall (EName "str") [EName "insularity"])
                        (ESlice None (Some (EInt 5))))
                      None ]);
              EKeyword "inner_hier_labels" (EName "labels_sbm") ]);
        SExpr
          (ECall (EName "pairplot")
            [ EName "Xhat";
              EKeyword "labels" (EName "labels_kmeans");
              EKeyword "title"
                (EFString
                  [ EStr "KMeans on embedding, ARI: ";
                    EFormat
                      (ESubscript (ECall (EName "str") [EName "ari"])
                        (ESlice None (Some (EInt 5))))
                      None ]);
              EKeyword "legend_name" (EStr "Predicted label");
              EKeyword "height" (EFloat "3.5");
              EKeyword "palette" (EStr "muted") ]);
        SExpr
          (ECall (EName "pairplot")
            [ EName "Xhat";
              EKeyword "labels" (EName "error_label");
              EKeyword "title"
                (EFString
                  [ EStr "Error from KMeans, Error rate: ";
                    EFormat (ECall (EName "str") [EName "error_rate"]) None ]);
              EKeyword "legend_name" (EStr "Error label");
              EKeyword "height" (EFloat "3.5");
              EKeyword "palette" (EName "palette") ]) ] ].

Definition notebook : Py.notebook :=
  {| nb_path := "docs/tutorials/embedding/AdjacencySpectralEmbed.ipynb";
     nb_title := "Adjacency Spectral Embed";
     nb_cells :=
       [ Markdown; Code c1; Markdown; Code c3; Markdown; Markdown; Code c6;
         Markdown; Markdown; Code c9; Markdown; Markdown; Code c12; Markdown;
         Code c14 ] |}.

End ASE.

(** *** src/docs/tutorials/embedding/CovariateAssistedEmbed.ipynb *)

Module CASE.
Import Text Py.

Definition c4 : list stmt :=
  [ SImport [("warnings", None)];
    SExpr (ECall (EAttr (EName "warnings") "filterwarnings") [EStr "ignore"]);
    SImport [("numpy", Some "np")];
    SExpr (ECall (EAttr (EAttr (EName "np") "random") "seed") [EInt 42]);
    SImport [("graspologic", None)];
    SImportFrom "graspologic.simulations" [("sbm", None)];
    SAssign (EName "N") (EInt 1500);
    SAssign (EName "n") (EBinOp OFloorDiv (EName "N") (EInt 3));
    SAssign (ETuple [EName "p"; EName "q"]) (ETuple [EFloat ".3"; EFloat ".15"]);
    SAssign (EName "B")
      (ECall (EAttr (EName "np") "array")
        [ EList
            [ EList [EName "p"; EName "p"; EName "q"];
              EList [EName "p"; EName "p"; EName "q"];
              EList [EName "q"; EName "q"; EName "p"] ] ]);
    SAssign (ETuple [EName "A"; EName "labels"])
      (ECall (EName "sbm")
        [ EList [EName "n"; EName "n"; EName "n"];
          EName "B";
          EKeyword "return_labels" (EBool true) ]) ].

Definition c6 : list stmt :=
  [ SImport [("matplotlib.pyplot", Some "plt")];
    SImportFrom "graspologic.plot" [("heatmap", None)];
    SImport [("seaborn", Some "sns")];
    SImport [("matplotlib", None)];
    SAssign (ETuple [EName "fig"; EName "ax"])
      (ECall (EAttr (EName "plt") "subplots")
        [EKeyword "figsize" (ETuple [EInt 10; EInt 10])]);
    SDef "plot_heatmap"
      [ Param "A" None false;
        Param "ax" None false;
        Param "title" (Some (EStr "3-block SBM (first two blocks indistinguishable)"))
          false;
        Param "show_cbar" (Some (EBool true)) false ]
      [ SAssign (EName "cmap")
          (ECall (EAttr (EAttr (EName "matplotlib") "colors") "ListedColormap")
            [EList [EStr "white"; EStr "black"]]);
        SAssign (EName "ax")
          (ECall (EName "heatmap")
            [ EName "A";
              EKeyword "cmap" (EName "cmap");
              EKeyword "ax" (EName "ax");
              EKeyword "inner_hier_labels" (EName "labels");
              EKeyword "title" (EName "title");
              EKeyword "center" ENone ]);
        SAssign (EName "cbar")
          (EAttr (ESubscript (EAttr (EName "ax") "collections") (EInt 0)) "colorbar");
        SIf (EName "show_cbar")
          [ SExpr
              (ECall (EAttr (EName "cbar") "set_ticks")
                [EList [EFloat "0.25"; EFloat ".75"]]);
            SExpr
              (ECall (EAttr (EName "cbar") "set_ticklabels")
                [EList [EStr "No Edge"; EStr "Edge"]]);
            SExpr (ECall (EAttr (EAttr (EName "cbar") "ax") "set_frame_on") [EBool true]) ]
          [SExpr (ECall (EAttr (EName "cbar") "remove") [])] ];
    SExpr (ECall (EName "plot_heatmap") [EName "A"; EName "ax"]) ].

Definition c8 : list stmt :=
  [ SImportFrom "graspologic.embed" [("LaplacianSpectralEmbed", Some "LSE")];
    SImportFrom "graspologic.utils" [("to_laplacian", None)];
    SImportFrom "graspologic.plot" [("pairplot", None)];
    SAssign (EName "L")
      (ECall (EName "to_laplacian") [EName "A"; EKeyword "form" (EStr "R-DAD")]);
    SAssign (EName "L_latents")
      (ECall
        (EAttr (ECall (EName "LSE") [EKeyword "n_components" (EInt 2)]) "fit_transform")
        [EName "L"]);
    SDef "plot_latents"
      [ Param "latent_positions" None false;
        Param "title" None true;
        Param "labels" None true;
        Param "ax" (Some ENone) true ]
      [ SIf (ECompare CmpIs (EName "ax") ENone)
          [SAssign (EName "ax") (ECall (EAttr (EName "plt") "gca") [])]
          [];
        SAssign (EName "plot")
          (ECall (EAttr (EName "sns") "scatterplot")
            [ EKeyword "x"
                (ESubscript (EName "latent_positions") (ETuple [ESlice None None; EInt 0]));
              EKeyword "y"
                (ESubscript (EName "latent_positions") (ETuple [ESlice None None; EInt 1]));
              EKeyword "hue" (EName "labels");
              EKeyword "linewidth" (EInt 0);
              EKeyword "s" (EInt 10);
              EKeyword "ax" (EName "ax");
              EKeyword "palette" (EStr "Set1") ]);
        SExpr
          (ECall (EAttr (EName "plot") "set_title")
            [EName "title"; EKeyword "wrap" (EBool true)]);
        SExpr
          (ECall (EAttr (EAttr (EAttr (EName "ax") "axes") "xaxis") "set_visible")
            [EBool false]);
        SExpr
          (ECall (EAttr (EAttr (EAttr (EName "ax") "axes") "yaxis") "set_visible")
            [EBool false]);
        SExpr
          (ECall (EAttr (EName "ax") "legend")
            [EKeyword "loc" (EStr "upper right"); EKeyword "title" (EStr "Community")]);
        SReturn (Some (EName "plot")) ];
    SAssign (EName "plot")
      (ECall (EName "plot_latents")
        [ EName "L_latents";
          EKeyword "title" (EStr "Latent positions from LSE");
          EKeyword "labels" (EName "labels") ]) ].

Definition c12 : list stmt :=
  [ SImportFrom "scipy.stats" [("beta", None)];
    SDef "make_community"
      [Param "a" None false; Param "b" None false; Param "n" (Some (EInt 500)) false]
      [ SReturn
          (Some
            (ECall (EAttr (EName "beta") "rvs")
              [EName "a"; EName "b"; EKeyword "size" (ETuple [EName "n"; EInt 30])])) ];
    SDef "gen_covariates"
      [Param "n" (Some (EInt 500)) false]
      [ SAssign (EName "c1")
          (ECall (EName "make_community") [EInt 2; EInt 5; EKeyword "n" (EName "n")]);
        SAssign (EName "c2")
          (ECall (EName "make_community") [EInt 2; EInt 2; EKeyword "n" (EName "n")]);
        SAssign (EName "c3")
          (ECall (EName "make_community") [EInt 2; EInt 2; EKeyword "n" (EName "n")]);
        SAssign (EName "covariates")
          (ECall (EAttr (EName "np") "vstack")
            [ETuple [EName "c1"; EName "c2"; EName "c3"]]);
        SReturn (Some (EName "covariates")) ];
    SAssign (EName "Y") (ECall (EName "gen_covariates") []) ].

Definition c14 : list stmt :=
  [ SImportFrom "matplotlib.gridspec" [("GridSpec", None)];
    SAssign (EName "fig")
      (ECall (EAttr (EName "plt") "figure")
        [ EKeyword "tight_layout" (EBool true);
          EKeyword "figsize" (ETuple [EInt 10; EFloat "6.5"]) ]);
    SAssign (EName "gs") (ECall (EName "GridSpec") [EInt 5; EInt 6]);
    SExpr
      (ECall (EAttr (EName "fig") "add_subplot")
        [ ESubscript (EName "gs")
            (ETuple [ESlice None None; ESlice (Some (EInt 0)) (Some (EInt 2))]) ]);
    SExpr
      (ECall (EAttr (EName "fig") "add_subplot")
        [ESubscript (EName "gs") (ETuple [ESlice None None; ESlice (Some (EInt 2)) None])]);
    SAssign (EName "axs") (EAttr (EName "fig") "axes");
    SAssign (EName "Y_ax")
      (ECall (EAttr (EName "sns") "heatmap")
        [ EName "Y";
          EKeyword "ax" (ESubscript (EName "axs") (EInt 0));
          EKeyword "cmap" (EStr "rocket_r");
          EKeyword "cbar" (EBool false);
          EKeyword "yticklabels" (EInt 500) ]);
    SExpr
      (ECall (EAttr (EName "Y_ax") "set")
        [ EKeyword "title" (EStr "$Y$");
          EKeyword "xticks" (EList []);
          EKeyword "ylabel" (EStr "Nodes");
          EKeyword "xlabel" (EStr "Covariates") ]);
    SAssign (EName "YYt") (EBinOp OMatMult (EName "Y") (EAttr (EName "Y") "T"));
    SAssign (EName "aYYt")
      (ECall (EName "heatmap")
        [ EName "YYt";
          EKeyword "title" (EStr "$YY^\top$");
          EKeyword "ax" (ESubscript (EName "axs") (EInt 1));
          EKeyword "cbar" (EBool false) ]) ].

Definition c16 : list stmt :=
  [ SImportFrom "sklearn.utils.extmath" [("randomized_svd", None)];
    SDef "embed"
      [Param "matrix" None false; Param "dimension" None true]
      [ SAssign (ETuple [EName "latents"; EName "_"; EName "_"])
          (ECall (EName "randomized_svd")
            [EName "matrix"; EKeyword "n_components" (EName "dimension")]);
        SReturn (Some (EName "latents")) ];
    SAssign (EName "Y_latents")
      (ECall (EName "embed") [EName "Y"; EKeyword "dimension" (EInt 2)]);
    SExpr
      (ECall (EName "plot_latents")
        [ EName "Y_latents";
          EKeyword "title" (EStr "Embedding from covariates");
          EKeyword "labels" (EName "labels") ]) ].

Definition c20 : list stmt :=
  [ SImportFrom "graspologic.embed" [("CovariateAssistedEmbed", Some "CASE")];
    SAssign (EName "case")
      (ECall (EName "CASE")
        [EKeyword "assortative" (EBool true); EKeyword "n_components" (EInt 2)]);
    SAssign (EName "latents")
      (ECall (EAttr (EName "case") "fit_transform")
        [EKeyword "graph" (EName "A"); EKeyword "covariates" (EName "Y")]);
    SExpr
      (ECall (EName "plot_latents")
        [ EName "latents";
          EKeyword "title" (EStr "CASE embedding");
          EKeyword "labels" (EName "labels") ]) ].

Definition c23 : list stmt :=
  [ SAssign (ETuple [EName "fig"; EName "axs"])
      (ECall (EAttr (EName "plt") "subplots")
        [ EKeyword "nrows" (EInt 3);
          EKeyword "ncols" (EInt 3);
          EKeyword "figsize" (ETuple [EInt 10; EInt 10]) ]);
    SFor (ETuple [EName "a"; EName "ax"])
      (ECall (EName "zip")
        [ ECall (EAttr (EName "np") "geomspace")
            [EFloat "10e-5"; EInt 100; EKeyword "num" (EInt 9)];
          EAttr (EName "axs") "flat" ])
      [ SAssign (EName "case")
          (ECall (EName "CASE")
            [ EKeyword "alpha" (EName "a");
              EKeyword "assortative" (EBool true);
              EKeyword "n_components" (EInt 2) ]);
        SAssign (EName "latents")
          (ECall (EAttr (EName "case") "fit_transform")
            [EKeyword "graph" (EName "A"); EKeyword "covariates" (EName "Y")]);
        SExpr
          (ECall (EName "plot_latents")
            [ EName "latents";
              EKeyword "title"
                (EFString [EStr "weight: "; EFormat (EName "a") (Some ".3f")]);
              EKeyword "labels" (EName "labels");
              EKeyword "ax" (EName "ax") ]);
        SExpr (ECall (EAttr (ECall (EAttr (EName "ax") "get_legend") []) "remove") []) ];
    SExpr
      (ECall (EAttr (EName "fig") "suptitle")
        [ EStr "Comparison of embeddings for differents $\alpha$ values on $XX^\top$";
          EKeyword "y" (EInt 1);
          EKeyword "fontsize" (EInt 25) ]);
    SExpr (ECall (EAttr (EName "plt") "tight_layout") []) ].

Definition c27 : list stmt :=
  [ SAssign (ETuple [EName "p"; EName "q"]) (ETuple [EFloat ".15"; EFloat ".3"]);
    SAssign (EName "B")
      (ECall (EAttr (EName "np") "array")
        [ EList
            [ EList [EName "p"; EName "p"; EName "q"];
              EList [EName "p"; EName "p"; EName "q"];
              EList [EName "q"; EName "q"; EName "p"] ] ]);
    SAssign (ETuple [EName "A"; EName "labels"])
      (ECall (EName "sbm")
        [ EList [EName "n"; EName "n"; EName "n"];
          EName "B";
          EKeyword "return_labels" (EBool true) ]);
    SAssign (EName "case")
      (ECall (EName "CASE")
        [EKeyword "assortative" (EBool false); EKeyword "n_components" (EInt 2)]);
    SAssign (EName "latents")
      (ECall (EAttr (EName "case") "fit_transform")
        [EKeyword "graph" (EName "A"); EKeyword "covariates" (EName "Y")]);
    SExpr
      (ECall (EName "plot_latents")
        [ EName "latents";
          EKeyword "title" (EStr "Embedding in the non-assortative case");
          EKeyword "labels" (EName "labels") ]) ].

Definition notebook : Py.notebook :=
  {| nb_path := "docs/tutorials/embedding/CovariateAssistedEmbed.ipynb";
     nb_title := "Covariate-Assisted Embedding";
     nb_cells :=
       [ Markdown; Markdown; Markdown; Markdown; Code c4; Markdown; Code c6;
         Markdown; Code c8; Markdown; Markdown; Markdown; Code c12; Markdown;
         Code c14; Markdown; Code c16; Markdown; Markdown; Markdown; Code c20;
         Markdown; Markdown; Code c23; Markdown; Markdown; Markdown; Code c27 ] |}.

End CASE.

(** *** src/docs/tutorials/inference/density_test.ipynb *)

Module DensityTest.
Import Text Py.

Definition c3 : list stmt :=
  [ SImport [("numpy", Some "np")];
    SImport [("matplotlib.pyplot", Some "plt")];
    SImportFrom "graspologic.inference.density_test" [("density_test", None)];
    SImportFrom "graspologic.simulations" [("er_np", None)];
    SImportFrom "graspologic.plot" [("heatmap", None)];
    SExpr (ECall (EAttr (EAttr (EName "np") "random") "seed") [EInt 8888]);
    SMagic "%matplotlib inline" ].

Definition c5 : list stmt :=
  [ SAssign (EName "A1") (ECall (EName "er_np") [EInt 500; EFloat "0.6"]);
    SAssign (EName "A2") (ECall (EName "er_np") [EInt 400; EFloat "0.8"]);
    SExpr
      (ECall (EName "heatmap")
        [EName "A1"; EKeyword "title" (EStr "Adjacency Matrix for Network 1")]);
    SExpr
      (ECall (EName "heatmap")
        [EName "A2"; EKeyword "title" (EStr "Adjacency Matrix for Network 2")]) ].

Definition c7 : list stmt :=
  [ SAssign (ETuple [EName "stat"; EName "pvalue"; EName "er_misc"])
      (ECall (EName "density_test") [EName "A1"; EName "A2"]);
    SExpr (ECall (EName "print") [EName "pvalue"]) ].

Definition notebook : Py.notebook :=
  {| nb_path := "docs/tutorials/inference/density_test.ipynb";
     nb_title := "Testing Symmetry of Two Networks with the Density Test";
     nb_cells :=
       [ Markdown; Markdown; Markdown; Code c3; Markdown; Code c5; Markdown;
         Code c7 ] |}.

End DensityTest.

(** *** src/docs/tutorials/inference/group_connection_test.ipynb *)

Module GroupConnectionTest.
Import Text Py.

Definition c1 : list stmt :=
  [ SImport [("numpy", Some "np")];
    SImportFrom "graspologic.inference.group_connection_test"
      [("group_connection_test", None)];
    SImportFrom "graspologic.simulations" [("sbm", None)];
    SImportFrom "graspologic.plot" [("heatmap", None)];
    SExpr (ECall (EAttr (EAttr (EName "np") "random") "seed") [EInt 8888]);
    SMagic "%matplotlib inline" ].

Definition c5 : list stmt :=
  [ SAssign (EName "P")
      (ECall (EAttr (EName "np") "array")
        [EList [EList [EFloat "0.8"; EFloat "0.6"]; EList [EFloat "0.6"; EFloat "0.8"]]]);
    SAssign (EName "csize") (EBinOp OMult (EList [EInt 50]) (EInt 2));
    SAssign (ETuple [EName "A1"; EName "labels1"])
      (ECall (EName "sbm")
        [EName "csize"; EName "P"; EKeyword "return_labels" (EBool true)]);
    SExpr
      (ECall (EName "heatmap")
        [EName "A1"; EKeyword "title" (EStr "2-block SBM adjacency matrix")]) ].

Definition c7 : list stmt :=
  [ SAssign (EName "P")
      (ECall (EAttr (EName "np") "array")
        [ EList
            [EList [EFloat "0.865"; EFloat "0.66"]; EList [EFloat "0.66"; EFloat "0.865"]] ]);
    SAssign (EName "csize") (EBinOp OMult (EList [EInt 60]) (EInt 2));
    SAssign (ETuple [EName "A2"; EName "labels2"])
      (ECall (EName "sbm")
        [EName "csize"; EName "P"; EKeyword "return_labels" (EBool true)]);
    SExpr
      (ECall (EName "heatmap")
        [EName "A2"; EKeyword "title" (EStr "2-block SBM adjacency matrix")]) ].

Definition c9 : list stmt :=
  [ SAssign (ETuple [EName "stat"; EName "pvalue"; EName "misc"])
      (ECall (EName "group_connection_test")
        [EName "A1"; EName "A2"; EName "labels1"; EName "labels2"]);
    SExpr (ECall (EName "print") [EName "pvalue"]) ].

Definition c11 : list stmt :=
  [SExpr (ECall (EName "print") [ESubscript (EName "misc") (EStr "corrected_pvalues")])].

Definition notebook : Py.notebook :=
  {| nb_path := "docs/tutorials/inference/group_connection_test.ipynb";
     nb_title := "Group connection test";
     nb_cells :=
       [ Markdown; Code c1; Markdown; Markdown; Markdown; Code c5; Markdown;
         Code c7; Markdown; Code c9; Markdown; Code c11 ] |}.

End GroupConnectionTest.

(** *** src/docs/tutorials/inference/latent_distribution_test.ipynb *)

Module LatentDistributionTest.
Import Text Py.

Definition c1 : list stmt :=
  [ SImport [("numpy", Some "np")];
    SImport [("matplotlib.pyplot", Some "plt")];
    SExpr (ECall (EAttr (EAttr (EName "np") "random") "seed") [EInt 8888]);
    SImportFrom "graspologic.inference" [("latent_distribution_test", None)];
    SImportFrom "graspologic.embed" [("AdjacencySpectralEmbed", None)];
    SImportFrom "graspologic.simulations" [("sbm", None); ("rdpg", None)];
    SImportFrom "graspologic.utils" [("symmetrize", None)];
    SImportFrom "graspologic.plot" [("heatmap", None); ("pairplot", None)];
    SMagic "%matplotlib inline" ].

Definition c3 : list stmt :=
  [ SAssign (EName "n_components") (EInt 2);
    SAssign (EName "P")
      (ECall (EAttr (EName "np") "array")
        [EList [EList [EFloat "0.9"; EFloat "0.6"]; EList [EFloat "0.6"; EFloat "0.9"]]]);
    SAssign (EName "csize") (EBinOp OMult (EList [EInt 50]) (EInt 2));
    SAssign (EName "A1") (ECall (EName "sbm") [EName "csize"; EName "P"]);
    SAssign (EName "X1")
      (ECall
        (EAttr
          (ECall (EName "AdjacencySpectralEmbed")
            [EKeyword "n_components" (EName "n_components")])
          "fit_transform")
        [EName "A1"]);
    SExpr
      (ECall (EName "heatmap")
        [EName "A1"; EKeyword "title" (EStr "2-block SBM adjacency matrix")]);
    SAssign (EName "_")
      (ECall (EName "pairplot")
        [ EName "X1";
          EKeyword "title" (EStr "2-block adjacency spectral embedding");
          EKeyword "height" (EFloat "4.5") ]) ].

Definition c5 : list stmt :=
  [ SAssign (EName "csize_2") (EBinOp OMult (EList [EInt 75]) (EInt 2));
    SAssign (EName "A2") (ECall (EName "sbm") [EName "csize_2"; EName "P"]);
    SAssign (EName "X2")
      (ECall
        (EAttr
          (ECall (EName "AdjacencySpectralEmbed")
            [EKeyword "n_components" (EName "n_components")])
          "fit_transform")
        [EName "A2"]);
    SExpr
      (ECall (EName "heatmap")
        [EName "A2"; EKeyword "title" (EStr "2-block SBM adjacency matrix")]);
    SAssign (EName "_")
      (ECall (EName "pairplot")
        [ EName "X2";
          EKeyword "title" (EStr "2-block adjacency spectral embedding");
          EKeyword "height" (EFloat "4.5") ]) ].

Definition c8 : list stmt :=
  [ SAssign (EName "ldt_dcorr")
      (ECall (EName "latent_distribution_test")
        [ EName "A1";
          EName "A2";
          EKeyword "test" (EStr "dcorr");
          EKeyword "metric" (EStr "euclidean");
          EKeyword "n_bootstraps" (EInt 100) ]) ].

Definition c9 : list stmt :=
  [ SAssign (EName "ldt_mgc")
      (ECall (EName "latent_distribution_test")
        [ EName "A1";
          EName "A2";
          EKeyword "test" (EStr "mgc");
          EKeyword "metric" (EStr "euclidean");
          EKeyword "n_bootstraps" (EInt 100) ]) ].

Definition c10 : list stmt :=
  [ SExpr
      (ECall (EName "print")
        [ESubscript (EName "ldt_dcorr") (EInt 1); ESubscript (EName "ldt_mgc") (EInt 1)]) ].

Definition c11 : list stmt :=
  [ SAssign (ETuple [EName "fig"; EName "ax"])
      (ECall (EAttr (EName "plt") "subplots")
        [EInt 1; EInt 2; EKeyword "figsize" (ETuple [EInt 10; EInt 6])]);
    SExpr
      (ECall (EAttr (ESubscript (EName "ax") (EInt 0)) "hist")
        [ ESubscript (ESubscript (EName "ldt_dcorr") (EInt 2)) (EStr "null_distribution");
          EInt 50 ]);
    SExpr
      (ECall (EAttr (ESubscript (EName "ax") (EInt 0)) "axvline")
        [ESubscript (EName "ldt_dcorr") (EInt 0); EKeyword "color" (EStr "r")]);
    SExpr
      (ECall (EAttr (ESubscript (EName "ax") (EInt 0)) "set_title")
        [ ECall (EAttr (EStr "DCorr: P-value = {}") "format")
            [ESubscript (EName "ldt_dcorr") (EInt 1)];
          EKeyword "fontsize" (EInt 20) ]);
    SExpr
      (ECall (EAttr (ESubscript (EName "ax") (EInt 0)) "set_xlabel") [EStr "test static"]);
    SExpr
      (ECall (EAttr (ESubscript (EName "ax") (EInt 0)) "set_ylabel") [EStr "frequency"]);
    SExpr
      (ECall (EAttr (ESubscript (EName "ax") (EInt 1)) "hist")
        [ ESubscript (ESubscript (EName "ldt_mgc") (EInt 2)) (EStr "null_distribution");
          EInt 50 ]);
    SExpr
      (ECall (EAttr (ESubscript (EName "ax") (EInt 1)) "axvline")
        [ESubscript (EName "ldt_mgc") (EInt 0); EKeyword "color" (EStr "r")]);
    SExpr
      (ECall (EAttr (ESubscript (EName "ax") (EInt 1)) "set_title")
        [ ECall (EAttr (EStr "MGC: P-value = {}") "format")
            [ESubscript (EName "ldt_mgc") (EInt 1)];
          EKeyword "fontsize" (EInt 20) ]);
    SExpr
      (ECall (EAttr (ESubscript (EName "ax") (EInt 1)) "set_xlabel") [EStr "test static"]);
    SExpr
      (ECall (EAttr (ESubscript (EName "ax") (EInt 1)) "set_ylabel") [EStr "frequency"]);
    SExpr (ECall (EAttr (EName "plt") "show") []) ].

Definition c14 : list stmt :=
  [ SAssign (EName "P2")
      (ECall (EAttr (EName "np") "array")
        [EList [EList [EFloat "0.9"; EFloat "0.4"]; EList [EFloat "0.4"; EFloat "0.9"]]]);
    SAssign (EName "A3") (ECall (EName "sbm") [EName "csize_2"; EName "P2"]);
    SAssign (EName "X1")
      (ECall
        (EAttr
          (ECall (EName "AdjacencySpectralEmbed")
            [EKeyword "n_components" (EName "n_components")])
          "fit_transform")
        [EName "A1"]);
    SAssign (EName "X3")
      (ECall
        (EAttr
          (ECall (EName "AdjacencySpectralEmbed")
            [EKeyword "n_components" (EName "n_components")])
          "fit_transform")
        [EName "A3"]);
    SExpr
      (ECall (EName "heatmap")
        [EName "A1"; EKeyword "title" (EStr "2-block SBM adjacency matrix A1")]);
    SExpr
      (ECall (EName "heatmap")
        [EName "A3"; EKeyword "title" (EStr "2-block SBM adjacency matrix A3")]);
    SExpr
      (ECall (EName "pairplot")
        [ EName "X1";
          EKeyword "title" (EStr "2-block adjacency spectral embedding A1");
          EKeyword "height" (EFloat "4.5") ]);
    SAssign (EName "_")
      (ECall (EName "pairplot")
        [ EName "X3";
          EKeyword "title" (EStr "2-block adjacency spectral embedding A3");
          EKeyword "height" (EFloat "4.5") ]) ].

Definition c16 : list stmt :=
  [ SAssign (EName "ldt_dcorr")
      (ECall (EName "latent_distribution_test")
        [ EName "A1";
          EName "A3";
          EKeyword "test" (EStr "dcorr");
          EKeyword "metric" (EStr "euclidean");
          EKeyword "n_bootstraps" (EInt 100) ]) ].

Definition c17 : list stmt :=
  [ SAssign (EName "ldt_mgc")
      (ECall (EName "latent_distribution_test")
        [ EName "A1";
          EName "A3";
          EKeyword "test" (EStr "mgc");
          EKeyword "metric" (EStr "euclidean");
          EKeyword "n_bootstraps" (EInt 100) ]) ].

Definition c18 : list stmt :=
  [ SExpr
      (ECall (EName "print")
        [ESubscript (EName "ldt_dcorr") (EInt 1); ESubscript (EName "ldt_mgc") (EInt 1)]) ].

Definition c19 : list stmt :=
  [ SAssign (ETuple [EName "fig"; EName "ax"])
      (ECall (EAttr (EName "plt") "subplots")
        [EInt 1; EInt 2; EKeyword "figsize" (ETuple [EInt 10; EInt 6])]);
    SExpr
      (ECall (EAttr (ESubscript (EName "ax") (EInt 0)) "hist")
        [ ESubscript (ESubscript (EName "ldt_dcorr") (EInt 2)) (EStr "null_distribution");
          EInt 50 ]);
    SExpr
      (ECall (EAttr (ESubscript (EName "ax") (EInt 0)) "axvline")
        [ESubscript (EName "ldt_dcorr") (EInt 0); EKeyword "color" (EStr "r")]);
    SExpr
      (ECall (EAttr (ESubscript (EName "ax") (EInt 0)) "set_title")
        [ ECall (EAttr (EStr "DCorr: P-value = {}") "format")
            [ESubscript (EName "ldt_dcorr") (EInt 1)];
          EKeyword "fontsize" (EInt 20) ]);
    SExpr
      (ECall (EAttr (ESubscript (EName "ax") (EInt 0)) "set_xlabel") [EStr "test static"]);
    SExpr
      (ECall (EAttr (ESubscript (EName "ax") (EInt 0)) "set_ylabel") [EStr "frequency"]);
    SExpr
      (ECall (EAttr (ESubscript (EName "ax") (EInt 1)) "hist")
        [ ESubscript (ESubscript (EName "ldt_mgc") (EInt 2)) (EStr "null_distribution");
          EInt 50 ]);
    SExpr
      (ECall (EAttr (ESubscript (EName "ax") (EInt 1)) "axvline")
        [ESubscript (EName "ldt_mgc") (EInt 0); EKeyword "color" (EStr "r")]);
    SExpr
      (ECall (EAttr (ESubscript (EName "ax") (EInt 1)) "set_title")
        [ ECall (EAttr (EStr "MGC: P-value = {}") "format")
            [ESubscript (EName "ldt_mgc") (EInt 1)];
          EKeyword "fontsize" (EInt 20) ]);
    SExpr
      (ECall (EAttr (ESubscript (EName "ax") (EInt 1)) "set_xlabel") [EStr "test static"]);
    SExpr
      (ECall (EAttr (ESubscript (EName "ax") (EInt 1)) "set_ylabel") [EStr "frequency"]);
    SExpr (ECall (EAttr (EName "plt") "show") []) ].

Definition notebook : Py.notebook :=
  {| nb_path := "docs/tutorials/inference/latent_distribution_test.ipynb";
     nb_title := "Latent Distribution Two-Graph Testing";
     nb_cells :=
       [ Markdown; Code c1; Markdown; Code c3; Markdown; Code c5; Markdown;
         Markdown; Code c8; Code c9; Code c10; Code c11; Markdown; Markdown;
         Code c14; Markdown; Code c16; Code c17; Code c18; Code c19 ] |}.

End LatentDistributionTest.

(** *** src/docs/tutorials/inference/latent_position_test.ipynb *)

Module LatentPositionTest.
Import Text Py.

Definition c1 : list stmt :=
  [ SImport [("numpy", Some "np")];
    SExpr (ECall (EAttr (EAttr (EName "np") "random") "seed") [EInt 88889999]);
    SImportFrom "graspologic.inference" [("latent_position_test", None)];
    SImportFrom "graspologic.embed" [("AdjacencySpectralEmbed", None)];
    SImportFrom "graspologic.simulations" [("sbm", None); ("rdpg", None)];
    SImportFrom "graspologic.utils" [("symmetrize", None)];
    SImportFrom "graspologic.plot" [("heatmap", None); ("pairplot", None)];
    SMagic "%matplotlib inline" ].

Definition c3 : list stmt :=
  [ SAssign (EName "n_components") (EInt 4);
    SAssign (EName "P")
      (ECall (EAttr (EName "np") "array")
        [ EList
            [ EList [EFloat "0.9"; EFloat "0.11"; EFloat "0.13"; EFloat "0.2"];
              EList [EInt 0; EFloat "0.7"; EFloat "0.1"; EFloat "0.1"];
              EList [EInt 0; EInt 0; EFloat "0.8"; EFloat "0.1"];
              EList [EInt 0; EInt 0; EInt 0; EFloat "0.85"] ] ]);
    SAssign (EName "P") (ECall (EName "symmetrize") [EName "P"]);
    SAssign (EName "csize") (EBinOp OMult (EList [EInt 32]) (EInt 4));
    SAssign (EName "A") (ECall (EName "sbm") [EName "csize"; EName "P"]);
    SAssign (EName "X")
      (ECall
        (EAttr
          (ECall (EName "AdjacencySpectralEmbed")
            [EKeyword "n_components" (EName "n_components")])
          "fit_transform")
        [EName "A"]);
    SExpr
      (ECall (EName "heatmap")
        [EName "A"; EKeyword "title" (EStr "4-block SBM adjacency matrix")]);
    SAssign (EName "_")
      (ECall (EName "pairplot")
        [EName "X"; EKeyword "title" (EStr "4-block adjacency spectral embedding")]) ].

Definition c6 : list stmt :=
  [ SAssign (EName "A1")
      (ECall (EName "rdpg")
        [ EName "X";
          EKeyword "loops" (EBool false);
          EKeyword "rescale" (EBool false);
          EKeyword "directed" (EBool false) ]);
    SAssign (EName "A2")
      (ECall (EName "rdpg")
        [ EName "X";
          EKeyword "loops" (EBool false);
          EKeyword "rescale" (EBool false);
          EKeyword "directed" (EBool false) ]);
    SAssign (EName "Xhat1")
      (ECall
        (EAttr
          (ECall (EName "AdjacencySpectralEmbed")
            [EKeyword "n_components" (EName "n_components")])
          "fit_transform")
        [EName "A1"]);
    SAssign (EName "Xhat2")
      (ECall
        (EAttr
          (ECall (EName "AdjacencySpectralEmbed")
            [EKeyword "n_components" (EName "n_components")])
          "fit_transform")
        [EName "A2"]);
    SExpr
      (ECall (EName "heatmap")
        [EName "A1"; EKeyword "title" (EStr "Sampled RDPG 1 adjacency matrix")]);
    SExpr
      (ECall (EName "heatmap")
        [EName "A2"; EKeyword "title" (EStr "Sampled RDPG 2 adjacency matrix")]);
    SExpr
      (ECall (EName "pairplot")
        [ EName "Xhat1";
          EKeyword "title" (EStr "Sampled RDPG 1 adjacency spectral embedding") ]);
    SAssign (EName "_")
      (ECall (EName "pairplot")
        [ EName "Xhat2";
          EKeyword "title" (EStr "Sampled RDPG 2 adjacency spectral embedding") ]) ].

Definition c9 : list stmt :=
  [ SAssign (EName "lpt")
      (ECall (EName "latent_position_test")
        [ EName "A1";
          EName "A2";
          EKeyword "n_bootstraps" (EInt 100);
          EKeyword "n_components" (EName "n_components") ]);
    SExpr
      (ECall (EName "print")
        [ECall (EAttr (EStr "p = {}") "format") [ESubscript (EName "lpt") (EInt 1)]]) ].

Definition c13 : list stmt :=
  [ SAssign (EName "A3")
      (ECall (EName "rdpg")
        [ EName "X";
          EKeyword "loops" (EBool false);
          EKeyword "rescale" (EBool false);
          EKeyword "directed" (EBool false) ]);
    SAssign (EName "A4")
      (ECall (EName "rdpg")
        [ EBinOp OAdd (EName "X")
            (ECall (EAttr (EAttr (EName "np") "random") "normal")
              [EFloat "0.05"; EFloat "0.02"; EKeyword "size" (EAttr (EName "X") "shape")]);
          EKeyword "loops" (EBool false);
          EKeyword "rescale" (EBool false);
          EKeyword "directed" (EBool false) ]);
    SAssign (EName "Xhat3")
      (ECall
        (EAttr
          (ECall (EName "AdjacencySpectralEmbed")
            [EKeyword "n_components" (EName "n_components")])
          "fit_transform")
        [EName "A3"]);
    SAssign (EName "Xhat4")
      (ECall
        (EAttr
          (ECall (EName "AdjacencySpectralEmbed")
            [EKeyword "n_components" (EName "n_components")])
          "fit_transform")
        [EName "A4"]);
    SExpr
      (ECall (EName "heatmap")
        [EName "A3"; EKeyword "title" (EStr "Sampled RDPG 3 adjacency matrix")]);
    SExpr
      (ECall (EName "heatmap")
        [ EName "A4";
          EKeyword "title" (EStr "Sampled RDPG 4 (distorted) adjacency matrix") ]);
    SExpr
      (ECall (EName "pairplot")
        [ EName "Xhat3";
          EKeyword "title" (EStr "Sampled RDPG 3 adjacency spectral embedding") ]);
    SAssign (EName "_")
      (ECall (EName "pairplot")
        [ EName "Xhat4";
          EKeyword "title"
            (EStr "Sampled RDPG 4 (distorted) adjacency spectral embedding") ]) ].

Definition c14 : list stmt :=
  [ SAssign (EName "lpt")
      (ECall (EName "latent_position_test")
        [ EName "A3";
          EName "A4";
          EKeyword "n_bootstraps" (EInt 100);
          EKeyword "n_components" (EName "n_components") ]);
    SExpr
      (ECall (EName "print")
        [ECall (EAttr (EStr "p = {}") "format") [ESubscript (EName "lpt") (EInt 1)]]) ].

Definition notebook : Py.notebook :=
  {| nb_path := "docs/tutorials/inference/latent_position_test.ipynb";
     nb_title := "Latent Position Two-Graph Testing";
     nb_cells :=
       [ Markdown; Code c1; Markdown; Code c3; Markdown; Markdown; Code c6;
         Markdown; Markdown; Code c9; Markdown; Markdown; Markdown; Code c13;
         Code c14 ] |}.

End LatentPositionTest.

(** *** src/docs/tutorials/matching/faq.ipynb *)

Module GraphMatching.
Import Text Py.

Definition c1 : list stmt :=
  [ SImport [("numpy", Some "np")];
    SImport [("matplotlib.pyplot", Some "plt")];
    SMagic "%matplotlib inline" ].

Definition c3 : list stmt :=
  [ SImportFrom "graspologic.match" [("graph_match", None)];
    SImportFrom "graspologic.simulations" [("er_np", None)] ].

Definition c5 : list stmt :=
  [ SAssign (EName "n") (EInt 50);
    SAssign (EName "p") (EFloat "0.3");
    SExpr (ECall (EAttr (EAttr (EName "np") "random") "seed") [EInt 1]);
    SAssign (EName "G1")
      (ECall (EName "er_np") [EKeyword "n" (EName "n"); EKeyword "p" (EName "p")]);
    SAssign (EName "node_shuffle_input")
      (ECall (EAttr (EAttr (EName "np") "random") "permutation") [EName "n"]);
    SAssign (EName "G2")
      (ESubscript (EName "G1")
        (ECall (EAttr (EName "np") "ix_")
          [EName "node_shuffle_input"; EName "node_shuffle_input"]));
    SExpr
      (ECall (EName "print")
        [ EStr "Number of edge disagreements: ";
          ECall (EAttr (EName "np") "sum")
            [ECall (EName "abs") [EBinOp OSub (EName "G1") (EName "G2")]] ]) ].

Definition c7 : list stmt :=
  [ SImportFrom "graspologic.plot" [("heatmap", None)];
    SExpr
      (ECall (EName "heatmap")
        [ EName "G1";
          EKeyword "cbar" (EBool false);
          EKeyword "title" (EStr "G1 [ER-NP(50, 0.3) Simulation]") ]);
    SAssign (EName "_")
      (ECall (EName "heatmap")
        [ EName "G2";
          EKeyword "cbar" (EBool false);
          EKeyword "title" (EStr "G2 [G1 Randomly Shuffled]") ]) ].

Definition c9 : list stmt :=
  [ SAssign (ETuple [EName "_"; EName "perm_inds"; EName "score"; EName "misc"])
      (ECall (EName "graph_match") [EName "G1"; EName "G2"]);
    SAssign (EName "G2")
      (ESubscript (ESubscript (EName "G2") (EName "perm_inds"))
        (ETuple [ESlice None None; EName "perm_inds"]));
    SExpr
      (ECall (EName "print")
        [ EStr "Number of edge disagreements: ";
          ECall (EAttr (EName "np") "sum")
            [ECall (EName "abs") [EBinOp OSub (EName "G1") (EName "G2")]] ]) ].

Definition notebook : Py.notebook :=
  {| nb_path := "docs/tutorials/matching/faq.ipynb";
     nb_title := "Introduction to Graph Matching";
     nb_cells :=
       [ Markdown; Code c1; Markdown; Code c3; Markdown; Code c5; Markdown;
         Code c7; Markdown; Code c9 ] |}.

End GraphMatching.

(** *** src/docs/tutorials/plotting/heatmaps.ipynb *)

Module Heatmaps.
Import Text Py.

Definition c1 : list stmt :=
  [SImport [("graspologic", None)]; SImport [("numpy", Some "np")]].

Definition c4 : list stmt :=
  [ SImportFrom "graspologic.simulations" [("sbm", None)];
    SImportFrom "graspologic.plot" [("heatmap", None)];
    SAssign (EName "n_communities") (EList [EInt 50; EInt 50]);
    SAssign (EName "p")
      (EList [EList [EFloat "0.8"; EFloat "0.2"]; EList [EFloat "0.2"; EFloat "0.8"]]);
    SAssign (ETuple [EName "A"; EName "labels"])
      (ECall (EName "sbm")
        [EName "n_communities"; EName "p"; EKeyword "return_labels" (EBool true)]);
    SExpr
      (ECall (EName "heatmap")
        [EName "A"; EKeyword "title" (EStr "Basic Heatmap function")]) ].

Definition c7 : list stmt :=
  [ SExpr
      (ECall (EName "heatmap") [EName "A"; EKeyword "inner_hier_labels" (EName "labels")]) ].

Definition c9 : list stmt :=
  [ SAssign (EName "outer_labels") (EBinOp OMult (EList [EStr "Outer Labels"]) (EInt 100));
    SExpr
      (ECall (EName "heatmap")
        [ EName "A";
          EKeyword "inner_hier_labels" (EName "labels");
          EKeyword "outer_hier_labels" (EName "outer_labels") ]) ].

Definition c12 : list stmt :=
  [ SAssign (EName "wt") (EAttr (EAttr (EName "np") "random") "poisson");
    SAssign (EName "wtargs") (ECall (EName "dict") [EKeyword "lam" (EInt 3)]);
    SAssign (EName "A_poisson")
      (ECall (EName "sbm")
        [ EName "n_communities";
          EName "p";
          EKeyword "wt" (EName "wt");
          EKeyword "wtargs" (EName "wtargs") ]);
    SAssign (EName "title")
      (EStr
        "Weighted Stochastic Block Model with \n weights drawn from a Poisson(3) distribution");
    SAssign (EName "fig")
      (ECall (EName "heatmap") [EName "A_poisson"; EKeyword "title" (EName "title")]) ].

Definition c13 : list stmt :=
  [ SAssign (EName "wt") (EAttr (EAttr (EName "np") "random") "normal");
    SAssign (EName "wtargs")
      (ECall (EName "dict") [EKeyword "loc" (EInt 5); EKeyword "scale" (EInt 1)]);
    SAssign (EName "A_normal")
      (ECall (EName "sbm")
        [ EName "n_communities";
          EName "p";
          EKeyword "wt" (EName "wt");
          EKeyword "wtargs" (EName "wtargs") ]);
    SAssign (EName "title")
      (EStr
        "Weighted Stochastic Block Model with \n weights drawn from a Normal(5, 1) distribution");
    SAssign (EName "fig")
      (ECall (EName "heatmap") [EName "A_normal"; EKeyword "title" (EName "title")]) ].

Definition c15 : list stmt :=
  [ SAssign (EName "title") (EStr "Weighted Stochastic Block Model with Poisson(3)");
    SAssign (EName "fig")
      (ECall (EName "heatmap")
        [ EName "A_poisson";
          EKeyword "title" (EName "title");
          EKeyword "transform" ENone;
          EKeyword "cmap" (EStr "binary");
          EKeyword "center" ENone ]) ].

Definition c17 : list stmt :=
  [ SAssign (EName "G")
      (ECall (EAttr (EName "np") "load")
        [EStr "./data/sub-0025427_ses-1_dwi_desikan.npy"]);
    SExpr
      (ECall (EName "print")
        [ ETuple
            [ ECall (EAttr (EName "np") "min") [EName "G"];
              ECall (EAttr (EName "np") "max") [EName "G"] ] ]) ].

Definition c19 : list stmt :=
  [ SAssign (EName "title") (EStr "Without Transformation");
    SAssign (EName "fig")
      (ECall (EName "heatmap")
        [EName "G"; EKeyword "title" (EName "title"); EKeyword "transform" ENone]) ].

Definition c21 : list stmt :=
  [ SAssign (EName "title") (EStr "Log Transform");
    SAssign (EName "fig")
      (ECall (EName "heatmap")
        [EName "G"; EKeyword "title" (EName "title"); EKeyword "transform" (EStr "log")]) ].

Definition c23 : list stmt :=
  [ SAssign (EName "title") (EStr "Pass-to-ranks (zero-boost) Transform");
    SAssign (EName "fig")
      (ECall (EName "heatmap")
        [ EName "G";
          EKeyword "title" (EName "title");
          EKeyword "transform" (EStr "zero-boost") ]) ].

Definition notebook : Py.notebook :=
  {| nb_path := "docs/tutorials/plotting/heatmaps.ipynb";
     nb_title := "Heatmap: Visualizing a Graph";
     nb_cells :=
       [ Markdown; Code c1; Markdown; Markdown; Code c4; Markdown; Markdown;
         Code c7; Markdown; Code c9; Markdown; Markdown; Code c12; Code c13;
         Markdown; Code c15; Markdown; Code c17; Markdown; Code c19; Markdown;
         Code c21; Markdown; Code c23 ] |}.

End Heatmaps.

(** *** src/docs/tutorials/simulations/rdpg_corr.ipynb *)

Module RdpgCorr.
Import Text Py.

Definition c1 : list stmt :=
  [ SImportFrom "graspologic.simulations.rdpg_corr" [("rdpg_corr", None)];
    SImport [("numpy", Some "np")];
    SImport [("matplotlib.pyplot", Some "plt")];
    SImport [("seaborn", Some "sns")];
    SMagic "%matplotlib inline";
    SExpr (ECall (EAttr (EName "sns") "set_context") [EStr "talk"]) ].

Definition c3 : list stmt :=
  [ SExpr (ECall (EAttr (EAttr (EName "np") "random") "seed") [EInt 1234]);
    SAssign (EName "X")
      (ECall (EAttr (EName "np") "array")
        [ EBinOp OAdd
            (EBinOp OMult (EList [EList [EFloat "0.5"; EFloat "0.2"; EFloat "0.2"]])
              (EInt 50))
            (EBinOp OMult (EList [EList [EFloat "0.1"; EFloat "0.1"; EFloat "0.1"]])
              (EInt 50)) ]);
    SAssign (EName "Y") ENone;
    SAssign (EName "r") (EFloat "0.3");
    SAssign (ETuple [EName "G1"; EName "G2"])
      (ECall (EName "rdpg_corr")
        [ EName "X";
          EName "Y";
          EName "r";
          EKeyword "rescale" (EBool false);
          EKeyword "directed" (EBool false);
          EKeyword "loops" (EBool false) ]) ].

Definition c4 : list stmt :=
  [SExpr (EBinOp OMatMult (EName "X") (EAttr (EName "X") "T"))].

Definition c6 : list stmt :=
  [ SImportFrom "graspologic.plot" [("heatmap", None)];
    SAssign (ETuple [EName "fig"; EName "axs"])
      (ECall (EAttr (EName "plt") "subplots")
        [EInt 1; EInt 3; EKeyword "figsize" (ETuple [EInt 10; EInt 5])]);
    SExpr
      (ECall (EName "heatmap")
        [ EName "G1";
          EKeyword "ax" (ESubscript (EName "axs") (EInt 0));
          EKeyword "cbar" (EBool false);
          EKeyword "title" (EStr "Corr. RDPG 1") ]);
    SExpr
      (ECall (EName "heatmap")
        [ EName "G2";
          EKeyword "ax" (ESubscript (EName "axs") (EInt 1));
          EKeyword "cbar" (EBool false);
          EKeyword "title" (EStr "Corr. RDPG 2") ]);
    SExpr
      (ECall (EName "heatmap")
        [ EBinOp OSub (EName "G1") (EName "G2");
          EKeyword "ax" (ESubscript (EName "axs") (EInt 2));
          EKeyword "cbar" (EBool false);
          EKeyword "title" (EStr "diff(G1-G2)") ]);
    SAssign (EName "ndim") (ESubscript (EAttr (EName "G1") "shape") (EInt 0));
    SExpr
      (ECall (EName "print")
        [ EStr "Difference rate is ";
          EBinOp ODiv
            (ECall (EAttr (EName "np") "sum")
              [ECall (EName "abs") [EBinOp OSub (EName "G1") (EName "G2")]])
            (EBinOp OMult (EName "ndim") (EName "ndim")) ]) ].

Definition c9 : list stmt :=
  [ SImportFrom "graspologic.simulations" [("sbm_corr", None)];
    SExpr (ECall (EAttr (EAttr (EName "np") "random") "seed") [EInt 123]);
    SAssign (EName "directed") (EBool false);
    SAssign (EName "loops") (EBool false);
    SAssign (EName "n_per_block") (EInt 50);
    SAssign (EName "n_blocks") (EInt 2);
    SAssign (EName "block_members")
      (ECall (EAttr (EName "np") "array")
        [EBinOp OMult (EName "n_blocks") (EList [EName "n_per_block"])]);
    SAssign (EName "n_verts") (ECall (EAttr (EName "block_members") "sum") []);
    SAssign (EName "rho") (EFloat ".3");
    SAssign (EName "block_probs")
      (ECall (EAttr (EName "np") "array")
        [ EList
            [EList [EFloat "0.33"; EFloat "0.09"]; EList [EFloat "0.09"; EFloat "0.03"]] ]);
    SAssign (ETuple [EName "A1"; EName "A2"])
      (ECall (EName "sbm_corr")
        [ EName "block_members";
          EName "block_probs";
          EName "rho";
          EKeyword "directed" (EName "directed");
          EKeyword "loops" (EName "loops") ]);
    SAssign (ETuple [EName "fig"; EName "axs"])
      (ECall (EAttr (EName "plt") "subplots")
        [EInt 1; EInt 3; EKeyword "figsize" (ETuple [EInt 10; EInt 5])]);
    SExpr
      (ECall (EName "heatmap")
        [ EName "A1";
          EKeyword "ax" (ESubscript (EName "axs") (EInt 0));
          EKeyword "cbar" (EBool false);
          EKeyword "title" (EStr "Corr. SBM 1") ]);
    SExpr
      (ECall (EName "heatmap")
        [ EName "A2";
          EKeyword "ax" (ESubscript (EName "axs") (EInt 1));
          EKeyword "cbar" (EBool false);
          EKeyword "title" (EStr "Corr. SBM 2") ]);
    SExpr
      (ECall (EName "heatmap")
        [ EBinOp OSub (EName "A1") (EName "A2");
          EKeyword "ax" (ESubscript (EName "axs") (EInt 2));
          EKeyword "cbar" (EBool false);
          EKeyword "title" (EStr "Diff (G1 - G2)") ]);
    SAssign (EName "ndim") (ESubscript (EAttr (EName "G1") "shape") (EInt 0));
    SExpr
      (ECall (EName "print")
        [ EStr "Difference rate with sbm_corr function is ";
          EBinOp ODiv
            (ECall (EAttr (EName "np") "sum")
              [ECall (EName "abs") [EBinOp OSub (EName "A1") (EName "A2")]])
            (EBinOp OMult (EName "ndim") (EName "ndim")) ]) ].

Definition c13 : list stmt :=
  [ SAssign (EName "X")
      (ECall (EAttr (EAttr (EName "np") "random") "dirichlet")
        [EList [EInt 10; EInt 10]; EKeyword "size" (EInt 100)]);
    SAssign (EName "Y") ENone;
    SExpr (ECall (EAttr (EAttr (EName "np") "random") "seed") [EInt 12345]);
    SAssign (EName "r") (EUnary UNeg (EFloat "0.5"));
    SAssign (ETuple [EName "G1"; EName "G2"])
      (ECall (EName "rdpg_corr")
        [ EName "X";
          EName "Y";
          EName "r";
          EKeyword "rescale" (EBool false);
          EKeyword "directed" (EBool false);
          EKeyword "loops" (EBool false) ]);
    SAssign (ETuple [EName "fig"; EName "axs"])
      (ECall (EAttr (EName "plt") "subplots")
        [EInt 1; EInt 3; EKeyword "figsize" (ETuple [EInt 10; EInt 5])]);
    SExpr
      (ECall (EName "heatmap")
        [ EName "G1";
          EKeyword "ax" (ESubscript (EName "axs") (EInt 0));
          EKeyword "cbar" (EBool false);
          EKeyword "title" (EStr "Corr. RDPG 1") ]);
    SExpr
      (ECall (EName "heatmap")
        [ EName "G2";
          EKeyword "ax" (ESubscript (EName "axs") (EInt 1));
          EKeyword "cbar" (EBool false);
          EKeyword "title" (EStr "Corr. RDPG 2") ]);
    SExpr
      (ECall (EName "heatmap")
        [ EBinOp OSub (EName "G1") (EName "G2");
          EKeyword "ax" (ESubscript (EName "axs") (EInt 2));
          EKeyword "cbar" (EBool false);
          EKeyword "title" (EStr "Diff (G1 - G2)") ]);
    SAssign (EName "ndim") (ESubscript (EAttr (EName "G1") "shape") (EInt 0));
    SExpr
      (ECall (EName "print")
        [ EStr "Difference rate when correlation = -0.5 is ";
          EBinOp ODiv
            (ECall (EAttr (EName "np") "sum")
              [ECall (EName "abs") [EBinOp OSub (EName "G1") (EName "G2")]])
            (EBinOp OMult (EName "ndim") (EName "ndim")) ]) ].

Definition c14 : list stmt :=
  [ SExpr (ECall (EAttr (EAttr (EName "np") "random") "seed") [EInt 12345]);
    SAssign (EName "r") (EFloat "0.3");
    SAssign (ETuple [EName "G1"; EName "G2"])
      (ECall (EName "rdpg_corr")
        [ EName "X";
          EName "Y";
          EName "r";
          EKeyword "rescale" (EBool false);
          EKeyword "directed" (EBool false);
          EKeyword "loops" (EBool false) ]);
    SAssign (ETuple [EName "fig"; EName "axs"])
      (ECall (EAttr (EName "plt") "subplots")
        [EInt 1; EInt 3; EKeyword "figsize" (ETuple [EInt 10; EInt 5])]);
    SExpr
      (ECall (EName "heatmap")
        [ EName "G1";
          EKeyword "ax" (ESubscript (EName "axs") (EInt 0));
          EKeyword "cbar" (EBool false);
          EKeyword "title" (EStr "Corr. RDPG 1") ]);
    SExpr
      (ECall (EName "heatmap")
        [ EName "G2";
          EKeyword "ax" (ESubscript (EName "axs") (EInt 1));
          EKeyword "cbar" (EBool false);
          EKeyword "title" (EStr "Corr. RDPG 2") ]);
    SExpr
      (ECall (EName "heatmap")
        [ EBinOp OSub (EName "G1") (EName "G2");
          EKeyword "ax" (ESubscript (EName "axs") (EInt 2));
          EKeyword "cbar" (EBool false);
          EKeyword "title" (EStr "Diff (G1 - G2)") ]);
    SAssign (EName "ndim") (ESubscript (EAttr (EName "G1") "shape") (EInt 0));
    SExpr
      (ECall (EName "print")
        [ EStr "Difference rate when correlation =0.3 is ";
          EBinOp ODiv
            (ECall (EAttr (EName "np") "sum")
              [ECall (EName "abs") [EBinOp OSub (EName "G1") (EName "G2")]])
            (EBinOp OMult (EName "ndim") (EName "ndim")) ]) ].

Definition c15 : list stmt :=
  [ SExpr (ECall (EAttr (EAttr (EName "np") "random") "seed") [EInt 12345]);
    SAssign (EName "r") (EFloat "0.9");
    SAssign (ETuple [EName "G1"; EName "G2"])
      (ECall (EName "rdpg_corr")
        [ EName "X";
          EName "Y";
          EName "r";
          EKeyword "rescale" (EBool false);
          EKeyword "directed" (EBool false);
          EKeyword "loops" (EBool false) ]);
    SAssign (ETuple [EName "fig"; EName "axs"])
      (ECall (EAttr (EName "plt") "subplots")
        [EInt 1; EInt 3; EKeyword "figsize" (ETuple [EInt 10; EInt 5])]);
    SExpr
      (ECall (EName "heatmap")
        [ EName "G1";
          EKeyword "ax" (ESubscript (EName "axs") (EInt 0));
          EKeyword "cbar" (EBool false);
          EKeyword "title" (EStr "Corr. RDPG 1") ]);
    SExpr
      (ECall (EName "heatmap")
        [ EName "G2";
          EKeyword "ax" (ESubscript (EName "axs") (EInt 1));
          EKeyword "cbar" (EBool false);
          EKeyword "title" (EStr "Corr. RDPG 2") ]);
    SExpr
      (ECall (EName "heatmap")
        [ EBinOp OSub (EName "G1") (EName "G2");
          EKeyword "ax" (ESubscript (EName "axs") (EInt 2));
          EKeyword "cbar" (EBool false);
          EKeyword "title" (EStr "Diff (G1 - G2)") ]);
    SAssign (EName "ndim") (ESubscript (EAttr (EName "G1") "shape") (EInt 0));
    SExpr
      (ECall (EName "print")
        [ EStr "Difference rate when correlation =0.9 is ";
          EBinOp ODiv
            (ECall (EAttr (EName "np") "sum")
              [ECall (EName "abs") [EBinOp OSub (EName "G1") (EName "G2")]])
            (EBinOp OMult (EName "ndim") (EName "ndim")) ]) ].

Definition c17 : list stmt :=
  [ SExpr (ECall (EAttr (EAttr (EName "np") "random") "seed") [EInt 12345]);
    SAssign (EName "X")
      (ECall (EAttr (EAttr (EName "np") "random") "dirichlet")
        [EList [EInt 10; EInt 10]; EKeyword "size" (EInt 100)]);
    SAssign (EName "Y") ENone;
    SAssign (EName "rlist") (EList []);
    SFor (EName "i") (ECall (EName "range") [EUnary UNeg (EInt 5); EInt 10])
      [ SAssign (ETuple [EName "g1"; EName "g2"])
          (ECall (EName "rdpg_corr")
            [ EName "X";
              EName "Y";
              EBinOp ODiv (EName "i") (EInt 10);
              EKeyword "rescale" (EBool false);
              EKeyword "directed" (EBool false);
              EKeyword "loops" (EBool false) ]);
        SAssign (EName "ndim") (ESubscript (EAttr (EName "g1") "shape") (EInt 0));
        SAssign (EName "rate")
          (EBinOp ODiv
            (ECall (EAttr (EName "np") "sum")
              [ECall (EName "abs") [EBinOp OSub (EName "g1") (EName "g2")]])
            (EBinOp OMult (EName "ndim") (EName "ndim")));
        SExpr (ECall (EAttr (EName "rlist") "append") [EName "rate"]) ] ].

Definition c18 : list stmt :=
  [ SAssign (EName "x_list")
      (ECall (EAttr (EName "np") "linspace")
        [EUnary UNeg (EFloat "0.5"); EFloat "0.9"; EInt 15]);
    SExpr (ECall (EAttr (EName "plt") "plot") [EName "x_list"; EName "rlist"; EStr "o-"]);
    SExpr (ECall (EAttr (EName "plt") "xlabel") [EStr "Correlation"]);
    SAssign (EName "_") (ECall (EAttr (EName "plt") "ylabel") [EStr "Difference rate"]) ].

Definition notebook : Py.notebook :=
  {| nb_path := "docs/tutorials/simulations/rdpg_corr.ipynb";
     nb_title := "Correlated Random Dot Product Graph (RDPG) Graph Pair";
     nb_cells :=
       [ Markdown; Code c1; Markdown; Code c3; Code c4; Markdown; Code c6;
         Markdown; Markdown; Code c9; Markdown; Markdown; Markdown; Code c13;
         Code c14; Code c15; Markdown; Code c17; Code c18; Markdown ] |}.

End RdpgCorr.

(** *** src/unnamed/part_000 *)

Module MASE.
Import Text Py.

Definition c2 : list stmt :=
  [ SImport [("matplotlib.pyplot", Some "plt")];
    SImport [("numpy", Some "np")];
    SMagic "%matplotlib inline" ].

Definition c7 : list stmt :=
  [ SImportFrom "graspologic.simulations" [("sbm", None)];
    SAssign (EName "n") (EList [EInt 25; EInt 25]);
    SAssign (EName "B1")
      (EList [EList [EFloat "0.3"; EFloat "0.1"]; EList [EFloat "0.1"; EFloat "0.7"]]);
    SAssign (EName "B2")
      (EList [EList [EFloat "0.3"; EFloat "0.1"]; EList [EFloat "0.1"; EFloat "0.3"]]);
    SExpr (ECall (EAttr (EAttr (EName "np") "random") "seed") [EInt 8]);
    SAssign (EName "G1") (ECall (EName "sbm") [EName "n"; EName "B1"]);
    SAssign (EName "G2") (ECall (EName "sbm") [EName "n"; EName "B2"]) ].

Definition c9 : list stmt :=
  [ SImportFrom "graspologic.plot" [("heatmap", None)];
    SExpr
      (ECall (EName "heatmap")
        [ EName "G1";
          EKeyword "figsize" (ETuple [EInt 7; EInt 7]);
          EKeyword "title" (EStr "Visualization of Graph 1");
          EKeyword "cbar" (EBool false) ]);
    SAssign (EName "_")
      (ECall (EName "heatmap")
        [ EName "G2";
          EKeyword "figsize" (ETuple [EInt 7; EInt 7]);
          EKeyword "title" (EStr "Visualization of Graph 2");
          EKeyword "cbar" (EBool false) ]) ].

Definition c13 : list stmt :=
  [ SImportFrom "graspologic.embed" [("MultipleASE", Some "MASE")];
    SAssign (EName "embedder") (ECall (EName "MASE") [EKeyword "n_components" (EInt 2)]);
    SAssign (EName "V_hat")
      (ECall (EAttr (EName "embedder") "fit_transform") [EList [EName "G1"; EName "G2"]]);
    SExpr (ECall (EName "print") [EAttr (EName "V_hat") "shape"]) ].

Definition c16 : list stmt :=
  [ SDef "vis_latent"
      [ Param "V" None false;
        Param "title" None false;
        Param "predicted" (Some (EBool false)) false;
        Param "pred_labels" (Some ENone) false ]
      [ SAssign (ETuple [EName "fig"; EName "ax"])
          (ECall (EAttr (EName "plt") "subplots")
            [EKeyword "figsize" (ETuple [EInt 10; EInt 10])]);
        SIf (EName "predicted")
          [ SExpr
              (ECall (EAttr (EName "ax") "scatter")
                [ ESubscript (EName "V_hat")
                    (ETuple [ECompare CmpEq (EName "pred_labels") (EInt 0); EInt 0]);
                  ESubscript (EName "V_hat")
                    (ETuple [ECompare CmpEq (EName "pred_labels") (EInt 0); EInt 1]);
                  EKeyword "c" (EStr "blue");
                  EKeyword "label" (EStr "Predicted Block 1") ]);
            SExpr
              (ECall (EAttr (EName "ax") "scatter")
                [ ESubscript (EName "V_hat")
                    (ETuple [ECompare CmpEq (EName "pred_labels") (EInt 1); EInt 0]);
                  ESubscript (EName "V_hat")
                    (ETuple [ECompare CmpEq (EName "pred_labels") (EInt 1); EInt 1]);
                  EKeyword "c" (EStr "red");
                  EKeyword "label" (EStr "Predicted Block 2") ]) ]
          [ SExpr
              (ECall (EAttr (EName "ax") "scatter")
                [ ESubscript (EName "V") (ETuple [ESlice None (Some (EInt 25)); EInt 0]);
                  ESubscript (EName "V") (ETuple [ESlice None (Some (EInt 25)); EInt 1]);
                  EKeyword "c" (EStr "blue");
                  EKeyword "label" (EStr "Block 1") ]);
            SExpr
              (ECall (EAttr (EName "ax") "scatter")
                [ ESubscript (EName "V") (ETuple [ESlice (Some (EInt 25)) None; EInt 0]);
                  ESubscript (EName "V") (ETuple [ESlice (Some (EInt 25)) None; EInt 1]);
                  EKeyword "c" (EStr "red");
                  EKeyword "label" (EStr "Block 2") ]) ];
        SExpr
          (ECall (EAttr (EName "ax") "legend")
            [EKeyword "prop" (EDict [EStr "size"] [EInt 20])]);
        SExpr (ECall (EAttr (EName "ax") "set_xticklabels") [EList []]);
        SExpr (ECall (EAttr (EName "ax") "set_yticklabels") [EList []]);
        SExpr (ECall (EAttr (EName "ax") "set_xticks") [EList []]);
        SExpr (ECall (EAttr (EName "ax") "set_yticks") [EList []]);
        SAssign (EName "_")
          (ECall (EAttr (EName "ax") "set_title")
            [EName "title"; EKeyword "fontsize" (EInt 20)]) ];
    SExpr
      (ECall (EName "vis_latent")
        [EName "V_hat"; EStr "Common Latent Positions from MASE Embedding"]) ].

Definition c19 : list stmt :=
  [ SImportFrom "graspologic.cluster" [("KMeansCluster", None)];
    SAssign (EName "clusterer") (ECall (EName "KMeansCluster") []);
    SAssign (EName "pred_labels")
      (ECall (EAttr (EName "clusterer") "fit_predict") [EName "V_hat"]);
    SImportFrom "graspologic.utils" [("remap_labels", None)];
    SAssign (EName "true_labels")
      (EBinOp OAdd (EBinOp OMult (EList [EInt 0]) (EInt 25))
        (EBinOp OMult (EList [EInt 1]) (EInt 25)));
    SAssign (EName "remapped_labels")
      (ECall (EName "remap_labels") [EName "true_labels"; EName "pred_labels"]);
    SExpr
      (ECall (EName "vis_latent")
        [ EName "V_hat";
          EStr "Predicted Communities from Common Latent Positions";
          EBool true;
          EName "remapped_labels" ]) ].

Definition c23 : list stmt :=
  [ SAssign (EName "G1")
      (EListComp (ECall (EName "sbm") [EName "n"; EName "B1"]) (EName "i")
        (ECall (EName "range") [EInt 100]));
    SAssign (EName "G2")
      (EListComp (ECall (EName "sbm") [EName "n"; EName "B2"]) (EName "i")
        (ECall (EName "range") [EInt 100]));
    SAssign (EName "V_hat")
      (ECall (EAttr (EName "embedder") "fit_transform")
        [EBinOp OAdd (EName "G1") (EName "G2")]) ].

Definition c26 : list stmt :=
  [ SExpr
      (ECall (EName "vis_latent")
        [ EName "V_hat";
          EStr "Common Latent Subspace from MASE Embedding with Many Sampled Graphs" ]) ].

Definition c29 : list stmt :=
  [ SImportFrom "graspologic.plot" [("pairplot", None)];
    SAssign (EName "R_1_hat")
      (ECall (EAttr (EName "np") "reshape")
        [ ESubscript (EAttr (EName "embedder") "scores_") (ESlice None (Some (EInt 100)));
          ETuple [EInt 100; EInt 4] ]);
    SAssign (EName "R_2_hat")
      (ECall (EAttr (EName "np") "reshape")
        [ ESubscript (EAttr (EName "embedder") "scores_") (ESlice (Some (EInt 100)) None);
          ETuple [EInt 100; EInt 4] ]);
    SAssign (EName "R_1_hat")
      (ECall (EAttr (EName "np") "delete")
        [EName "R_1_hat"; EInt 1; EKeyword "axis" (EInt 1)]);
    SAssign (EName "R_2_hat")
      (ECall (EAttr (EName "np") "delete")
        [EName "R_2_hat"; EInt 1; EKeyword "axis" (EInt 1)]);
    SAssign (EName "R_hat")
      (ECall (EAttr (EName "np") "concatenate")
        [ETuple [EName "R_1_hat"; EName "R_2_hat"]; EKeyword "axis" (EInt 0)]);
    SAssign (EName "labels")
      (EBinOp OAdd (EBinOp OMult (EList [EStr "SBM 1"]) (EInt 100))
        (EBinOp OMult (EList [EStr "SBM 2"]) (EInt 100)));
    SAssign (EName "_")
      (ECall (EName "pairplot")
        [ EName "R_hat";
          EName "labels";
          EKeyword "title" (EStr "Score Matrices from MASE Embedding");
          EKeyword "palette" (ESet [EStr "green"; EStr "purple"]);
          EKeyword "legend_name" (EStr "Population") ]) ].

Definition c32 : list stmt :=
  [ SAssign (EName "pred_labels")
      (ECall (EAttr (EName "clusterer") "fit_predict") [EName "R_hat"]);
    SAssign (EName "true_labels")
      (EBinOp OAdd (EBinOp OMult (EList [EInt 0]) (EInt 100))
        (EBinOp OMult (EList [EInt 1]) (EInt 100)));
    SAssign (EName "remapped_labels")
      (ECall (EName "remap_labels") [EName "true_labels"; EName "pred_labels"]);
    SAssign (EName "pred_sbm") (EList []);
    SFor (EName "label") (EName "remapped_labels")
      [ SIf (ECompare CmpEq (EName "label") (EInt 0))
          [SExpr (ECall (EAttr (EName "pred_sbm") "append") [EStr "SBM 1"])]
          [SExpr (ECall (EAttr (EName "pred_sbm") "append") [EStr "SBM 2"])] ];
    SAssign (EName "_")
      (ECall (EName "pairplot")
        [ EName "R_hat";
          EName "pred_sbm";
          EKeyword "title" (EStr "Predicted SBM Membership from Score Matrices");
          EKeyword "palette" (ESet [EStr "green"; EStr "purple"]);
          EKeyword "legend_name" (EStr "Population") ]) ].

Definition notebook : Py.notebook :=
  {| nb_path := "unnamed/part_000";
     nb_title := "Multiple Adjacency Spectral Embedding (MASE)";
     nb_cells :=
       [ Markdown; Markdown; Code c2; Markdown; Markdown; Markdown; Markdown;
         Code c7; Markdown; Code c9; Markdown; Markdown; Markdown; Code c13;
         Markdown; Markdown; Code c16; Markdown; Markdown; Code c19; Markdown;
         Markdown; Markdown; Code c23; Markdown; Markdown; Code c26; Markdown;
         Markdown; Code c29; Markdown; Markdown; Code c32; Markdown ] |}.

End MASE.

(** *** src/unnamed/part_001 *)

Module AutoGMM.
Import Text Py.

Definition c1 : list stmt :=
  [ SImport [("numpy", Some "np")];
    SImport [("pandas", Some "pd")];
    SImport [("matplotlib.pyplot", Some "plt")];
    SMagic "%matplotlib inline";
    SImport [("seaborn", Some "sns")];
    SExpr (ECall (EAttr (EName "sns") "set") [EKeyword "font_scale" (EFloat "1.75")]);
    SExpr (ECall (EAttr (EName "sns") "set_style") [EStr "white"]);
    SImport [("random", None)];
    SExpr (ECall (EAttr (EAttr (EName "np") "random") "seed") [EInt 10]) ].

Definition c4 : list stmt :=
  [ SAssign (EName "class_1")
      (ECall (EAttr (EAttr (EName "np") "random") "randn") [EInt 150; EInt 1]);
    SAssign (EName "class_2")
      (EBinOp OAdd (EInt 2)
        (ECall (EAttr (EAttr (EName "np") "random") "randn") [EInt 150; EInt 1]));
    SAssign (EName "dim_1")
      (ECall (EAttr (EName "np") "vstack") [ETuple [EName "class_1"; EName "class_2"]]);
    SAssign (EName "class_1")
      (ECall (EAttr (EAttr (EName "np") "random") "randn") [EInt 150; EInt 1]);
    SAssign (EName "class_2")
      (EBinOp OAdd (EInt 2)
        (ECall (EAttr (EAttr (EName "np") "random") "randn") [EInt 150; EInt 1]));
    SAssign (EName "dim_2")
      (ECall (EAttr (EName "np") "vstack") [ETuple [EName "class_1"; EName "class_2"]]);
    SAssign (EName "X")
      (ECall (EAttr (EName "np") "hstack") [ETuple [EName "dim_1"; EName "dim_2"]]);
    SAssign (EName "label_1")
      (ECall (EAttr (EName "np") "zeros") [ETuple [EInt 150; EInt 1]]);
    SAssign (EName "label_2") (EBinOp OAdd (EInt 1) (EName "label_1"));
    SAssign (EName "c")
      (ECall
        (EAttr
          (ECall (EAttr (EName "np") "vstack")
            [ETuple [EName "label_1"; EName "label_2"]])
          "reshape")
        [EInt 300]);
    SDef "plot"
      [Param "title" None false; Param "c_hat" None false; Param "X" None false]
      [ SExpr
          (ECall (EAttr (EName "plt") "figure")
            [EKeyword "figsize" (ETuple [EInt 10; EInt 10])]);
        SAssign (EName "n_components")
          (ECall (EName "int")
            [EBinOp OAdd (ECall (EAttr (EName "np") "max") [EName "c_hat"]) (EInt 1)]);
        SAssign (EName "palette")
          (ESubscript (ECall (EAttr (EName "sns") "color_palette") [EStr "deep"])
            (ESlice None (Some (EName "n_components"))));
        SAssign (EName "fig")
          (ECall (EAttr (EName "sns") "scatterplot")
            [ EKeyword "x" (ESubscript (EName "X") (ETuple [ESlice None None; EInt 0]));
              EKeyword "y" (ESubscript (EName "X") (ETuple [ESlice None None; EInt 1]));
              EKeyword "hue" (EName "c_hat");
              EKeyword "legend" ENone;
              EKeyword "palette" (EName "palette") ]);
        SExpr
          (ECall (EAttr (EName "fig") "set")
            [ EKeyword "xticks" (EList []);
              EKeyword "yticks" (EList []);
              EKeyword "title" (EName "title") ]);
        SExpr (ECall (EAttr (EName "plt") "show") []) ];
    SExpr (ECall (EName "plot") [EStr "True Clustering"; EName "c"; EName "X"]) ].

Definition c6 : list stmt :=
  [ SImportFrom "sklearn" [("mixture", None)];
    SImportFrom "sklearn.metrics" [("confusion_matrix", None)];
    SImportFrom "scipy.optimize" [("linear_sum_assignment", None)];
    SImportFrom "sklearn.metrics" [("adjusted_rand_score", None)];
    SImportFrom "graspologic.utils" [("remap_labels", None)];
    SAssign (EName "gmm_") (ECall (EAttr (EName "mixture") "GaussianMixture") [EInt 3]);
    SAssign (EName "c_hat_gmm") (ECall (EAttr (EName "gmm_") "fit_predict") [EName "X"]);
    SAssign (EName "c_hat_gmm")
      (ECall (EName "remap_labels") [EName "c"; EName "c_hat_gmm"]);
    SExpr (ECall (EName "plot") [EStr "Sklearn Clustering"; EName "c_hat_gmm"; EName "X"]);
    SExpr
      (ECall (EName "print")
        [ EBinOp OMod (EStr "ARI Score for Model: %.2f")
            (ECall (EName "adjusted_rand_score") [EName "c"; EName "c_hat_gmm"]) ]) ].

Definition c8 : list stmt :=
  [ SImportFrom "graspologic.cluster.autogmm" [("AutoGMMCluster", None)];
    SAssign (EName "autogmm_")
      (ECall (EName "AutoGMMCluster")
        [EKeyword "min_components" (EInt 1); EKeyword "max_components" (EInt 10)]);
    SAssign (EName "c_hat_autogmm")
      (ECall (EAttr (EName "autogmm_") "fit_predict") [EName "X"]);
    SAssign (EName "c_hat_autogmm")
      (ECall (EName "remap_labels") [EName "c"; EName "c_hat_autogmm"]);
    SExpr
      (ECall (EName "plot") [EStr "AutoGMM Clustering"; EName "c_hat_autogmm"; EName "X"]);
    SExpr
      (ECall (EName "print")
        [ EBinOp OMod (EStr "ARI Score for Model: %.2f")
            (ECall (EName "adjusted_rand_score") [EName "c"; EName "c_hat_autogmm"]) ]) ].

Definition notebook : Py.notebook :=
  {| nb_path := "unnamed/part_001";
     nb_title := "Automatic Gaussian Mixture Modeling";
     nb_cells :=
       [ Markdown; Code c1; Markdown; Markdown; Code c4; Markdown; Code c6;
         Markdown; Code c8 ] |}.

End AutoGMM.

(** The notebooks of the slice. *)
Definition notebooks : list Py.notebook :=
  [ Mcc.notebook; PaddedGM.notebook; ASE.notebook; CASE.notebook;
    DensityTest.notebook; GroupConnectionTest.notebook;
    LatentDistributionTest.notebook; LatentPositionTest.notebook;
    GraphMatching.notebook; Heatmaps.notebook; RdpgCorr.notebook; MASE.notebook;
    AutoGMM.notebook ].

(** ** The slice *)

Module Slice.
Import Py.






















(** A code cell, named by the title of its notebook and its position. *)
Definition all_code_cells : list (string * nat * list stmt) :=
  flat_map (fun nb => List.map (fun c => (nb_title nb, fst c, snd c)) (code_cells nb))
    notebooks.

Definition cells_where (p : list stmt -> bool) : list (string * nat) :=
  List.map fst (List.filter (fun c => p (snd c)) all_code_cells).

(** The functions the notebooks define with [def], by notebook. *)
Definition all_defs : list (string * fundef) :=
  flat_map (fun nb => List.map (pair (nb_title nb)) (defs_of (nb_code nb))) notebooks.

(** A block applies operators of its own or steers control itself. *)
Definition is_augassign (s : stmt) : bool :=
  match s with SAugAssign _ _ _ => true | _ => false end.

Definition applies_operator (b : list stmt) : bool := block_any is_augassign is_operator b.

Definition own_logic (b : list stmt) : bool := has_control_flow b || applies_operator b.

Definition returns_value (b : list stmt) : bool :=
  block_any (fun s => match s with SReturn (Some _) => true | _ => false end) never b.

(** Every function a notebook calls by name is a builtin, imported by
    the notebook, or defined in it. *)
Definition called_names_resolve (nb : notebook) : bool :=
  forallb (fun x => mem x builtins
                    || mem x (List.map snd (imports_of (nb_code nb)))
                    || mem x (List.map fd_name (defs_of (nb_code nb))))
    (called_names (nb_code nb)).

(** The values passed for the keyword [k] in the calls of a block. *)
Definition keyword_values (k : string) (b : list stmt) : list expr :=
  flat_map (fun e => match e with
                     | EKeyword n v => if String.eqb n k then [ v ] else []
                     | _ => []
                     end) (block_exprs b).

Definition passes_keyword (k : string) (b : list stmt) : bool :=
  negb (Nat.eqb (length (keyword_values k b)) 0).

(** The modules the notebooks import. *)
Definition imported_modules : list string :=
  flat_map (fun nb => List.map fst (imports_of (nb_code nb))) notebooks.

(** Modules of Python that start threads, processes or tasks. *)
Definition concurrency_modules : list string :=
  [ "threading"; "multiprocessing"; "concurrent"; "asyncio"; "subprocess"; "joblib" ].

Definition is_concurrency_module (m : string) : bool :=
  existsb (fun c => String.eqb m c || Text.starts_with (c +:+ ".") m) concurrency_modules.

Definition try_statements (b : list stmt) : list stmt :=
  List.filter is_try (block_stmts b).

End Slice.

(** ** Notebook code that computes: executable models *)

Module Tutorials.

(** Exceptions the modelled code can meet, and results of calls. *)
Inductive exn := IndexError | ZeroDivisionError | ValueError | OtherError (name : string).

Inductive result (A : Type) : Type :=
| Ok (a : A)
| Raise (e : exn).
Arguments Ok {A} a.
Arguments Raise {A} e.

#[global] Instance result_bind : MBind result :=
  fun A B f r => match r with Ok a => f a | Raise e => Raise e end.

(** *** compute_match_ratio (Padded Graph Matching, cell 5)

    [keep_indices] is a variable of the notebook that the function reads;
    it is a parameter here.  The arrays hold integers.  The quotient of
    two ints is a float in Python; it is the exact rational here. *)

(** [a[i]] for a position [i >= 0]. *)
Definition item (a : list Z) (i : nat) : result Z :=
  match a !! i with
  | Some x => Ok x
  | None => Raise IndexError
  end.

(** [(indices1[i] == keep_indices[i]) and (indices2[i] == i)]: the
    right operand is evaluated only if the left one is true. *)
Definition matched (keep_indices indices1 indices2 : list Z) (i : nat) : result bool :=
  x ← item indices1 i;
  k ← item keep_indices i;
  if (x =? k)%Z then y ← item indices2 i; Ok (y =? Z.of_nat i)%Z
  else Ok false.

(** The [for] loop over [range], threading [match_ratio]. *)
Fixpoint count_matches (keep_indices indices1 indices2 : list Z)
    (range : list nat) (match_ratio : Z) : result Z :=
  match range with
  | [] => Ok match_ratio
  | i :: rest =>
      m ← matched keep_indices indices1 indices2 i;
      count_matches keep_indices indices1 indices2 rest
        (if m : bool then match_ratio + 1 else match_ratio)%Z
  end.

(** [a / b] on ints. *)
Definition truediv (a b : Z) : result Q :=
  if (b =? 0)%Z then Raise ZeroDivisionError else Ok (a # Z.to_pos b).

Definition compute_match_ratio (keep_indices indices1 indices2 : list Z) : result Q :=
  match_ratio ← count_matches keep_indices indices1 indices2
                  (seq 0 (length indices2)) 0%Z;
  truediv match_ratio (Z.of_nat (length indices2)).

(** The count as the specification words it: the number of positions
    [i] below [len(indices2)] with [indices1[i] == keep_indices[i]] and
    [indices2[i] == i]. *)
Definition position_matches (keep_indices indices1 indices2 : list Z) (i : nat) : bool :=
  match indices1 !! i, keep_indices !! i, indices2 !! i with
  | Some x, Some k, Some y => (x =? k)%Z && (y =? Z.of_nat i)%Z
  | _, _, _ => false
  end.

Definition spec_match_count (keep_indices indices1 indices2 : list Z) : nat :=
  length (List.filter (position_matches keep_indices indices1 indices2)
            (seq 0 (length indices2))).

(** The array [keep_indices] of the notebook (cell 3): the first 75
    vertices of each of the four blocks of 100. *)
Definition arange (lo hi : nat) : list Z := List.map Z.of_nat (seq lo (hi - lo)).

Definition keep_indices : list Z :=
  arange 0 75 ++ arange 100 175 ++ arange 200 275 ++ arange 300 375.

(** *** lookup_roi_name (Multiscale Comparative Connectomics, cell 12)

    [atlas k] stands for
    [mice.atlas.query(f'ROI == {k}')['Structure'].item()]. *)
Definition lookup_roi_name (atlas : Z -> result string) (index : Z) : result string :=
  let hemisphere := if (index / 166 =? 0)%Z then "L" else "R" in
  let index := (index mod 166)%Z in
  roi_name ← atlas (index + 1)%Z;
  Ok (roi_name +:+ " (" +:+ hemisphere +:+ ")").

(** *** The edge-wise test loop (Multiscale Comparative Connectomics,
    cell 10) *)

(** [isinstance(e, ValueError)], which is what [except ValueError] asks
    of a raised exception.  IndexError and ZeroDivisionError do not
    derive from ValueError; for a class named otherwise the answer lies
    in the definition of the class, and [value_error_classes name] gives
    it: whether the class of that name derives from ValueError. *)
Definition isinstance_ValueError (value_error_classes : string -> bool) (e : exn) : bool :=
  match e with
  | ValueError => true
  | OtherError name => value_error_classes name
  | IndexError | ZeroDivisionError => false
  end.

(** The classes among Python's builtins that derive from ValueError. *)
Definition builtin_value_errors (name : string) : bool :=
  existsb (String.eqb name)
    [ "UnicodeError"; "UnicodeDecodeError"; "UnicodeEncodeError";
      "UnicodeTranslateError" ].

(** [ksample_test] stands for [KSample('Dcorr').test] applied to the
    samples with [reps=10000] and [workers=-1], [subscript genotype roi_i
    roi_j] for [genotype[:, roi_i, roi_j]], which raises when an index is
    outside the array. *)
Section EdgeLoop.
Context {genotype sample stat pval : Type}.
Variable nan : stat.                         (* np.nan *)
Variable one : pval.                         (* 1 *)
Variable value_error_classes : string -> bool.
Variable ksample_test : list sample -> result (stat * pval).
Variable subscript : genotype -> nat -> nat -> result sample.

(** [[genotype[:, roi_i, roi_j] for genotype in connectomes]] *)
Fixpoint edge_samples (connectomes : list genotype) (roi_i roi_j : nat)
    : result (list sample) :=
  match connectomes with
  | [] => Ok []
  | genotype :: rest =>
      s ← subscript genotype roi_i roi_j;
      ss ← edge_samples rest roi_i roi_j;
      Ok (s :: ss)
  end.

Variable connectomes : list genotype.

(** The [try] statement: the call, and the handler for an exception
    that is an instance of ValueError. *)
Definition guarded_test (samples : list sample) : result (stat * pval) :=
  match ksample_test samples with
  | Ok (statistic, pvalue) => Ok (statistic, pvalue)
  | Raise e =>
      if isinstance_ValueError value_error_classes e then Ok (nan, one)
      else Raise e
  end.

(** The body of the loop up to the row it appends: the samples are
    taken before the [try]. *)
Definition edge_row (roi_i roi_j : nat) : result (nat * nat * stat * pval) :=
  samples ← edge_samples connectomes roi_i roi_j;
  r ← guarded_test samples;
  Ok (roi_i, roi_j, fst r, snd r).

Fixpoint edge_loop (indices : list (nat * nat))
    (edge_pvals : list (nat * nat * stat * pval))
    : result (list (nat * nat * stat * pval)) :=
  match indices with
  | [] => Ok edge_pvals
  | (roi_i, roi_j) :: rest =>
      row ← edge_row roi_i roi_j;
      edge_loop rest (edge_pvals ++ [ row ])
  end.

(** The same loop without the [try]: what the cell would do if it
    left every failure to the library. *)
Fixpoint unguarded_loop (indices : list (nat * nat))
    (edge_pvals : list (nat * nat * stat * pval))
    : result (list (nat * nat * stat * pval)) :=
  match indices with
  | [] => Ok edge_pvals
  | (roi_i, roi_j) :: rest =>
      samples ← edge_samples connectomes roi_i roi_j;
      r ← ksample_test samples;
      unguarded_loop rest (edge_pvals ++ [ (roi_i, roi_j, fst r, snd r) ])
  end.
End EdgeLoop.

(** The graphs of one genotype: a three-dimensional array, one matrix
    of edge weights per mouse.  The weights are integers here. *)
Record graphs := {
  n_mice : nat;
  n_rows : nat;
  n_cols : nat;
  weight : nat -> nat -> nat -> Z
}.

(** [genotype[:, roi_i, roi_j]] on such an array, for indices that are
    not negative: the weights of one edge over the mice, and IndexError
    when an index is outside its axis. *)
Definition edge_weights (genotype : graphs) (roi_i roi_j : nat) : result (list Z) :=
  if (roi_i <? n_rows genotype)%nat && (roi_j <? n_cols genotype)%nat
  then Ok (List.map (fun m => weight genotype m roi_i roi_j) (seq 0 (n_mice genotype)))
  else Raise IndexError.

(** A stand-in for the library's test in examples: it raises
    ValueError when one of the samples has no variance, as the comment in
    the cell says the library does, and returns fixed numbers otherwise.
    The statistic is [None] for nan. *)
Definition constant_sample (s : list Z) : bool :=
  match s with
  | [] => true
  | x :: r => forallb (Z.eqb x) r
  end.

Definition strict_test (samples : list (list Z)) : result (option Q * Q) :=
  if existsb constant_sample samples then Raise ValueError
  else Ok (Some (1 # 2), 1 # 20).

(** Three genotypes of two mice on three vertices; the edge (0, 2) has
    the same weight in both mice of the first one. *)
Definition example_connectomes : list graphs :=
  [ {| n_mice := 2; n_rows := 3; n_cols := 3;
       weight := fun m i j => match i, j with
                              | 0, 1 => nth m [ 3; 5 ]%Z 0%Z
                              | _, _ => 6%Z
                              end |};
    {| n_mice := 2; n_rows := 3; n_cols := 3;
       weight := fun m _ _ => nth m [ 2; 7 ]%Z 0%Z |};
    {| n_mice := 2; n_rows := 3; n_cols := 3;
       weight := fun m _ _ => nth m [ 1; 4 ]%Z 0%Z |} ].

End Tutorials.

(** ** An evaluator for the Python fragment of [compute_match_ratio]

    Integers, integer arrays, [len], [range], subscripts, [==], [and],
    [+], [/], assignment, [+=], [for] over a range, [if] and [return].
    Anything else ends the evaluation with an error; the variables of the
    notebook and of the function share one map, the function's own on
    top. *)

Module Interp.
Import Py Tutorials.

Inductive value :=
| VInt (n : Z)
| VBool (b : bool)
| VRat (q : Q)
| VArray (a : list Z)
| VRange (n : nat)
| VNone.

Definition unsupported {A} : result A := Raise (OtherError "unsupported").

Definition truth (v : value) : result bool :=
  match v with
  | VBool b => Ok b
  | VInt n => Ok (negb (n =? 0)%Z)
  | VNone => Ok false
  | _ => unsupported
  end.

(** [a[i]]: a negative [i] counts from the end. *)
Definition subscript (a i : value) : result value :=
  match a, i with
  | VArray l, VInt k =>
      let k' := (if (k <? 0)%Z then Z.of_nat (length l) + k else k)%Z in
      if (k' <? 0)%Z then Raise IndexError
      else x ← item l (Z.to_nat k'); Ok (VInt x)
  | _, _ => unsupported
  end.

Definition binary (op : binop) (a b : value) : result value :=
  match op, a, b with
  | OAdd, VInt x, VInt y => Ok (VInt (x + y))
  | ODiv, VInt x, VInt y => q ← truediv x y; Ok (VRat q)
  | _, _, _ => unsupported
  end.

Definition equal (a b : value) : result value :=
  match a, b with
  | VInt x, VInt y => Ok (VBool (x =? y)%Z)
  | _, _ => unsupported
  end.

Definition builtin (f : string) (args : list value) : result value :=
  if String.eqb f "len" then
    match args with
    | [ VArray l ] => Ok (VInt (Z.of_nat (length l)))
    | _ => unsupported
    end
  else if String.eqb f "range" then
    match args with
    | [ VInt n ] => Ok (VRange (Z.to_nat n))
    | _ => unsupported
    end
  else unsupported.

(** [a and b and ...]: the value of the first operand that is not
    true, else of the last one. *)
Definition conj_all (eval : expr -> result value) : list expr -> result value :=
  fix go (es : list expr) : result value :=
    match es with
    | [] => unsupported
    | [ e ] => eval e
    | e :: rest =>
        v ← eval e;
        t ← truth v;
        if t : bool then go rest else Ok v
    end.

Definition eval_args (eval : expr -> result value) : list expr -> result (list value) :=
  fix go (es : list expr) : result (list value) :=
    match es with
    | [] => Ok []
    | e :: rest => v ← eval e; vs ← go rest; Ok (v :: vs)
    end.

Fixpoint eval (ρ : gmap string value) (e : expr) : result value :=
  match e with
  | EName x =>
      match ρ !! x with
      | Some v => Ok v
      | None => Raise (OtherError "NameError")
      end
  | EInt n => Ok (VInt n)
  | EBool b => Ok (VBool b)
  | ENone => Ok VNone
  | ECall (EName f) args => vs ← eval_args (eval ρ) args; builtin f vs
  | ESubscript a i => va ← eval ρ a; vi ← eval ρ i; subscript va vi
  | ECompare CmpEq a b => va ← eval ρ a; vb ← eval ρ b; equal va vb
  | EBoolOp BAnd es => conj_all (eval ρ) es
  | EBinOp op a b => va ← eval ρ a; vb ← eval ρ b; binary op va vb
  | _ => unsupported
  end.

(** How a statement ends. *)
Inductive flow :=
| Next (ρ : gmap string value)
| Returned (v : value)
| Raised (e : exn).

Definition run_block (exec : stmt -> gmap string value -> flow)
    : list stmt -> gmap string value -> flow :=
  fix go (ss : list stmt) (ρ : gmap string value) : flow :=
    match ss with
    | [] => Next ρ
    | s :: rest =>
        match exec s ρ with
        | Next ρ' => go rest ρ'
        | f => f
        end
    end.

Fixpoint run_for (body : gmap string value -> flow) (x : string) (ks : list nat)
    (ρ : gmap string value) : flow :=
  match ks with
  | [] => Next ρ
  | k :: rest =>
      match body (<[x := VInt (Z.of_nat k)]> ρ) with
      | Next ρ' => run_for body x rest ρ'
      | f => f
      end
  end.

Definition assign (x : string) (r : result value) (ρ : gmap string value) : flow :=
  match r with
  | Ok v => Next (<[x := v]> ρ)
  | Raise e => Raised e
  end.

Fixpoint exec (s : stmt) (ρ : gmap string value) : flow :=
  match s with
  | SAssign (EName x) e => assign x (eval ρ e) ρ
  | SAugAssign (EName x) op e => assign x (eval ρ (EBinOp op (EName x) e)) ρ
  | SFor (EName x) iter body =>
      match eval ρ iter with
      | Ok (VRange n) => run_for (run_block exec body) x (seq 0 n) ρ
      | Ok _ => Raised (OtherError "unsupported")
      | Raise e => Raised e
      end
  | SIf test body orelse =>
      match v ← eval ρ test; truth v with
      | Ok true => run_block exec body ρ
      | Ok false => run_block exec orelse ρ
      | Raise e => Raised e
      end
  | SReturn (Some e) =>
      match eval ρ e with
      | Ok v => Returned v
      | Raise e => Raised e
      end
  | SReturn None => Returned VNone
  | _ => Raised (OtherError "unsupported")
  end.

Fixpoint bind_params (ps : list param) (args : list value) (ρ : gmap string value)
    : result (gmap string value) :=
  match ps, args with
  | [], [] => Ok ρ
  | p :: ps', v :: args' => bind_params ps' args' (<[p_name p := v]> ρ)
  | _, _ => Raise (OtherError "TypeError")
  end.

(** Calling a function of the notebook with positional arguments. *)
Definition call (d : fundef) (globals : gmap string value) (args : list value)
    : result value :=
  ρ ← bind_params (fd_params d) args globals;
  match run_block exec (fd_body d) ρ with
  | Next _ => Ok VNone
  | Returned v => Ok v
  | Raised e => Raise e
  end.

(** The variables the loop of [compute_match_ratio] relies on. *)
Definition loop_env (keep_indices indices1 indices2 : list Z)
    (ρ : gmap string value) (match_ratio : Z) : Prop :=
  ρ !! "indices1" = Some (VArray indices1)
  /\ ρ !! "indices2" = Some (VArray indices2)
  /\ ρ !! "keep_indices" = Some (VArray keep_indices)
  /\ ρ !! "match_ratio" = Some (VInt match_ratio).

(** A result of the model as a value of the evaluator. *)
Definition as_value (r : result Q) : result value :=
  match r with
  | Ok q => Ok (VRat q)
  | Raise e => Raise e
  end.

End Interp.

(** ** GitHub Actions: more ways to read a run *)

Module Pipeline.
Import Text Actions Runner.

(** The value of [with: k: ...] of a step. *)
Definition with_value (k : string) (s : step) : option string :=
  snd <$> List.find (fun p => String.eqb (fst p) k) (step_with s).







(** For the job [jid] of a run: whether each of its steps executes, in
    the order of the file.  Jobs are taken as [run_jobs] takes them. *)
Fixpoint job_flags (ctx : run_ctx) (done : gmap string conclusion) (js : list job)
    (jid : string) : list bool :=
  match js with
  | [] => []
  | j :: r =>
      if String.eqb (job_id j) jid then
        if job_starts ctx done j then
          List.map snd
            (run_steps (ctx_ref ctx) (ctx_step ctx (job_id j)) 0 true (job_steps j))
        else List.map (fun _ => false) (job_steps j)
      else job_flags ctx (<[job_id j := job_conclusion ctx done j]> done) r jid
  end.

(** The conclusions known when the publish job is considered: the build
    job has concluded as the called workflow did. *)
Definition after_build (ctx : run_ctx) : gmap string conclusion :=
  <["build" := conclude (ctx_called ctx "build")]> ∅.

(** The [i]-th step of the job [jid] executes in the run. *)
Definition step_ran (ctx : run_ctx) (w : workflow) (jid : string) (i : nat) : bool :=
  nth i (job_flags ctx ∅ (wf_jobs w) jid) false.

(** The position of the first step with a given name. *)
Fixpoint position_from (i : nat) (n : string) (ss : list step) : option nat :=
  match ss with
  | [] => None
  | s :: r => if named n s then Some i else position_from (S i) n r
  end.

Definition position (n : string) (ss : list step) : option nat := position_from 0 n ss.

(** The step named [n] of the job [jid] executes and succeeds. *)
Definition step_succeeds (ctx : run_ctx) (w : workflow) (jid n : string) : bool :=
  match List.find (fun j => String.eqb (job_id j) jid) (wf_jobs w) with
  | None => false
  | Some j =>
      match position n (job_steps j) with
      | None => false
      | Some i => step_ran ctx w jid i && is_ok (ctx_step ctx jid i)
      end
  end.

(** The names of the executed steps, [None] for a step without name. *)
Definition executed_names (ctx : run_ctx) (w : workflow) : list (option string) :=
  List.map (fun p => step_name (snd p)) (executed ctx w).

(** The scheduler has nothing left to do: every job has concluded. *)
Definition all_concluded (w : workflow) (σ : gmap string job_state) : Prop :=
  forall j, In j (wf_jobs w) -> exists c, σ !! job_id j = Some (Done c).

(** A run used as an example: for [dev] with everything succeeding. *)
Definition dev_run : run_ctx :=
  {| ctx_ref := "refs/heads/dev";
     ctx_called := fun _ => Succeeded;
     ctx_step := fun _ _ => Succeeded |}.

End Pipeline.

From Stdlib Require PrimFloat.

(** ** Notebook code that computes: further cells *)

(** Numbers of Python and numpy where their rounding matters: binary64
    doubles with the operations of the machine. *)
Module Doubles.
Import PrimFloat.

(** The double of an integer (exact below 2^53). *)
Definition float_of_Z (z : Z) : float :=
  match z with
  | Z0 => 0%float
  | Zpos p => Pos.iter (fun x => x + 1)%float 0%float p
  | Zneg p => (- Pos.iter (fun x => x + 1) 0 p)%float
  end.

(** [i / j] on ints of Python: the double nearest to the quotient. *)
Definition int_truediv (i j : Z) : float := (float_of_Z i / float_of_Z j)%float.

(** [np.linspace(start, stop, num)] for [num > 1], as numpy computes
    it: the step is [(stop - start) / (num - 1)], the points are
    [k * step + start], and the last one is set to [stop]. *)
Definition linspace (start stop : float) (num : nat) : list float :=
  let step := ((stop - start) / float_of_Z (Z.of_nat (num - 1)))%float in
  List.map (fun k => if Nat.eqb k (num - 1) then stop
                     else (float_of_Z (Z.of_nat k) * step + start)%float)
    (seq 0 num).

(** Correlated RDPG graph pair, cells 17 and 18: the correlation [i/10]
    of a round of the loop, and [x_list = np.linspace(-0.5,0.9,15)]; the
    literal 0.9 is the double nearest to it. *)
Definition correlation (i : Z) : float := int_truediv i 10.

Definition x_list : list float := linspace (-0.5)%float 0x1.ccccccccccccdp-1%float 15.

(** The double -2^-54, about -5.55e-17. *)
Definition minus_2_54 : float := (-0x1p-54)%float.

(** [x == y] and [abs(x - y) <= 2**-52] on doubles. *)
Definition equal (x y : float) : bool := (x =? y)%float.

Definition within_2_52 (x y : float) : bool := (abs (x - y) <=? 0x1p-52)%float.

End Doubles.

Module Cells.
Import Tutorials.

(** *** The seeds of Padded Graph Matching (cell 5)

    [seed1 = [int(x / 75) * 25 + x for x in seed2]].  [x / 75] is the
    float quotient and [int] cuts it toward zero; for the integers of the
    notebook the float quotient is exact enough that this is the integer
    quotient rounded toward zero. *)
Definition seed1 (seed2 : list Z) : list Z :=
  List.map (fun x => Z.quot x 75 * 25 + x)%Z seed2.

(** *** The Holm-Bonferroni cells (Multiscale Comparative Connectomics,
    cells 12 and 20)

    The p-values are floats; they are rationals here.  [pval_rank] is
    what [rank(ascending=False, method=max)] of the library gives for the
    row. *)

(** [lambda pval: 1 if pval > 1 else pval] *)
Definition holm_clip (pval : Q) : Q :=
  if Qlt_le_dec 1 pval then 1%Q else pval.

(** The column [holm_pval] at one row: [multiply], then the lambda. *)
Definition holm_pval (pval pval_rank : Q) : Q :=
  holm_clip (pval * pval_rank).

Definition alpha : Q := 5 # 100.

(** The column [significant] at one row: [holm_pval < alpha]. *)
Definition significant (holm_pval : Q) : bool :=
  if Qlt_le_dec holm_pval alpha then true else false.

(** The three columns for the rows in the order of the frame. *)
Definition holm_columns (pvals pval_ranks : list Q) : list (Q * Q * bool) :=
  zip_with (fun pval pval_rank =>
              let h := holm_pval pval pval_rank in (pval, h, significant h))
           pvals pval_ranks.

(** *** The rows of the edge-wise loop (Multiscale Comparative
    Connectomics, cell 10)

    What a row [[roi_i, roi_j, statistic, pvalue]] says about its edge:
    the samples of the edge could be taken, and the row holds what the
    test returned for them, or nan and 1 where the test raised an
    instance of ValueError. *)
Section EdgeRows.
Context {genotype sample stat pval : Type}.
Variable nan : stat.
Variable one : pval.
Variable value_error_classes : string -> bool.
Variable ksample_test : list sample -> result (stat * pval).
Variable subscript : genotype -> nat -> nat -> result sample.
Variable connectomes : list genotype.

Definition row_of_test (row : nat * nat * stat * pval) : Prop :=
  let '(i, j, s, p) := row in
  exists samples,
    edge_samples subscript connectomes i j = Ok samples
    /\ (ksample_test samples = Ok (s, p)
        \/ exists e, ksample_test samples = Raise e
             /\ isinstance_ValueError value_error_classes e = true
             /\ s = nan /\ p = one).
End EdgeRows.

(** *** The error labels of Adjacency Spectral Embed (cell 14)

    The body of the loop from [error = labels_sbm - labels_kmeans] on;
    [labels_kmeans] is what [KMeans(n_clusters=2).fit_predict(Xhat)]
    returns. *)
Definition n_verts : nat := 100.

Definition labels_sbm : list Z := repeat 0%Z n_verts ++ repeat 1%Z n_verts.

(** Broadcasting of two one-dimensional arrays: the lengths are equal
    or one of them is 1. *)
Definition broadcast1 {A : Type} (d : A) (a b : list A) : result (list A * list A) :=
  if (length a =? length b)%nat then Ok (a, b)
  else if (length a =? 1)%nat then Ok (repeat (hd d a) (length b), b)
  else if (length b =? 1)%nat then Ok (a, repeat (hd d b) (length a))
  else Raise ValueError.

(** [a - b] *)
Definition subtract1 (a b : list Z) : result (list Z) :=
  ab ← broadcast1 0%Z a b;
  Ok (zip_with Z.sub (fst ab) (snd ab)).

(** [np.sum] of an array of booleans. *)
Definition count_true (m : list bool) : Z :=
  Z.of_nat (length (List.filter (fun b => b) m)).

(** [a[mask] = v] for a boolean mask. *)
Definition mask_assign {A : Type} (a : list A) (mask : list bool) (v : A) : result (list A) :=
  if (length mask =? length a)%nat
  then Ok (zip_with (fun x (m : bool) => if m then v else x) a mask)
  else Raise IndexError.

Record error_cell_out := {
  error : list bool;
  error_rate : Q;
  error_label : list string;
}.

(** The cell from [if np.sum(error) / (2 * n_verts) > 0.5] on. *)
Definition label_errors (error : list bool) : result error_cell_out :=
  let error :=
    if Qlt_le_dec (1 # 2) (count_true error # Pos.of_nat (2 * n_verts))
    then List.map (fun e : bool => negb e) error
    else error in
  let error_rate := count_true error # Pos.of_nat (2 * n_verts) in
  let error_label := repeat "Right" (2 * n_verts) in
  error_label ← mask_assign error_label error "Wrong";
  Ok {| error := error; error_rate := error_rate; error_label := error_label |}.

Definition error_cell (labels_kmeans : list Z) : result error_cell_out :=
  error ← subtract1 labels_sbm labels_kmeans;
  let error := List.map (fun d => negb (d =? 0)%Z) error in
  label_errors error.

(** The vertices whose label differs from the one of [labels_sbm], as a
    mask. *)
Definition mismatches (labels_kmeans : list Z) : list bool :=
  zip_with (fun a b => negb (a =? b)%Z) labels_sbm labels_kmeans.

(** *** Two-dimensional arrays (Introduction to Graph Matching, cells 5
    and 9; Correlated RDPG graph pair, cells 5, 8, 11, 13, 15 and 17)

    An array has its shape and its entries; the entries are integers
    here (the graphs hold 0.0 and 1.0). *)
Record array2 := {
  nrows : nat;
  ncols : nat;
  at_ : nat -> nat -> Z;
}.

(** An index into an axis of length [n]: negative ones count from the
    end. *)
Definition np_index (n : nat) (i : Z) : result nat :=
  if (0 <=? i)%Z && (i <? Z.of_nat n)%Z then Ok (Z.to_nat i)
  else if (- Z.of_nat n <=? i)%Z && (i <? 0)%Z then Ok (Z.to_nat (i + Z.of_nat n))
  else Raise IndexError.

Fixpoint np_indices (n : nat) (idx : list Z) : result (list nat) :=
  match idx with
  | [] => Ok []
  | i :: rest =>
      k ← np_index n i;
      ks ← np_indices n rest;
      Ok (k :: ks)
  end.

(** [a[idx]] *)
Definition take_rows (a : array2) (idx : list Z) : result array2 :=
  ks ← np_indices (nrows a) idx;
  Ok {| nrows := length ks; ncols := ncols a;
        at_ := fun i j => at_ a (nth i ks 0) j |}.

(** [a[:, idx]] *)
Definition take_cols (a : array2) (idx : list Z) : result array2 :=
  ks ← np_indices (ncols a) idx;
  Ok {| nrows := nrows a; ncols := length ks;
        at_ := fun i j => at_ a i (nth j ks 0) |}.

(** [a[np.ix_(rows, cols)]] *)
Definition take_ix (a : array2) (rows cols : list Z) : result array2 :=
  rs ← np_indices (nrows a) rows;
  cs ← np_indices (ncols a) cols;
  Ok {| nrows := length rs; ncols := length cs;
        at_ := fun i j => at_ a (nth i rs 0) (nth j cs 0) |}.

(** The length of an axis of the result of a binary operation. *)
Definition broadcast_dim (m n : nat) : result nat :=
  if (m =? n)%nat then Ok m
  else if (m =? 1)%nat then Ok n
  else if (n =? 1)%nat then Ok m
  else Raise ValueError.

(** [a - b] *)
Definition subtract (a b : array2) : result array2 :=
  r ← broadcast_dim (nrows a) (nrows b);
  c ← broadcast_dim (ncols a) (ncols b);
  let pick (n i : nat) := if (n =? 1)%nat then 0 else i in
  Ok {| nrows := r; ncols := c;
        at_ := fun i j =>
          (at_ a (pick (nrows a) i) (pick (ncols a) j)
           - at_ b (pick (nrows b) i) (pick (ncols b) j))%Z |}.

(** [abs(a)] *)
Definition np_abs (a : array2) : array2 :=
  {| nrows := nrows a; ncols := ncols a; at_ := fun i j => Z.abs (at_ a i j) |}.

Definition sum_list (l : list Z) : Z := fold_right Z.add 0%Z l.

(** [np.sum(a)] *)
Definition np_sum (a : array2) : Z :=
  sum_list (List.map (fun i => sum_list (List.map (at_ a i) (seq 0 (ncols a))))
              (seq 0 (nrows a))).

(** [np.sum(abs(G1-G2))] *)
Definition disagreements (G1 G2 : array2) : result Z :=
  d ← subtract G1 G2;
  Ok (np_sum (np_abs d)).

(** The two cells of the graph matching notebook, from the shuffle and
    the permutation the library returns to the number they print. *)
Definition shuffle (G1 : array2) (node_shuffle_input : list Z) : result array2 :=
  take_ix G1 node_shuffle_input node_shuffle_input.

Definition unshuffle (G2 : array2) (perm_inds : list Z) : result array2 :=
  G2 ← take_rows G2 perm_inds;
  take_cols G2 perm_inds.

(** A graph on three vertices with the one edge 0 - 1, for examples. *)
Definition example_graph : array2 :=
  {| nrows := 3; ncols := 3;
     at_ := fun i j => if (i + j =? 1)%nat then 1%Z else 0%Z |}.

(** A number of numpy: a division by zero gives nan or an infinity
    (with a warning), not an exception. *)
Inductive np_float := Finite (q : Q) | PosInf | NegInf | NaN.

(** [s / d] for a numpy number [s] and an int [d]. *)
Definition np_truediv (s d : Z) : np_float :=
  if (d =? 0)%Z then
    if (s =? 0)%Z then NaN else if (0 <? s)%Z then PosInf else NegInf
  else Finite (Qmake s 1 / Qmake d 1).

(** [np.sum(abs(g1-g2))/(ndim*ndim)] *)
Definition difference_rate (ndim : nat) (g1 g2 : array2) : result np_float :=
  s ← disagreements g1 g2;
  Ok (np_truediv s (Z.of_nat (ndim * ndim))).

(** [range(lo, hi)] *)
Definition py_range (lo hi : Z) : list Z :=
  List.map (fun k => lo + Z.of_nat k)%Z (seq 0 (Z.to_nat (hi - lo))).

(** The loop of the correlated RDPG notebook (cell 17).  [rdpg_corr r]
    stands for [rdpg_corr(X, Y, r, rescale=False, directed=False,
    loops=False)], called with the double [i/10]. *)
Section RateLoop.
Variable rdpg_corr : PrimFloat.float -> result (array2 * array2).

Fixpoint rate_loop (range : list Z) (rlist : list np_float) : result (list np_float) :=
  match range with
  | [] => Ok rlist
  | i :: rest =>
      g ← rdpg_corr (Doubles.correlation i);
      let ndim := nrows (fst g) in
      rate ← difference_rate ndim (fst g) (snd g);
      rate_loop rest (rlist ++ [ rate ])
  end.

Definition rlist : result (list np_float) := rate_loop (py_range (-5) 10) [].
End RateLoop.

End Cells.

(** * Properties *)

(** ** Workflows *)

Section CI.
Import Text Actions Runner.

Lemma cond_ref_is ref target :
  cond_holds ref (Some (ref_is target)) = true <-> lower ref = lower target.
Proof. simpl. apply String.eqb_eq. Qed.

Lemma cond_ref_or ref a b :
  cond_holds ref (Some (EOr (ref_is a) (ref_is b))) = true <->
  lower ref = lower a \/ lower ref = lower b.
Proof.
  cbn [cond_holds eval ref_is val_eq truthy].
  destruct (String.eqb (lower ref) (lower a)) eqn:Ea; cbn [truthy].
  - apply String.eqb_eq in Ea. tauto.
  - apply String.eqb_neq in Ea. split.
    + intros H. right. apply String.eqb_eq, H.
    + intros [H|H]; [contradiction | apply String.eqb_eq, H].
Qed.

Lemma lower_main_dev ref :
  lower ref = lower "refs/heads/main" -> lower ref = lower "refs/heads/dev" -> False.
Proof. intros -> H. vm_compute in H. discriminate. Qed.

Lemma matches_any_literal ps s :
  forallb literal_pattern ps = true ->
  matches_any ps s = Some (existsb (fun p => String.eqb p s) ps).
Proof.
  induction ps as [|p ps IH]; simpl; [reflexivity|].
  intros [Hp Hps]%andb_prop. unfold pattern_matches.
  rewrite Hp, (IH Hps). reflexivity.
Qed.

Lemma all_match_literal ps paths :
  forallb literal_pattern ps = true ->
  all_match ps paths =
    Some (forallb (fun x => existsb (fun p => String.eqb p x) ps) paths).
Proof.
  intros Hps. induction paths as [|x paths IH]; simpl; [reflexivity|].
  rewrite (matches_any_literal _ _ Hps), IH. reflexivity.
Qed.

Lemma ignored_path_iff x :
  existsb (fun p => String.eqb p x) ignored_paths = true <->
  x = ".all-contributorsrc" \/ x = "CONTRIBUTORS.md".
Proof.
  unfold ignored_paths. cbn [existsb].
  rewrite !orb_true_iff, !String.eqb_eq.
  intuition (congruence || discriminate).
Qed.

Lemma all_ignored_iff changed :
  forallb (fun x => existsb (fun p => String.eqb p x) ignored_paths) changed = true <->
  Forall (fun p => p = ".all-contributorsrc" \/ p = "CONTRIBUTORS.md") changed.
Proof.
  rewrite forallb_forall, List.Forall_forall.
  split; intros H x Hx; apply ignored_path_iff, H, Hx.
Qed.

(** The push filter of the publish workflow, evaluated. *)
Lemma publish_push_trigger b changed :
  triggered publish_yml (Push (Branch b) changed) =
    Some ((String.eqb "main" b || String.eqb "dev" b)
          && negb (forallb (fun x => existsb (fun p => String.eqb p x) ignored_paths)
                     changed)).
Proof.
  cbn [triggered publish_yml wf_on on_push].
  unfold branch_passes, paths_pass; cbn [f_branches f_branches_ignore f_paths_ignore].
  rewrite matches_any_literal by reflexivity.
  rewrite all_match_literal by reflexivity.
  simpl. rewrite orb_false_r, andb_true_r. reflexivity.
Qed.

Lemma publish_trigger_branch r changed :
  triggered publish_yml (Push r changed) = Some true ->
  r = Branch "main" \/ r = Branch "dev".
Proof.
  destruct r as [b|t]; [|discriminate].
  rewrite publish_push_trigger. intros H.
  apply (f_equal (default false)) in H. cbn [default] in H.
  apply andb_prop in H as [H _]. apply orb_prop in H as [H|H];
    apply String.eqb_eq in H; subst; auto.
Qed.

(** Both workflows list every job after the jobs it needs, the order in
    which [run_jobs] takes them. *)
Lemma jobs_listed_after_needs :
  forallb (fun w => needs_declared_before [] (wf_jobs w)) ci_workflows = true.
Proof. reflexivity. Qed.

Lemma run_steps_In ss : forall ref out i ok s,
  In (s, true) (run_steps ref out i ok ss) ->
  In s ss /\ cond_holds ref (step_if s) = true.
Proof.
  induction ss as [|s0 ss IH]; simpl; intros ref out i ok s H; [contradiction|].
  destruct H as [H|H].
  - injection H as -> H. apply andb_prop in H as [_ H]. auto.
  - apply IH in H as [H1 H2]. auto.
Qed.

(** Whatever a run of the publish workflow executes is a step of the
    [publish] job whose own condition and the job's condition hold, after
    the called build workflow succeeded. *)
Lemma executed_publish ctx jid s :
  In (jid, s) (executed ctx publish_yml) ->
  jid = "publish" /\ In s publish_steps
  /\ cond_holds (ctx_ref ctx) (step_if s) = true
  /\ (lower (ctx_ref ctx) = lower "refs/heads/main"
      \/ lower (ctx_ref ctx) = lower "refs/heads/dev")
  /\ ctx_called ctx "build" = Succeeded.
Proof.
  unfold executed. cbn [publish_yml wf_jobs run_jobs].
  rewrite app_nil_r. intros [H|H]%in_app_or.
  - unfold job_executes in H. simpl in H. destruct H.
  - unfold job_executes in H.
    destruct (job_starts _ _ _) eqn:Hs; [|destruct H].
    unfold job_starts in Hs. cbn [job_needs job_if forallb publish_job] in Hs.
    apply andb_prop in Hs as [Hn Hc]. rewrite andb_true_r in Hn.
    apply cond_ref_or in Hc.
    unfold need_met, job_conclusion in Hn.
    change (job_id build_job) with "build" in Hn.
    rewrite lookup_insert_eq in Hn. cbn in Hn. destruct (ctx_called ctx "build") eqn:Hb; [|discriminate].
    apply in_map_iff in H as [[s' e] [Heq H]]. injection Heq as <- ->.
    apply filter_In in H as [H He]. simpl in He. subst e.
    apply run_steps_In in H as [H1 H2]. auto.
Qed.

(** The publishing steps of the publish job and their conditions. *)
Lemma publishing_step_guard s :
  In s publish_steps -> publishes s = true ->
  step_if s = Some (EOr (ref_is "refs/heads/main") (ref_is "refs/heads/dev"))
  \/ step_if s = Some (ref_is "refs/heads/main")
  \/ step_if s = Some (ref_is "refs/heads/dev").
Proof.
  unfold publish_steps. simpl.
  intros H; repeat (destruct H as [<-|H]; [vm_compute; intros; auto; discriminate|]).
  destruct H.
Qed.

(** However a run was started, publishing is guarded by the ref, compared
    without regard to letter case. *)
Lemma publish_guarded ctx jid s :
  In (jid, s) (executed ctx publish_yml) -> publishes s = true ->
  lower (ctx_ref ctx) = lower "refs/heads/main"
  \/ lower (ctx_ref ctx) = lower "refs/heads/dev".
Proof. intros H _. apply executed_publish in H. tauto. Qed.


Lemma named_step_guard n s :
  In s publish_steps -> named n s = true ->
  (n = "Build Release with setuptools" -> step_if s = Some (ref_is "refs/heads/main"))
  /\ (n = "Build Prerelease with setuptools" -> step_if s = Some (ref_is "refs/heads/dev"))
  /\ (n = "Create tag and GitHub release" -> step_if s = Some (ref_is "refs/heads/main")).
Proof.
  unfold publish_steps. simpl.
  intros H; repeat (destruct H as [<-|H];
    [ unfold named; cbn [step_name mk_step]; try discriminate;
      intros ->%String.eqb_eq; repeat split; intros [=]; reflexivity |]).
  destruct H.
Qed.

Lemma step_executes_guard ctx n :
  step_executes ctx publish_yml n = true ->
  exists s, In s publish_steps /\ named n s = true
            /\ cond_holds (ctx_ref ctx) (step_if s) = true.
Proof.
  unfold step_executes. intros [[jid s] [H Hn]]%existsb_exists.
  apply executed_publish in H. exists s. tauto.
Qed.

(** Whatever the ref, the release build and the prerelease build do not
    both execute. *)
Lemma release_prerelease_exclusive ctx :
  step_executes ctx publish_yml "Build Release with setuptools"
  && step_executes ctx publish_yml "Build Prerelease with setuptools" = false.
Proof.
  apply not_true_is_false. intros [H1 H2]%andb_prop.
  apply step_executes_guard in H1 as (s1 & Hs1 & Hn1 & Hc1).
  apply step_executes_guard in H2 as (s2 & Hs2 & Hn2 & Hc2).
  destruct (named_step_guard _ _ Hs1 Hn1) as (E1 & _ & _).
  destruct (named_step_guard _ _ Hs2 Hn2) as (_ & E2 & _).
  rewrite E1 in Hc1 by reflexivity. rewrite E2 in Hc2 by reflexivity.
  apply cond_ref_is in Hc1, Hc2. exact (lower_main_dev _ Hc1 Hc2).
Qed.

Lemma tag_needs_main ctx :
  step_executes ctx publish_yml "Create tag and GitHub release" = true ->
  lower (ctx_ref ctx) = lower "refs/heads/main".
Proof.
  intros (s & Hs & Hn & Hc)%step_executes_guard.
  destruct (named_step_guard _ _ Hs Hn) as (_ & _ & E).
  rewrite E in Hc by reflexivity. apply cond_ref_is in Hc. exact Hc.
Qed.

Lemma needs_only_in_publish w j :
  In w ci_workflows -> In j (wf_jobs w) ->
  job_needs j <> [] -> w = publish_yml /\ job_id j = "publish".
Proof.
  unfold ci_workflows. intros [<-|[<-|[]]] Hj Hn.
  - simpl in Hj. destruct Hj as [<-|[<-|[]]]; [contradiction Hn; reflexivity | auto].
  - simpl in Hj.
    repeat (destruct Hj as [<-|Hj]; [contradiction Hn; reflexivity|]).
    destruct Hj.
Qed.

(** In the scheduler of any workflow whose job ids are distinct, a job
    that has started has all its needs concluded with success. *)
Section Scheduler.
Variable ref : string.
Variable w : workflow.
Hypothesis ids_distinct : NoDup (List.map job_id (wf_jobs w)).

Lemma same_id_same_job j k :
  In j (wf_jobs w) -> In k (wf_jobs w) -> job_id j = job_id k -> j = k.
Proof.
  revert ids_distinct. generalize (wf_jobs w) as js.
  induction js as [|a js IH]; simpl; [contradiction|].
  intros Hnd Hj Hk Hid. apply NoDup_cons in Hnd as [Ha Hnd].
  destruct Hj as [<-|Hj], Hk as [<-|Hk]; auto.
  - exfalso. apply Ha. rewrite Hid. apply list_elem_of_In, in_map. exact Hk.
  - exfalso. apply Ha. rewrite <- Hid. apply list_elem_of_In, in_map. exact Hj.
Qed.

Lemma needs_respected_initial : needs_respected w (initial w).
Proof.
  intros j Hj Hs. exfalso. unfold started, initial in Hs.
  assert (forall id st, (list_to_map (List.map (fun j => (job_id j, Waiting)) (wf_jobs w))
                           : gmap string job_state) !! id = Some st -> st = Waiting) as Hw.
  { generalize (wf_jobs w) as js. induction js as [|a js IH]; simpl; intros id st.
    - rewrite lookup_empty. discriminate.
    - destruct (decide (job_id a = id)) as [->|Hne].
      + rewrite lookup_insert_eq. congruence.
      + rewrite lookup_insert_ne by exact Hne. apply IH. }
  destruct Hs as [Hs|[Hs|Hs]]; apply Hw in Hs; discriminate.
Qed.

Lemma started_insert_inv σ id st k :
  started (<[id := st]> σ) k ->
  (k = id /\ (st = Running \/ st = Done CSuccess \/ st = Done CFailure))
  \/ (k <> id /\ started σ k).
Proof.
  unfold started. destruct (decide (id = k)) as [->|Hne].
  - rewrite !lookup_insert_eq. intros H. left. split; [reflexivity|].
    destruct H as [H|[H|H]]; injection H as ->; auto.
  - rewrite !lookup_insert_ne by exact Hne. intros H. right. split; congruence.
Qed.

Lemma needs_respected_step σ σ' :
  needs_respected w σ -> sched_step ref w σ σ' -> needs_respected w σ'.
Proof.
  intros Inv Hstep.
  assert (forall k st, In k (wf_jobs w) ->
            (σ !! job_id k = Some Waiting \/ σ !! job_id k = Some Running) ->
            (st = Running -> forall n, In n (job_needs k) -> σ !! n = Some (Done CSuccess)) ->
            (st = Done CSuccess \/ st = Done CFailure -> σ !! job_id k = Some Running) ->
            needs_respected w (<[job_id k := st]> σ)) as Hgen.
  { intros k st Hk Hcur Hrun Hfin j Hj Hs n Hn.
    assert (Hold : forall j', In j' (wf_jobs w) -> started σ (job_id j') ->
               In (job_id k) (job_needs j') -> False).
    { intros j' Hj' Hs' Hin. specialize (Inv j' Hj' Hs' _ Hin).
      destruct Hcur as [Hc|Hc]; congruence. }
    apply started_insert_inv in Hs as [[Hid Hst]|[Hne Hs]].
    - apply (same_id_same_job _ _ Hj Hk) in Hid. subst j.
      assert (Hneeds : forall m, In m (job_needs k) -> σ !! m = Some (Done CSuccess)).
      { destruct Hst as [->|Hst]; [exact (Hrun eq_refl)|].
        apply Inv; [exact Hk|]. left. exact (Hfin Hst). }
      destruct (decide (job_id k = n)) as [<-|Hkn].
      + specialize (Hneeds _ Hn). destruct Hcur; congruence.
      + rewrite lookup_insert_ne by exact Hkn. exact (Hneeds _ Hn).
    - destruct (decide (job_id k = n)) as [<-|Hkn].
      + exfalso. exact (Hold j Hj Hs Hn).
      + rewrite lookup_insert_ne by exact Hkn. exact (Inv j Hj Hs n Hn). }
  destruct Hstep as [j σ Hj Hw Hn Hc | j σ Hj Hw Hn Hc | j o σ Hj Hr].
  - apply Hgen; auto. intros [H|H]; discriminate.
  - apply Hgen; auto; [discriminate | intros [H|H]; discriminate].
  - apply Hgen; auto.
    + destruct o; discriminate.
Qed.

Lemma needs_respected_reachable σ : reachable ref w σ -> needs_respected w σ.
Proof.
  unfold reachable. revert σ. apply rtc_ind_r.
  - apply needs_respected_initial.
  - intros σ σ' _ Hstep IH. exact (needs_respected_step σ σ' IH Hstep).
Qed.

End Scheduler.

End CI.

Section CIClaims.
Import Text Actions Runner.

(** C1.  In a run of the publish workflow started by a push, a step that
    uploads the package with twine or publishes the documentation to
    GitHub Pages executes only if the pushed ref is refs/heads/main or
    refs/heads/dev.  Such a step belongs to the [publish] job and
    executes under the job's condition on the ref and under a condition
    on the ref of its own.  For a push to any other branch the workflow
    does not run, so nothing is published. *)
Theorem publishing_only_on_main_or_dev
    (ctx : run_ctx) (r : git_ref) (changed : list string) (jid : string) (s : step) :
  triggered publish_yml (Push r changed) = Some true ->
  ctx_ref ctx = ref_string r ->
  In (jid, s) (executed ctx publish_yml) ->
  publishes s = true ->
  (ctx_ref ctx = "refs/heads/main" \/ ctx_ref ctx = "refs/heads/dev")
  /\ (jid = "publish"
      /\ cond_holds (ctx_ref ctx) (job_if publish_job) = true
      /\ cond_holds (ctx_ref ctx) (step_if s) = true
      /\ (step_if s = Some (EOr (ref_is "refs/heads/main") (ref_is "refs/heads/dev"))
          \/ step_if s = Some (ref_is "refs/heads/main")
          \/ step_if s = Some (ref_is "refs/heads/dev")))
  /\ (forall b changed', b <> "main" -> b <> "dev" ->
        triggered publish_yml (Push (Branch b) changed') = Some false).
Proof.
  intros Htrig Href Hex Hpub. split; [|split].
  - apply publish_trigger_branch in Htrig. rewrite Href.
    destruct Htrig as [-> | ->]; [left | right]; reflexivity.
  - destruct (executed_publish ctx jid s Hex) as (Hj & Hs & Hc & Hguard & _).
    split; [exact Hj|]. split; [apply cond_ref_or; exact Hguard|].
    split; [exact Hc|]. exact (publishing_step_guard s Hs Hpub).
  - intros b changed' Hm Hd. rewrite publish_push_trigger.
    apply String.eqb_neq in Hm, Hd.
    rewrite String.eqb_sym in Hm. rewrite String.eqb_sym in Hd.
    rewrite Hm, Hd. reflexivity.
Qed.

Lemma publishing_only_on_main_or_dev_witness :
  In ("publish", publish_with_twine) (executed main_run publish_yml)
  /\ (ctx_ref main_run = "refs/heads/main" \/ ctx_ref main_run = "refs/heads/dev")
  /\ triggered publish_yml (Push (Branch "feature") [ "setup.py" ]) = Some false.
Proof.
  assert (Hex : In ("publish", publish_with_twine) (executed main_run publish_yml)).
  { vm_compute. auto 10. }
  split; [exact Hex|].
  destruct (publishing_only_on_main_or_dev main_run (Branch "main") [ "setup.py" ]
              "publish" _ eq_refl eq_refl Hex eq_refl) as (H1 & _ & H2).
  split; [exact H1|].
  apply H2; discriminate.
Defined.

(** C8.  In a run of the publish workflow started by a push, the steps
    'Build Release with setuptools' and 'Build Prerelease with
    setuptools' do not both execute, and 'Create tag and GitHub release'
    executes only if the pushed ref is the branch [main], hence not for
    [dev]. *)
Theorem release_steps_by_branch
    (ctx : run_ctx) (r : git_ref) (changed : list string) :
  triggered publish_yml (Push r changed) = Some true ->
  ctx_ref ctx = ref_string r ->
  step_executes ctx publish_yml "Build Release with setuptools"
    && step_executes ctx publish_yml "Build Prerelease with setuptools" = false
  /\ (step_executes ctx publish_yml "Create tag and GitHub release" = true ->
      r = Branch "main")
  /\ (r = Branch "dev" ->
      step_executes ctx publish_yml "Create tag and GitHub release" = false).
Proof.
  intros Htrig Href. split; [apply release_prerelease_exclusive|].
  assert (Htag : step_executes ctx publish_yml "Create tag and GitHub release" = true ->
                 r = Branch "main").
  { intros H%tag_needs_main. rewrite Href in H.
    apply publish_trigger_branch in Htrig as [-> | ->]; [reflexivity|].
    vm_compute in H. discriminate. }
  split; [exact Htag|].
  intros ->. apply not_true_is_false. intros H. specialize (Htag H). discriminate.
Qed.

Lemma release_steps_by_branch_witness :
  step_executes main_run publish_yml "Build Release with setuptools" = true
  /\ step_executes main_run publish_yml "Build Prerelease with setuptools" = false
  /\ step_executes main_run publish_yml "Create tag and GitHub release" = true
  /\ step_executes main_run publish_yml "Build Release with setuptools"
       && step_executes main_run publish_yml "Build Prerelease with setuptools" = false.
Proof.
  destruct (release_steps_by_branch main_run (Branch "main") [ "setup.py" ]
              eq_refl eq_refl) as (H1 & _ & _).
  repeat split; try exact H1; vm_compute; reflexivity.
Defined.

(** C9.  The publish workflow is triggered by an event exactly when the
    event is a push to the branch [main] or [dev] in which some changed
    path is neither '.all-contributorsrc' nor 'CONTRIBUTORS.md'; for every
    event the filter decides. *)
Theorem publish_trigger (ev : event) :
  (exists d, triggered publish_yml ev = Some d)
  /\ (triggered publish_yml ev = Some true <->
      exists b changed,
        ev = Push (Branch b) changed
        /\ (b = "main" \/ b = "dev")
        /\ ~ Forall (fun p => p = ".all-contributorsrc" \/ p = "CONTRIBUTORS.md")
               changed).
Proof.
  destruct ev as [[b|t] changed | base changed | ].
  - rewrite publish_push_trigger. split; [eauto|]. split.
    + intros H. apply (f_equal (default false)) in H. cbn [default] in H.
      apply andb_prop in H as [Hb Hp]. exists b, changed.
      split; [reflexivity|]. split.
      * apply orb_prop in Hb as [Hb|Hb]; apply String.eqb_eq in Hb; auto.
      * intros Hall. apply all_ignored_iff in Hall. rewrite Hall in Hp. discriminate.
    + intros (b' & changed' & [= -> ->] & Hb & Hp). f_equal.
      apply andb_true_intro. split.
      * destruct Hb as [-> | ->]; reflexivity.
      * apply negb_true_iff, not_true_is_false. intros H.
        apply Hp, all_ignored_iff, H.
  - split; [eexists; reflexivity|]. split; [discriminate|].
    intros (b & c & [=] & _).
  - split; [eexists; reflexivity|]. split; [discriminate|].
    intros (b & c & [=] & _).
  - split; [eexists; reflexivity|]. split; [discriminate|].
    intros (b & c & [=] & _).
Qed.

(** C2.  The workflow definitions of the slice contain a step that
    installs the dependencies, a job that runs the tests and the type
    check once per combination of three operating systems and four
    Python versions, a step that builds the Sphinx documentation, a step
    that runs the linters, and steps that publish. *)
Theorem ci_pipeline_steps :
  (exists w j s, In w ci_workflows /\ In (j, s) (all_steps w)
                 /\ installs_dependencies s = true)
  /\ (exists j, In j (wf_jobs build_yml)
                /\ List.map fst (job_matrix j) = [ "os"; "python_version" ]
                /\ List.map (fun a => length (snd a)) (job_matrix j) = [ 3; 4 ]
                /\ length (matrix_combos (job_matrix j)) = 12
                /\ existsb runs_tests (job_steps j) = true
                /\ existsb runs_type_check (job_steps j) = true
                /\ existsb installs_dependencies (job_steps j) = true)
  /\ (exists j s, In (j, s) (all_steps build_yml) /\ builds_sphinx_docs s = true)
  /\ (exists j s, In (j, s) (all_steps build_yml) /\ runs_linter s = true)
  /\ (exists j s, In (j, s) (all_steps publish_yml) /\ publishes s = true)
  /\ (exists j, In j (wf_jobs publish_yml)
                /\ job_uses j = Some "./.github/workflows/build.yml"
                /\ on_workflow_call (wf_on build_yml) = true).
Proof.
  repeat split.
  - exists publish_yml, "publish". eexists. split; [left; reflexivity|].
    split; [|shelve]. unfold all_steps. simpl. right. right. left. reflexivity.
    Unshelve. reflexivity.
  - exists unit_and_doc_test. repeat split; try reflexivity.
    simpl. tauto.
  - exists "build-reference-documentation". eexists.
    split; [|shelve]. unfold all_steps. simpl. do 5 right. left. reflexivity.
    Unshelve. reflexivity.
  - exists "code-format-check". eexists.
    split; [|shelve]. unfold all_steps. simpl. do 10 right. left. reflexivity.
    Unshelve. reflexivity.
  - exists "publish". eexists.
    split; [|shelve]. unfold all_steps. simpl. do 6 right. left. reflexivity.
    Unshelve. reflexivity.
  - eexists. split; [left; reflexivity|]. split; reflexivity.
Qed.

(** C6 as stated fails: a job of the slice declares [needs]. *)
Lemma job_ordering_declared :
  ~ (forall w j, In w ci_workflows -> In j (wf_jobs w) -> job_needs j = []).
Proof.
  intros H.
  specialize (H publish_yml publish_job).
  discriminate H; simpl; auto.
Qed.

(** C6, amended.  The workflow definitions declare exactly one ordering
    between jobs: in the publish workflow the job [publish] needs the job
    [build].  Accordingly, in every state the scheduler can reach,
    [publish] has started only if [build] has concluded with success.
    The notebooks import no module that starts threads, processes or
    tasks; they ask the library for parallel workers in two calls, with
    the keyword [workers=-1]. *)
Theorem publish_waits_for_build :
  (forall w j, In w ci_workflows -> In j (wf_jobs w) ->
     (job_needs j <> [] <-> w = publish_yml /\ job_id j = "publish"))
  /\ (forall j, In j (wf_jobs publish_yml) -> job_id j = "publish" ->
        job_needs j = [ "build" ])
  /\ (forall ref σ, reachable ref publish_yml σ -> started σ "publish" ->
        σ !! "build" = Some (Done CSuccess))
  /\ existsb Slice.is_concurrency_module Slice.imported_modules = false
  /\ Slice.cells_where (Slice.passes_keyword "workers")
     = [ ("Methods for Multiscale Comparative Connectomics", 10);
         ("Methods for Multiscale Comparative Connectomics", 18) ]
  /\ Slice.keyword_values "workers" (Mcc.c10 ++ Mcc.c18)
     = [ Py.EUnary Py.UNeg (Py.EInt 1); Py.EUnary Py.UNeg (Py.EInt 1) ].
Proof.
  split; [|split; [|split; [|repeat split; vm_compute; reflexivity]]].
  - intros w j Hw Hj. split; [apply needs_only_in_publish; assumption|].
    intros [-> Hid]. simpl in Hj. destruct Hj as [<-|[<-|[]]]; discriminate.
  - intros j Hj Hid. simpl in Hj. destruct Hj as [<-|[<-|[]]];
      [discriminate | reflexivity].
  - intros ref σ Hreach Hs.
    assert (Hnd : NoDup (List.map job_id (wf_jobs publish_yml))).
    { simpl. apply NoDup_cons. split.
      - intros H%list_elem_of_In. simpl in H. destruct H as [H|[]]. discriminate.
      - apply NoDup_cons. split; [|apply NoDup_nil; exact I].
        intros H%list_elem_of_In. destruct H. }
    pose proof (needs_respected_reachable ref publish_yml Hnd σ Hreach) as Inv.
    apply (Inv publish_job); simpl; auto.
Qed.

Lemma publish_waits_for_build_witness :
  let σ : gmap string job_state :=
    <["publish" := Running]>
      (<["build" := Done CSuccess]> (<["build" := Running]> (initial publish_yml))) in
  reachable "refs/heads/main" publish_yml σ
  /\ started σ "publish"
  /\ σ !! "build" = Some (Done CSuccess).
Proof.
  intros σ.
  assert (Hreach : reachable "refs/heads/main" publish_yml σ).
  { unfold reachable, σ.
    eapply rtc_l.
    { apply (sched_start _ _ build_job).
      - left. reflexivity.
      - reflexivity.
      - intros n [].
      - reflexivity. }
    eapply rtc_l.
    { apply (sched_finish _ _ build_job Succeeded).
      - left. reflexivity.
      - reflexivity. }
    eapply rtc_l.
    { apply (sched_start _ _ publish_job).
      - right. left. reflexivity.
      - reflexivity.
      - intros n [<-|[]]. reflexivity.
      - reflexivity. }
    apply rtc_refl. }
  assert (Hs : started σ "publish") by (left; reflexivity).
  split; [exact Hreach|]. split; [exact Hs|].
  exact (proj1 (proj2 (proj2 publish_waits_for_build)) _ σ Hreach Hs).
Defined.

End CIClaims.

(** ** Notebook code *)

Section MatchRatio.
Import Tutorials.

Variables keep_indices indices1 indices2 : list Z.

Lemma item_in_range (a : list Z) (i : nat) :
  i < length a -> exists x, a !! i = Some x /\ item a i = Ok x.
Proof.
  intros [x Hx]%lookup_lt_is_Some_2. exists x. unfold item. rewrite Hx. auto.
Qed.

Lemma matched_in_range (i : nat) :
  i < length indices2 ->
  length indices2 <= length indices1 ->
  length indices2 <= length keep_indices ->
  matched keep_indices indices1 indices2 i
  = Ok (position_matches keep_indices indices1 indices2 i).
Proof.
  intros Hi H1 Hk.
  destruct (item_in_range indices1 i) as (x & Ex & Ix); [lia|].
  destruct (item_in_range keep_indices i) as (k & Ek & Ik); [lia|].
  destruct (item_in_range indices2 i) as (y & Ey & Iy); [lia|].
  unfold matched, position_matches. rewrite Ix, Ik, Ex, Ek, Ey. cbn.
  destruct (x =? k)%Z; cbn; [rewrite Iy|]; reflexivity.
Qed.

Lemma count_matches_in_range (range : list nat) :
  length indices2 <= length indices1 ->
  length indices2 <= length keep_indices ->
  Forall (fun i => i < length indices2) range ->
  forall match_ratio,
    count_matches keep_indices indices1 indices2 range match_ratio
    = Ok (match_ratio
          + Z.of_nat (length (List.filter
                                (position_matches keep_indices indices1 indices2)
                                range)))%Z.
Proof.
  intros H1 Hk. induction range as [|i rest IH]; intros Hr acc.
  - cbn. f_equal. lia.
  - apply Forall_cons in Hr as [Hi Hr]. cbn [count_matches List.filter].
    rewrite (matched_in_range i Hi H1 Hk). cbn.
    rewrite (IH Hr).
    destruct (position_matches keep_indices indices1 indices2 i); cbn [length];
      f_equal; lia.
Qed.

Lemma matched_raises i e :
  matched keep_indices indices1 indices2 i = Raise e -> e = IndexError.
Proof.
  unfold matched, item.
  destruct (indices1 !! i); cbn; [|congruence].
  destruct (keep_indices !! i); cbn; [|congruence].
  destruct (_ =? _)%Z; [|discriminate].
  destruct (indices2 !! i); cbn; [discriminate|congruence].
Qed.

Lemma count_matches_raises (range : list nat) : forall match_ratio e,
  count_matches keep_indices indices1 indices2 range match_ratio = Raise e ->
  e = IndexError.
Proof.
  induction range as [|i rest IH]; intros acc e; cbn [count_matches].
  - discriminate.
  - destruct (matched keep_indices indices1 indices2 i) as [m|e'] eqn:Hm; cbn.
    + apply IH.
    + intros [= <-]. exact (matched_raises i e' Hm).
Qed.

Lemma spec_match_count_le :
  spec_match_count keep_indices indices1 indices2 <= length indices2.
Proof.
  unfold spec_match_count.
  etransitivity; [apply List.filter_length_le|]. rewrite length_seq. reflexivity.
Qed.

End MatchRatio.

(** ** The evaluator on [compute_match_ratio] *)

Section Refinement.
Import Py Tutorials Interp.

Variables keep_indices indices1 indices2 : list Z.
Variable d : fundef.
Hypothesis d_is_source : find_def "compute_match_ratio" PaddedGM.c5 = Some d.

Lemma subscript_position (l : list Z) (k : nat) :
  subscript (VArray l) (VInt (Z.of_nat k)) = (x ← item l k; Ok (VInt x)).
Proof.
  unfold subscript.
  destruct (Z.ltb_spec (Z.of_nat k) 0) as [H|_]; [lia|].
  destruct (Z.ltb_spec (Z.of_nat k) 0) as [H|_]; [lia|].
  rewrite Nat2Z.id. reflexivity.
Qed.

Lemma run_block_cons (s : stmt) (rest : list stmt) (ρ : gmap string value) :
  run_block exec (s :: rest) ρ
  = match exec s ρ with
    | Next ρ' => run_block exec rest ρ'
    | f => f
    end.
Proof. reflexivity. Qed.

Lemma loop_body_runs (target iter : expr) (body : list stmt)
      (ρ : gmap string value) (match_ratio : Z) (k : nat) :
  nth_error (fd_body d) 1 = Some (SFor target iter body) ->
  loop_env keep_indices indices1 indices2 ρ match_ratio ->
  ρ !! "i" = Some (VInt (Z.of_nat k)) ->
  match matched keep_indices indices1 indices2 k with
  | Ok m =>
      exists ρ', run_block exec body ρ = Next ρ'
                 /\ loop_env keep_indices indices1 indices2 ρ'
                      (if m then match_ratio + 1 else match_ratio)%Z
  | Raise e => run_block exec body ρ = Raised e
  end.
Proof.
  intros Hb (H1 & H2 & Hk & Hm) Hi.
  pose proof d_is_source as Hd.
  vm_compute in Hd. injection Hd as <-. cbn in Hb. injection Hb as <- <- <-.
  cbn -[lookup insert subscript].
  rewrite H1, Hk, Hi, H2, Hm. cbn -[lookup insert subscript].
  rewrite !subscript_position. unfold matched.
  destruct (item indices1 k) as [x|e]; cbn; [|reflexivity].
  destruct (item keep_indices k) as [y|e]; cbn; [|reflexivity].
  destruct (x =? y)%Z; cbn.
  - destruct (item indices2 k) as [z|e]; cbn; [|reflexivity].
    destruct (z =? Z.of_nat k)%Z; cbn.
    + eexists. split; [reflexivity|]. unfold loop_env.
      rewrite lookup_insert_eq, !lookup_insert_ne by discriminate. auto.
    + eexists. split; [reflexivity|]. unfold loop_env. auto.
  - eexists. split; [reflexivity|]. unfold loop_env. auto.
Qed.

Lemma loop_runs (target iter : expr) (body : list stmt) (ks : list nat) :
  nth_error (fd_body d) 1 = Some (SFor target iter body) ->
  forall (ρ : gmap string value) (match_ratio : Z),
  loop_env keep_indices indices1 indices2 ρ match_ratio ->
  match count_matches keep_indices indices1 indices2 ks match_ratio with
  | Ok n =>
      exists ρ', run_for (run_block exec body) "i" ks ρ = Next ρ'
                 /\ loop_env keep_indices indices1 indices2 ρ' n
  | Raise e => run_for (run_block exec body) "i" ks ρ = Raised e
  end.
Proof.
  intros Hb. induction ks as [|k rest IH]; intros ρ acc Henv.
  - cbn. eauto.
  - cbn [count_matches run_for].
    assert (Henv' : loop_env keep_indices indices1 indices2
                      (<["i" := VInt (Z.of_nat k)]> ρ) acc).
    { destruct Henv as (H1 & H2 & Hk & Hm). unfold loop_env.
      rewrite !lookup_insert_ne by discriminate. auto. }
    pose proof (loop_body_runs target iter body _ acc k Hb Henv'
                  (lookup_insert_eq _ _ _)) as Hbody.
    destruct (matched keep_indices indices1 indices2 k) as [m|e]; cbn.
    + destruct Hbody as (ρ' & -> & Henv''). apply IH. exact Henv''.
    + rewrite Hbody. reflexivity.
Qed.

(** Running the definition found in the notebook gives what the model
    [compute_match_ratio] gives, for all arguments. *)
Lemma compute_match_ratio_refines (globals : gmap string value) :
  globals !! "keep_indices" = Some (VArray keep_indices) ->
  call d globals [ VArray indices1; VArray indices2 ]
  = as_value (compute_match_ratio keep_indices indices1 indices2).
Proof.
  intros Hk.
  assert (exists target iter body,
             nth_error (fd_body d) 1 = Some (SFor target iter body))
    as (target & iter & body & Hb).
  { pose proof d_is_source as Hd. vm_compute in Hd. injection Hd as <-.
    do 3 eexists. reflexivity. }
  pose proof (loop_runs target iter body (seq 0 (length indices2)) Hb) as Hloop.
  pose proof d_is_source as Hd. vm_compute in Hd. injection Hd as <-.
  cbn in Hb. injection Hb as <- <- <-.
  unfold call. cbn -[lookup insert run_for run_block seq].
  rewrite run_block_cons. cbn -[lookup insert run_for run_block seq].
  rewrite run_block_cons. cbn -[lookup insert run_for run_block seq].
  rewrite lookup_insert_ne by discriminate. rewrite lookup_insert_eq.
  cbn -[lookup insert run_for run_block seq]. rewrite Nat2Z.id.
  set (ρ0 := <["match_ratio" := VInt 0]>
               (<["indices2" := VArray indices2]>
                  (<["indices1" := VArray indices1]> globals))).
  assert (Henv : loop_env keep_indices indices1 indices2 ρ0 0%Z).
  { unfold loop_env, ρ0. repeat split;
      repeat first [ rewrite lookup_insert_eq
                   | rewrite lookup_insert_ne by discriminate ];
      first [ reflexivity | exact Hk ]. }
  specialize (Hloop ρ0 0%Z Henv).
  unfold compute_match_ratio.
  destruct (count_matches keep_indices indices1 indices2
              (seq 0 (length indices2)) 0%Z) as [n|e].
  - destruct Hloop as (ρ' & -> & (H1 & H2 & Hk' & Hm)).
    cbn -[lookup insert]. rewrite Hm, H2. cbn.
    destruct (truediv n (Z.of_nat (length indices2))); reflexivity.
  - rewrite Hloop. reflexivity.
Qed.

End Refinement.

Section NotebookClaims.
Import Py Slice Tutorials.

(** C10.  When [indices2] is not empty and [indices1] and
    [keep_indices] have at least as many entries, [compute_match_ratio]
    returns the number of positions [i] below [len(indices2)] with
    [indices1[i] == keep_indices[i]] and [indices2[i] == i], divided by
    [len(indices2)], a value between 0 and 1; and, for any arguments, the
    division fails with ZeroDivisionError exactly when [indices2] is
    empty. *)
Theorem compute_match_ratio_correct (keep_indices indices1 indices2 : list Z) :
  (indices2 <> [] ->
   length indices2 <= length indices1 ->
   length indices2 <= length keep_indices ->
   exists q : Q,
     compute_match_ratio keep_indices indices1 indices2 = Ok q
     /\ (q == inject_Z (Z.of_nat (spec_match_count keep_indices indices1 indices2))
              / inject_Z (Z.of_nat (length indices2)))%Q
     /\ (0 <= q)%Q /\ (q <= 1)%Q)
  /\ (compute_match_ratio keep_indices indices1 indices2 = Raise ZeroDivisionError
      <-> indices2 = []).
Proof.
  split.
  - intros Hne H1 Hk.
    assert (Hlen : (0 < Z.of_nat (length indices2))%Z).
    { destruct indices2; [contradiction|cbn [length]; lia]. }
    unfold compute_match_ratio.
    rewrite count_matches_in_range; [|assumption|assumption|].
    2:{ apply List.Forall_forall. intros i Hi%in_seq. lia. }
    cbn. unfold truediv.
    destruct (Z.eqb_spec (Z.of_nat (length indices2)) 0) as [E|_]; [lia|].
    eexists. split; [reflexivity|].
    fold (spec_match_count keep_indices indices1 indices2).
    pose proof (spec_match_count_le keep_indices indices1 indices2) as Hle.
    set (c := spec_match_count keep_indices indices1 indices2) in *.
    set (n := length indices2) in *.
    split; [|split].
    + rewrite Qmake_Qdiv, Z2Pos.id by exact Hlen. reflexivity.
    + unfold Qle. cbn. lia.
    + unfold Qle. cbn. rewrite Z2Pos.id by exact Hlen. lia.
  - split.
    + intros H. destruct indices2 as [|y rest]; [reflexivity|exfalso].
      unfold compute_match_ratio in H.
      destruct (count_matches keep_indices indices1 (y :: rest)
                  (seq 0 (length (y :: rest))) 0%Z) as [m|e] eqn:Hc.
      * cbn in H. discriminate.
      * cbn in H. apply count_matches_raises in Hc. congruence.
    + intros ->. reflexivity.
Qed.

Lemma compute_match_ratio_correct_witness :
  exists q : Q,
    compute_match_ratio [ 0; 1; 2 ]%Z [ 0; 5; 2 ]%Z [ 0; 1; 2 ]%Z = Ok q
    /\ (q == inject_Z 2 / inject_Z 3)%Q /\ (0 <= q)%Q /\ (q <= 1)%Q.
Proof.
  destruct (compute_match_ratio_correct [ 0; 1; 2 ]%Z [ 0; 5; 2 ]%Z [ 0; 1; 2 ]%Z)
    as [H _].
  apply H.
  - discriminate.
  - cbn. lia.
  - cbn. lia.
Defined.

(** C5 as stated fails: a code cell holds a loop and a branch. *)
Lemma control_flow_present :
  ~ (forall nb i body, In nb notebooks -> In (i, body) (code_cells nb) ->
       has_control_flow body = false).
Proof.
  intros H. specialize (H PaddedGM.notebook 5 PaddedGM.c5).
  discriminate H.
  - unfold notebooks. right. left. reflexivity.
  - cbn. right. left. reflexivity.
Qed.

(** C5, amended.  Of the 100 code cells of the notebooks, thirteen
    contain a loop ([for], list comprehension) or a conditional branch
    ([if] statement, conditional expression); the other 87 are
    straight-line.  Among the thirteen is the cell that defines
    [compute_match_ratio], a [for] loop over an [if]. *)
Theorem control_flow_cells :
  length all_code_cells = 100
  /\ cells_where has_control_flow =
     [ ("Methods for Multiscale Comparative Connectomics", 10);
       ("Methods for Multiscale Comparative Connectomics", 12);
       ("Methods for Multiscale Comparative Connectomics", 18);
       ("Methods for Multiscale Comparative Connectomics", 20);
       ("Padded Graph Matching", 5);
       ("Adjacency Spectral Embed", 14);
       ("Covariate-Assisted Embedding", 6);
       ("Covariate-Assisted Embedding", 8);
       ("Covariate-Assisted Embedding", 23);
       ("Correlated Random Dot Product Graph (RDPG) Graph Pair", 17);
       ("Multiple Adjacency Spectral Embedding (MASE)", 16);
       ("Multiple Adjacency Spectral Embedding (MASE)", 23);
       ("Multiple Adjacency Spectral Embedding (MASE)", 32) ]
  /\ length (cells_where (fun b => negb (has_control_flow b))) = 87
  /\ (exists d, find_def "compute_match_ratio" PaddedGM.c5 = Some d
                /\ has_loop (fd_body d) = true /\ has_branch (fd_body d) = true).
Proof.
  split; [vm_compute; reflexivity|].
  split; [vm_compute; reflexivity|].
  split; [vm_compute; reflexivity|].
  eexists. split; [reflexivity|]. split; vm_compute; reflexivity.
Qed.




(** C4 as stated fails: a code cell handles an exception itself, and
    with it the loop completes where the library call has failed. *)
Lemma error_handling_present :
  ~ (forall nb i body, In nb notebooks -> In (i, body) (code_cells nb) ->
       has_error_handling body = false)
  /\ unguarded_loop strict_test edge_weights example_connectomes
       [ (0, 1); (0, 2) ] []
     = Raise ValueError
  /\ edge_loop None 1%Q builtin_value_errors strict_test edge_weights
       example_connectomes [ (0, 1); (0, 2) ] []
     = Ok [ (0, 1, Some (1 # 2), 1 # 20); (0, 2, None, 1%Q) ].
Proof.
  split; [|split; reflexivity].
  intros H. specialize (H Mcc.notebook 10 Mcc.c10).
  discriminate H.
  - left. reflexivity.
  - cbn. do 6 right. left. reflexivity.
Qed.

(** C4, amended.  The notebooks contain one piece of error handling: in
    the edge-wise loop of the connectomics notebook (cell 10) a [try]
    around the library's test catches an exception that is an instance of
    ValueError (the class or one derived from it) and records nan as the
    statistic and 1 as the p-value of that edge, after which the loop goes
    on with the next edge; an exception of the test that is no instance of
    ValueError ends the loop, and a result of the test is recorded as it
    is.  The samples of the edge are taken before the [try]: an exception
    of the subscript ends the loop whatever its class.  No other cell
    contains a [try]. *)
Theorem error_handling_is_one_try
    {genotype sample stat pval : Type} (nan : stat) (one : pval)
    (value_error_classes : string -> bool)
    (ksample_test : list sample -> result (stat * pval))
    (subscript : genotype -> nat -> nat -> result sample)
    (connectomes : list genotype)
    (roi_i roi_j : nat) (rest : list (nat * nat))
    (edge_pvals : list (nat * nat * stat * pval)) :
  cells_where has_error_handling
    = [ ("Methods for Multiscale Comparative Connectomics", 10) ]
  /\ (exists target indices comprehension body append,
        Mcc.c10
        = [ SAssign (EName "edge_pvals") (EList []);
            SFor target indices
              [ SAssign (EName "samples") comprehension;
                STry body (Some (EName "ValueError"))
                  [ SAssign (EName "statistic") (EAttr (EName "np") "nan");
                    SAssign (EName "pvalue") (EInt 1) ];
                append ] ])
  /\ (forall e,
        edge_samples subscript connectomes roi_i roi_j = Raise e ->
        edge_loop nan one value_error_classes ksample_test subscript connectomes
          ((roi_i, roi_j) :: rest) edge_pvals
        = Raise e)
  /\ (forall samples,
        edge_samples subscript connectomes roi_i roi_j = Ok samples ->
        (forall e, ksample_test samples = Raise e ->
           isinstance_ValueError value_error_classes e = true ->
           edge_loop nan one value_error_classes ksample_test subscript connectomes
             ((roi_i, roi_j) :: rest) edge_pvals
           = edge_loop nan one value_error_classes ksample_test subscript connectomes
               rest (edge_pvals ++ [ (roi_i, roi_j, nan, one) ]))
        /\ (forall e, ksample_test samples = Raise e ->
              isinstance_ValueError value_error_classes e = false ->
              edge_loop nan one value_error_classes ksample_test subscript connectomes
                ((roi_i, roi_j) :: rest) edge_pvals
              = Raise e)
        /\ (forall statistic pvalue,
              ksample_test samples = Ok (statistic, pvalue) ->
              edge_loop nan one value_error_classes ksample_test subscript connectomes
                ((roi_i, roi_j) :: rest) edge_pvals
              = edge_loop nan one value_error_classes ksample_test subscript connectomes
                  rest (edge_pvals ++ [ (roi_i, roi_j, statistic, pvalue) ]))).
Proof.
  split; [vm_compute; reflexivity|].
  split; [do 5 eexists; reflexivity|].
  cbn [edge_loop]. unfold edge_row, guarded_test. split.
  - intros e ->. reflexivity.
  - intros samples ->. cbn [mbind result_bind]. repeat split.
    + intros e -> ->. reflexivity.
    + intros e -> ->. reflexivity.
    + intros s p ->. reflexivity.
Qed.

Lemma error_handling_is_one_try_witness :
  edge_loop None 1%Q builtin_value_errors strict_test edge_weights example_connectomes
    [ (0, 2); (0, 1) ] []
  = edge_loop None 1%Q builtin_value_errors strict_test edge_weights example_connectomes
      [ (0, 1) ] [ (0, 2, None, 1%Q) ]
  /\ edge_loop None 1%Q builtin_value_errors strict_test edge_weights example_connectomes
       [ (0, 3); (0, 1) ] []
     = Raise IndexError.
Proof.
  split.
  - destruct (error_handling_is_one_try None 1%Q builtin_value_errors strict_test
                edge_weights example_connectomes 0 2 [ (0, 1) ] [])
      as (_ & _ & _ & H).
    destruct (H [ [ 6; 6 ]; [ 2; 7 ]; [ 1; 4 ] ]%Z eq_refl) as (H1 & _).
    apply (H1 ValueError); reflexivity.
  - destruct (error_handling_is_one_try None 1%Q builtin_value_errors strict_test
                edge_weights example_connectomes 0 3 [ (0, 1) ] [])
      as (_ & _ & H & _).
    apply H. reflexivity.
Defined.

(** C3 as stated fails: a function defined in a notebook returns a
    value it computes with its own loop, branch and operators. *)
Lemma own_logic_present :
  ~ (forall t d, In (t, d) all_defs -> returns_value (fd_body d) = true ->
       own_logic (fd_body d) = false).
Proof.
  intros H.
  assert (exists d, find_def "compute_match_ratio" PaddedGM.c5 = Some d
                    /\ In ("Padded Graph Matching", d) all_defs
                    /\ returns_value (fd_body d) = true
                    /\ own_logic (fd_body d) = true) as (d & _ & Hin & Hr & Ho).
  { eexists. split; [reflexivity|].
    split; [vm_compute; right; left; reflexivity|].
    split; vm_compute; reflexivity. }
  rewrite (H _ _ Hin Hr) in Ho. discriminate Ho.
Qed.

(** C3, amended.  Every function the notebooks call by name is a Python
    builtin, imported from a library, or one of nine functions the
    notebooks define.  Of these nine, [make_community], [gen_covariates]
    and [embed] only pass values on to calls; the other six apply
    operators or branches of their own.  [compute_match_ratio] calls
    nothing but the builtins [range] and [len]: it computes its result
    with its own loop, comparisons and division.  [lookup_roi_name] takes
    the hemisphere from the quotient of the index by 166 and asks the
    atlas for the remainder plus one. *)
Theorem notebooks_define_own_logic :
  forallb called_names_resolve notebooks = true
  /\ List.map (fun d => fd_name (snd d)) all_defs
     = [ "lookup_roi_name"; "compute_match_ratio"; "plot_heatmap"; "plot_latents";
         "make_community"; "gen_covariates"; "embed"; "vis_latent"; "plot" ]
  /\ List.map (fun d => fd_name (snd d))
       (List.filter (fun d => own_logic (fd_body (snd d))) all_defs)
     = [ "lookup_roi_name"; "compute_match_ratio"; "plot_heatmap"; "plot_latents";
         "vis_latent"; "plot" ]
  /\ (exists d, find_def "compute_match_ratio" PaddedGM.c5 = Some d
                /\ callees (fd_body d) = [ EName "range"; EName "len"; EName "len" ]
                /\ returns_value (fd_body d) = true)
  /\ (forall d keep_indices indices1 indices2 (globals : gmap string Interp.value),
        find_def "compute_match_ratio" PaddedGM.c5 = Some d ->
        globals !! "keep_indices" = Some (Interp.VArray keep_indices) ->
        Interp.call d globals [ Interp.VArray indices1; Interp.VArray indices2 ]
        = Interp.as_value (compute_match_ratio keep_indices indices1 indices2))
  /\ compute_match_ratio [ 0; 1; 2 ]%Z [ 0; 5; 2 ]%Z [ 0; 1; 2 ]%Z = Ok (2 # 3)
  /\ (forall (atlas : Z -> result string) (index : Z) (roi_name : string),
        atlas (index mod 166 + 1)%Z = Ok roi_name ->
        lookup_roi_name atlas index
        = Ok (roi_name +:+ " (" +:+
              (if (0 <=? index)%Z && (index <? 166)%Z then "L" else "R") +:+ ")")).
Proof.
  split; [vm_compute; reflexivity|].
  split; [vm_compute; reflexivity|].
  split; [vm_compute; reflexivity|].
  split; [eexists; split; [reflexivity|split; vm_compute; reflexivity]|].
  split.
  { intros d keep i1 i2 globals Hd Hk.
    exact (compute_match_ratio_refines keep i1 i2 d Hd globals Hk). }
  split; [reflexivity|].
  intros atlas index roi_name Ha. unfold lookup_roi_name. rewrite Ha. cbn.
  replace (index / 166 =? 0)%Z with ((0 <=? index)%Z && (index <? 166)%Z);
    [reflexivity|].
  destruct (Z.leb_spec 0 index), (Z.ltb_spec index 166), (Z.eqb_spec (index / 166) 0);
    cbn; try reflexivity; exfalso.
  - pose proof (Z.div_small index 166). lia.
  - apply Z.div_small_iff in e; lia.
  - apply Z.div_small_iff in e; lia.
  - apply Z.div_small_iff in e; lia.
Qed.

Lemma notebooks_define_own_logic_witness :
  lookup_roi_name (fun k => if (k =? 5)%Z then Ok "Amygdala" else Raise ValueError) 170
  = Ok "Amygdala (R)".
Proof.
  destruct notebooks_define_own_logic as (_ & _ & _ & _ & _ & _ & H).
  apply (H _ 170%Z "Amygdala"). reflexivity.
Defined.

End NotebookClaims.

(** * Further properties *)

(** ** Workflows *)

Section Triggers.
Import Text Actions Runner Pipeline.

Lemma build_push_trigger b changed :
  triggered build_yml (Push (Branch b) changed) =
    Some (negb (String.eqb "dev" b || String.eqb "main" b)
          && negb (forallb (fun x => existsb (fun p => String.eqb p x) ignored_paths)
                     changed)).
Proof.
  cbn [triggered build_yml wf_on on_push].
  unfold branch_passes, paths_pass; cbn [f_branches f_branches_ignore f_paths_ignore].
  rewrite matches_any_literal by reflexivity.
  rewrite all_match_literal by reflexivity.
  cbn [existsb mbind option_bind fmap option_fmap option_map].
  rewrite orb_false_r. reflexivity.
Qed.

Lemma build_pull_request_trigger base changed :
  triggered build_yml (PullRequest base changed) =
    Some (negb (forallb (fun x => existsb (fun p => String.eqb p x) ignored_paths)
                  changed)).
Proof.
  cbn [triggered build_yml wf_on on_pull_request].
  unfold branch_passes, paths_pass; cbn [f_branches f_branches_ignore f_paths_ignore].
  rewrite all_match_literal by reflexivity. reflexivity.
Qed.

Lemma not_all_ignored changed :
  negb (forallb (fun x => existsb (fun p => String.eqb p x) ignored_paths) changed) = true
  <-> ~ Forall (fun p => p = ".all-contributorsrc" \/ p = "CONTRIBUTORS.md") changed.
Proof.
  rewrite negb_true_iff, <- all_ignored_iff.
  destruct (forallb _ changed); split; intro H; try reflexivity; try discriminate.
  exfalso. apply H. reflexivity.
Qed.

(** X1.  The build workflow is started by an event exactly when the event
    is a push to a branch other than [dev] and [main], or a pull request
    (whatever its base), in which some changed path is neither
    '.all-contributorsrc' nor 'CONTRIBUTORS.md', or a call from another
    workflow. *)
Theorem build_trigger (ev : event) :
  (exists d, triggered build_yml ev = Some d)
  /\ (triggered build_yml ev = Some true <->
      (exists b changed,
          ev = Push (Branch b) changed /\ b <> "dev" /\ b <> "main"
          /\ ~ Forall (fun p => p = ".all-contributorsrc" \/ p = "CONTRIBUTORS.md")
                 changed)
      \/ (exists base changed,
             ev = PullRequest base changed
             /\ ~ Forall (fun p => p = ".all-contributorsrc" \/ p = "CONTRIBUTORS.md")
                    changed)
      \/ ev = WorkflowCall).
Proof.
  destruct ev as [[b|t] changed | base changed | ].
  - rewrite build_push_trigger. split; [eauto|]. split.
    + intros H. apply (f_equal (default false)) in H. cbn [default] in H.
      apply andb_prop in H as [Hb Hp]. left. exists b, changed.
      apply negb_true_iff, orb_false_elim in Hb as [Hd Hm].
      apply String.eqb_neq in Hd, Hm. apply not_all_ignored in Hp.
      repeat split; congruence || assumption.
    + intros [(b' & c' & [= -> ->] & Hd & Hm & Hp) | [(b' & c' & [=] & _) | [=]]].
      f_equal. apply andb_true_intro. split.
      * apply negb_true_iff, orb_false_intro; apply String.eqb_neq; congruence.
      * apply not_all_ignored, Hp.
  - split; [eexists; reflexivity|]. split; [discriminate|].
    intros [(b' & c' & [=] & _) | [(b' & c' & [=] & _) | [=]]].
  - rewrite build_pull_request_trigger. split; [eauto|]. split.
    + intros H. apply (f_equal (default false)) in H. cbn [default] in H.
      right. left. exists base, changed. split; [reflexivity|].
      apply not_all_ignored, H.
    + intros [(b' & c' & [=] & _) | [(b' & c' & [= -> ->] & Hp) | [=]]].
      f_equal. apply not_all_ignored, Hp.
  - split; [eexists; reflexivity|]. split; [|reflexivity].
    intros _. right. right. reflexivity.
Qed.

(** X2.  A push never starts both workflows, and it starts one of them
    exactly when it is a push to a branch with a changed path outside the
    two ignored files: the publish workflow for [main] and [dev], the
    build workflow for every other branch.  Pushes of tags and pushes
    that change only ignored files start neither. *)
Theorem push_starts_one_workflow (r : git_ref) (changed : list string) :
  exists p q,
    triggered publish_yml (Push r changed) = Some p
    /\ triggered build_yml (Push r changed) = Some q
    /\ p && q = false
    /\ (p || q = true <->
        (exists b, r = Branch b)
        /\ ~ Forall (fun x => x = ".all-contributorsrc" \/ x = "CONTRIBUTORS.md")
               changed)
    /\ (p = true -> r = Branch "main" \/ r = Branch "dev")
    /\ (q = true -> r <> Branch "main" /\ r <> Branch "dev").
Proof.
  destruct r as [b|t].
  - rewrite publish_push_trigger, build_push_trigger. do 2 eexists.
    split; [reflexivity|]. split; [reflexivity|].
    rewrite <- not_all_ignored.
    set (a := forallb _ changed).
    rewrite (orb_comm (String.eqb "dev" b)).
    assert (Hb : String.eqb "main" b || String.eqb "dev" b = true
                 <-> Branch b = Branch "main" \/ Branch b = Branch "dev").
    { rewrite orb_true_iff, !String.eqb_eq.
      split; intros [H|H]; [left|right|left|right]; congruence. }
    set (m := String.eqb "main" b || String.eqb "dev" b) in *.
    split; [destruct m, a; reflexivity|].
    split; [|split].
    + split.
      * intros H. split; [eauto|]. destruct m, a; cbn in *; congruence.
      * intros [_ H]. rewrite H. destruct m; reflexivity.
    + intros H. apply Hb. destruct m; [reflexivity|discriminate].
    + intros H. assert (Hm : m = false) by (destruct m; [discriminate|reflexivity]).
      split; intros Hr; assert (m = true) by (apply Hb; auto); congruence.
  - exists false, false. repeat split; try reflexivity; try discriminate.
    intros [[b [=]] _].
Qed.

End Triggers.

Section PublishJob.
Import Text Actions Runner Pipeline.

Lemma run_steps_not_ok ss : forall ref out i0 j,
  nth j (List.map snd (run_steps ref out i0 false ss)) false = false.
Proof.
  induction ss as [|s ss IH]; intros ref out i0 j; cbn.
  - destruct j; reflexivity.
  - destruct j; [reflexivity|]. apply IH.
Qed.

(** A step that executes finds the job in good standing: every earlier
    step whose condition holds has executed and succeeded. *)
Lemma run_steps_cons ref out i0 ok s ss :
  run_steps ref out i0 ok (s :: ss)
  = (s, ok && cond_holds ref (step_if s))
      :: run_steps ref out (S i0)
           (ok && (negb (ok && cond_holds ref (step_if s)) || is_ok (out i0))) ss.
Proof. reflexivity. Qed.

Lemma run_steps_before ss : forall ref out i0 ok k,
  nth k (List.map snd (run_steps ref out i0 ok ss)) false = true ->
  ok = true
  /\ forall j s, j < k -> nth_error ss j = Some s ->
       cond_holds ref (step_if s) = true ->
       nth j (List.map snd (run_steps ref out i0 ok ss)) false = true
       /\ out (i0 + j) = Succeeded.
Proof.
  induction ss as [|s0 ss IH]; intros ref out i0 ok k Hk.
  - destruct k; discriminate.
  - destruct ok.
    2:{ rewrite run_steps_not_ok in Hk. discriminate. }
    split; [reflexivity|]. intros j s Hj Hs Hc.
    destruct k as [|k]; [lia|].
    rewrite run_steps_cons in Hk |- *. cbn [List.map snd nth andb] in Hk |- *.
    destruct (IH _ _ _ _ _ Hk) as [Hok Hrest].
    destruct j as [|j].
    + injection Hs as ->. rewrite Hc in Hok |- *. cbn in Hok.
      rewrite Nat.add_0_r. split; [reflexivity|].
      destruct (out i0); [reflexivity|discriminate].
    + cbn in Hs.
      destruct (Hrest j s ltac:(lia) Hs Hc) as [H1 H2].
      split; [exact H1|]. rewrite <- H2. f_equal. lia.
Qed.

Lemma run_steps_flag ss : forall ref out i0 ok s,
  In (s, true) (run_steps ref out i0 ok ss) <->
  exists i, nth_error ss i = Some s
            /\ nth i (List.map snd (run_steps ref out i0 ok ss)) false = true.
Proof.
  induction ss as [|s0 ss IH]; intros ref out i0 ok s; cbn.
  - split; [contradiction|]. intros [[|i] [H _]]; discriminate.
  - split.
    + intros [H|H].
      * injection H as -> H. exists 0. cbn. auto.
      * apply IH in H as [i [H1 H2]]. exists (S i). cbn. auto.
    + intros [[|i] [H1 H2]]; cbn in H1, H2.
      * injection H1 as ->. left. rewrite H2. reflexivity.
      * right. apply IH. eauto.
Qed.

Lemma run_steps_ext ss : forall ref out out' i0 ok,
  (forall i, out i = out' i) ->
  run_steps ref out i0 ok ss = run_steps ref out' i0 ok ss.
Proof.
  induction ss as [|s ss IH]; intros ref out out' i0 ok H; cbn; [reflexivity|].
  rewrite (H i0). f_equal. apply IH, H.
Qed.

Lemma publish_job_starts ctx :
  job_starts ctx (after_build ctx) publish_job = true <->
  ctx_called ctx "build" = Succeeded
  /\ (lower (ctx_ref ctx) = lower "refs/heads/main"
      \/ lower (ctx_ref ctx) = lower "refs/heads/dev").
Proof.
  unfold job_starts, after_build. cbn [job_needs job_if forallb publish_job].
  unfold need_met. rewrite lookup_insert_eq, andb_true_r, andb_true_iff, cond_ref_or.
  destruct (ctx_called ctx "build"); cbn; intuition discriminate.
Qed.

Lemma publish_flags ctx :
  job_flags ctx ∅ (wf_jobs publish_yml) "publish"
  = if job_starts ctx (after_build ctx) publish_job
    then List.map snd (run_steps (ctx_ref ctx) (ctx_step ctx "publish") 0 true
                         publish_steps)
    else List.map (fun _ => false) publish_steps.
Proof. reflexivity. Qed.

Lemma publish_executed ctx :
  executed ctx publish_yml = job_executes ctx (after_build ctx) publish_job.
Proof. unfold executed. cbn. rewrite app_nil_r. reflexivity. Qed.

Lemma step_ran_before ctx k :
  step_ran ctx publish_yml "publish" k = true ->
  job_starts ctx (after_build ctx) publish_job = true
  /\ forall j s, j < k -> nth_error publish_steps j = Some s ->
       cond_holds (ctx_ref ctx) (step_if s) = true ->
       step_ran ctx publish_yml "publish" j = true
       /\ ctx_step ctx "publish" j = Succeeded.
Proof.
  unfold step_ran. rewrite publish_flags.
  destruct (job_starts ctx (after_build ctx) publish_job).
  - intros H. split; [reflexivity|].
    intros j s Hj Hs Hc.
    exact (proj2 (run_steps_before _ _ _ _ _ _ H) j s Hj Hs Hc).
  - intros H. exfalso. revert H. generalize publish_steps as ss. intros ss. revert k.
    induction ss as [|s ss IH]; intros [|k]; cbn; try discriminate. apply IH.
Qed.

(** An executed step of the run is a step of the publish job that ran at
    its position. *)
Lemma executed_position ctx jid s :
  In (jid, s) (executed ctx publish_yml) <->
  jid = "publish"
  /\ exists i, nth_error publish_steps i = Some s
               /\ step_ran ctx publish_yml "publish" i = true.
Proof.
  rewrite publish_executed. unfold job_executes, step_ran. rewrite publish_flags.
  destruct (job_starts ctx (after_build ctx) publish_job).
  - rewrite in_map_iff. split.
    + intros [[s' e] [Heq H]]. injection Heq as <- ->.
      apply filter_In in H as [H He]. cbn in He. subst e.
      split; [reflexivity|]. apply run_steps_flag, H.
    + intros [-> H]. apply run_steps_flag in H. exists (s, true).
      split; [reflexivity|]. apply filter_In. auto.
  - split; [contradiction|]. intros [_ [i [_ H]]]. exfalso. revert H.
    generalize publish_steps as ss. intros ss. revert i.
    induction ss as [|s0 ss IH]; intros [|i]; cbn; try discriminate. apply IH.
Qed.

Lemma executed_ext ctx ctx' :
  ctx_ref ctx = ctx_ref ctx' ->
  ctx_called ctx "build" = ctx_called ctx' "build" ->
  (forall i, ctx_step ctx "publish" i = ctx_step ctx' "publish" i) ->
  executed ctx publish_yml = executed ctx' publish_yml.
Proof.
  intros Hr Hb Hs. rewrite !publish_executed.
  unfold job_executes, job_starts, after_build. rewrite Hr, Hb.
  cbn [job_id publish_job job_steps].
  rewrite (run_steps_ext _ _ _ _ _ _ Hs). reflexivity.
Qed.

Lemma tag_step_position i s :
  nth_error publish_steps i = Some s ->
  named "Create tag and GitHub release" s = true -> i = 11.
Proof.
  intros Hs Hn. do 12 (destruct i as [|i]; [injection Hs as <-; try discriminate Hn|]).
  - reflexivity.
  - destruct i; discriminate Hs.
Qed.

(** X4.  If 'Create tag and GitHub release' executes, then the called
    build workflow has succeeded and the set-up steps, the release build,
    the upload with twine, the download of the documentation and both
    publications of the documentation for [main] have executed and
    succeeded; the prerelease build and the publication for [dev] have not
    executed. *)
Theorem release_follows_upload_and_docs (ctx : run_ctx) :
  step_executes ctx publish_yml "Create tag and GitHub release" = true ->
  ctx_called ctx "build" = Succeeded
  /\ Forall (fun n => step_succeeds ctx publish_yml "publish" n = true)
       [ "Set up Python 3.8"; "Install dependencies";
         "Create version environment variable"; "Build Release with setuptools";
         "Publish with twine"; "Download documentation artifact";
         "Publish reference docs (main branch)";
         "Publish latest reference docs (main branch)" ]
  /\ step_executes ctx publish_yml "Build Prerelease with setuptools" = false
  /\ step_executes ctx publish_yml "Publish reference docs (dev branch)" = false.
Proof.
  intros Hex.
  pose proof (tag_needs_main ctx Hex) as Hmain.
  apply existsb_exists in Hex as [[jid s] [Hin Hn]]. cbn [snd] in Hn.
  apply executed_position in Hin as [-> [i [Hs Hran]]].
  pose proof (tag_step_position i s Hs Hn) as ->.
  destruct (step_ran_before ctx 11 Hran) as [Hstart Hbefore].
  apply publish_job_starts in Hstart as [Hbuild _].
  split; [exact Hbuild|].
  assert (Hok : forall j s', j < 11 -> nth_error publish_steps j = Some s' ->
                  cond_holds (ctx_ref ctx) (step_if s') = true ->
                  step_ran ctx publish_yml "publish" j
                  && is_ok (ctx_step ctx "publish" j) = true).
  { intros j s' Hj Hs' Hc. destruct (Hbefore j s' Hj Hs' Hc) as [-> ->]. reflexivity. }
  assert (Hm : cond_holds (ctx_ref ctx) (Some (ref_is "refs/heads/main")) = true)
    by (apply cond_ref_is, Hmain).
  assert (Hmd : cond_holds (ctx_ref ctx)
                  (Some (EOr (ref_is "refs/heads/main") (ref_is "refs/heads/dev"))) = true)
    by (apply cond_ref_or; left; exact Hmain).
  split; [|split].
  - repeat apply Forall_cons_2; [..|apply Forall_nil_2].
    + apply (Hok 1 _ ltac:(lia) eq_refl). reflexivity.
    + apply (Hok 2 _ ltac:(lia) eq_refl). reflexivity.
    + apply (Hok 3 _ ltac:(lia) eq_refl). reflexivity.
    + apply (Hok 4 _ ltac:(lia) eq_refl). exact Hm.
    + apply (Hok 6 _ ltac:(lia) eq_refl). exact Hmd.
    + apply (Hok 7 _ ltac:(lia) eq_refl). reflexivity.
    + apply (Hok 9 _ ltac:(lia) eq_refl). exact Hm.
    + apply (Hok 10 _ ltac:(lia) eq_refl). exact Hm.
  - apply not_true_is_false. intros H.
    apply step_executes_guard in H as (s' & Hs' & Hn' & Hc').
    destruct (named_step_guard _ _ Hs' Hn') as (_ & E & _).
    rewrite E in Hc' by reflexivity. apply cond_ref_is in Hc'.
    exact (lower_main_dev _ Hmain Hc').
  - apply not_true_is_false. intros H.
    apply step_executes_guard in H as (s' & Hs' & Hn' & Hc').
    assert (E : step_if s' = Some (ref_is "refs/heads/dev")).
    { revert Hn'. unfold publish_steps in Hs'. cbn [In] in Hs'.
      repeat (destruct Hs' as [<-|Hs']; [try discriminate; reflexivity|]).
      destruct Hs'. }
    rewrite E in Hc'. apply cond_ref_is in Hc'.
    exact (lower_main_dev _ Hmain Hc').
Qed.

Lemma release_follows_upload_and_docs_witness :
  step_executes main_run publish_yml "Create tag and GitHub release" = true
  /\ step_succeeds main_run publish_yml "publish" "Publish with twine" = true
  /\ step_executes main_run publish_yml "Publish reference docs (dev branch)" = false.
Proof.
  assert (H : step_executes main_run publish_yml "Create tag and GitHub release" = true)
    by reflexivity.
  destruct (release_follows_upload_and_docs main_run H) as (_ & Hall & _ & Hdev).
  split; [exact H|]. split; [|exact Hdev].
  apply Forall_cons_1 in Hall as [_ Hall]. apply Forall_cons_1 in Hall as [_ Hall].
  apply Forall_cons_1 in Hall as [_ Hall]. apply Forall_cons_1 in Hall as [_ Hall].
  apply Forall_cons_1 in Hall as [Hall _]. exact Hall.
Defined.

(** The three steps that publish to GitHub Pages. *)
Lemma pages_step_cases s :
  In s publish_steps -> publishes_pages s = true ->
  (step_if s = Some (ref_is "refs/heads/dev")
   /\ with_value "destination_dir" s = Some "pre-release"
   \/ step_if s = Some (ref_is "refs/heads/main")
      /\ (with_value "destination_dir" s = Some "${{ env.GRASPOLOGIC_VERSION }}"
          \/ with_value "destination_dir" s = Some "latest"))
  /\ with_value "publish_dir" s = Some "docs/documentation-site".
Proof.
  unfold publish_steps. cbn [In].
  intros H; repeat (destruct H as [<-|H];
    [intros Hp; try discriminate Hp; vm_compute; tauto|]).
  destruct H.
Qed.

(** X5.  A step that publishes the documentation to GitHub Pages takes
    it from docs/documentation-site; in a run for [dev] it writes to the
    directory pre-release, in a run for [main] to the directory named by
    the version or to latest, never to pre-release. *)
Theorem pages_destination_by_branch (ctx : run_ctx) (jid : string) (s : step) :
  In (jid, s) (executed ctx publish_yml) ->
  publishes_pages s = true ->
  with_value "publish_dir" s = Some "docs/documentation-site"
  /\ (ctx_ref ctx = "refs/heads/dev" ->
      with_value "destination_dir" s = Some "pre-release")
  /\ (ctx_ref ctx = "refs/heads/main" ->
      with_value "destination_dir" s = Some "${{ env.GRASPOLOGIC_VERSION }}"
      \/ with_value "destination_dir" s = Some "latest").
Proof.
  intros Hex Hp.
  destruct (executed_publish ctx jid s Hex) as (_ & Hs & Hc & _).
  destruct (pages_step_cases s Hs Hp) as [[[E Hd] | [E Hd]] Hdir];
    (split; [exact Hdir|]); rewrite E in Hc; apply cond_ref_is in Hc; split; intros Hr.
  - exact Hd.
  - rewrite Hr in Hc. vm_compute in Hc. discriminate Hc.
  - rewrite Hr in Hc. vm_compute in Hc. discriminate Hc.
  - exact Hd.
Qed.

Lemma pages_destination_by_branch_witness :
  exists s,
    nth_error publish_steps 8 = Some s
    /\ In ("publish", s) (executed dev_run publish_yml)
    /\ with_value "destination_dir" s = Some "pre-release".
Proof.
  eexists. split; [reflexivity|].
  match goal with
  | |- In ?p _ /\ _ => assert (Hex : In p (executed dev_run publish_yml))
  end.
  { vm_compute. auto 12. }
  split; [exact Hex|].
  exact (proj1 (proj2 (pages_destination_by_branch dev_run _ _ Hex eq_refl)) eq_refl).
Defined.

(** X6.  Whenever a step publishes to GitHub Pages, the step 'Download
    documentation artifact' has executed and succeeded before it and has
    put the artifact documentation-site at the directory the step
    publishes; an artifact of that name is uploaded by a job of the build
    workflow, which has succeeded. *)
Theorem pages_publish_the_built_site (ctx : run_ctx) (jid : string) (s : step) :
  In (jid, s) (executed ctx publish_yml) ->
  publishes_pages s = true ->
  ctx_called ctx "build" = Succeeded
  /\ step_succeeds ctx publish_yml "publish" "Download documentation artifact" = true
  /\ exists d, In d publish_steps
       /\ named "Download documentation artifact" d = true
       /\ uses_action "actions/download-artifact@" d = true
       /\ with_value "path" d = with_value "publish_dir" s
       /\ exists j u, In (j, u) (all_steps build_yml)
            /\ uses_action "actions/upload-artifact@" u = true
            /\ with_value "name" u = with_value "name" d
            /\ with_value "path" u = Some "docs/_build/html".
Proof.
  intros Hex Hp.
  destruct (executed_publish ctx jid s Hex) as (_ & Hs & _ & _ & Hbuild).
  destruct (pages_step_cases s Hs Hp) as [_ Hdir].
  apply executed_position in Hex as [_ [i [Hi Hran]]].
  assert (Hlt : 7 < i).
  { do 8 (destruct i as [|i]; [injection Hi as <-; discriminate Hp|]). lia. }
  destruct (step_ran_before ctx i Hran) as [_ Hbefore].
  destruct (Hbefore 7 _ Hlt eq_refl eq_refl) as [H7 Ho].
  split; [exact Hbuild|]. split.
  { change (step_ran ctx publish_yml "publish" 7
            && is_ok (ctx_step ctx "publish" 7) = true).
    rewrite H7, Ho. reflexivity. }
  eexists. split; [do 7 right; left; reflexivity|].
  split; [reflexivity|]. split; [reflexivity|]. split; [rewrite Hdir; reflexivity|].
  exists "build-reference-documentation". eexists.
  split; [unfold all_steps; cbn; do 7 right; left; reflexivity|].
  repeat split.
Qed.

Lemma pages_publish_the_built_site_witness :
  exists s,
    nth_error publish_steps 10 = Some s
    /\ In ("publish", s) (executed main_run publish_yml)
    /\ step_succeeds main_run publish_yml "publish" "Download documentation artifact"
       = true.
Proof.
  eexists. split; [reflexivity|].
  match goal with
  | |- In ?p _ /\ _ => assert (Hex : In p (executed main_run publish_yml))
  end.
  { vm_compute. auto 12. }
  split; [exact Hex|].
  exact (proj1 (proj2 (pages_publish_the_built_site main_run _ _ Hex eq_refl))).
Defined.


(** X9.  When the build workflow and every step succeed, a run for
    [main] executes the release build, the upload, both publications of
    the documentation for [main] and the release step, and a run for [dev]
    executes the prerelease build, the upload and the publication to
    pre-release; each run executes the set-up steps and the download of
    the documentation, and none of the steps of the other branch. *)
Theorem successful_runs_publish (ctx : run_ctx) :
  ctx_called ctx "build" = Succeeded ->
  (forall i, ctx_step ctx "publish" i = Succeeded) ->
  (ctx_ref ctx = "refs/heads/main" ->
   executed_names ctx publish_yml
   = [ None; Some "Set up Python 3.8"; Some "Install dependencies";
       Some "Create version environment variable";
       Some "Build Release with setuptools"; Some "Publish with twine";
       Some "Download documentation artifact";
       Some "Publish reference docs (main branch)";
       Some "Publish latest reference docs (main branch)";
       Some "Create tag and GitHub release" ])
  /\ (ctx_ref ctx = "refs/heads/dev" ->
      executed_names ctx publish_yml
      = [ None; Some "Set up Python 3.8"; Some "Install dependencies";
          Some "Create version environment variable";
          Some "Build Prerelease with setuptools"; Some "Publish with twine";
          Some "Download documentation artifact";
          Some "Publish reference docs (dev branch)" ]).
Proof.
  intros Hb Hs. split; intros Hr; unfold executed_names.
  - rewrite (executed_ext ctx main_run Hr Hb Hs). reflexivity.
  - rewrite (executed_ext ctx dev_run Hr Hb Hs). reflexivity.
Qed.

Lemma successful_runs_publish_witness :
  In (Some "Publish with twine") (executed_names dev_run publish_yml)
  /\ ~ In (Some "Create tag and GitHub release") (executed_names dev_run publish_yml).
Proof.
  destruct (successful_runs_publish dev_run eq_refl (fun _ => eq_refl)) as [_ H].
  rewrite (H eq_refl). split.
  - cbn. do 5 right. left. reflexivity.
  - cbn. intros Hin. repeat (destruct Hin as [Hin|Hin]; [discriminate Hin|]).
    destruct Hin.
Defined.

End PublishJob.

Section PublishSchedule.
Import Text Actions Runner Pipeline.

Variable ref : string.

Let guard : bool := cond_holds ref (job_if publish_job).

Lemma publish_schedule_invariant (σ : gmap string job_state) :
  reachable ref publish_yml σ ->
  (exists sb, σ !! "build" = Some sb /\ sb <> Done CSkipped)
  /\ (exists sp, σ !! "publish" = Some sp)
  /\ (started σ "publish" -> σ !! "build" = Some (Done CSuccess) /\ guard = true)
  /\ (σ !! "publish" = Some (Done CSkipped) ->
      σ !! "build" = Some (Done CFailure) \/ guard = false).
Proof.
  unfold reachable. revert σ. apply rtc_ind_r.
  - split; [exists Waiting; split; [reflexivity|discriminate]|].
    split; [exists Waiting; reflexivity|].
    split; [intros [H|[H|H]]; discriminate H | discriminate].
  - intros σ σ' _ Hstep ((sb & Hb & Hbn) & (sp & Hp) & Hst & Hsk).
    assert (Hnot : σ !! "build" <> Some (Done CSuccess) -> ~ started σ "publish").
    { intros Hne Hs. apply Hne, Hst, Hs. }
    destruct Hstep as [j σ Hj Hw Hn Hc | j σ Hj Hw Hn Hc | j o σ Hj Hr];
      destruct Hj as [<-|[<-|[]]]; cbn [job_id build_job publish_job] in *;
      unfold started in *;
      rewrite ?lookup_insert_eq, ?(lookup_insert_ne _ "build" "publish"),
        ?(lookup_insert_ne _ "publish" "build") by discriminate.
    + split; [exists Running; split; [reflexivity|discriminate]|].
      split; [eauto|]. split.
      * intros Hs. exfalso. apply Hnot; [congruence|exact Hs].
      * intros H. destruct (Hsk H) as [H'|H']; [congruence|auto].
    + split; [eauto|]. split; [eauto|]. split; [|discriminate].
      intros _. split; [apply Hn; left; reflexivity|exact Hc].
    + exfalso. destruct Hc as [(n & [] & _)|Hc]. discriminate Hc.
    + split; [eauto|]. split; [eauto|]. split.
      * intros [H|[H|H]]; discriminate H.
      * intros _. destruct Hc as [(n & [<-|[]] & Hne)|Hc]; [left|right; exact Hc].
        destruct (Hn "build" ltac:(left; reflexivity)) as [c Hc].
        rewrite Hc in Hb. injection Hb as <-.
        destruct c; [contradiction Hne; exact Hc | exact Hc | contradiction Hbn; reflexivity].
    + split; [exists (Done (conclude o)); split; [reflexivity|destruct o; discriminate]|].
      split; [eauto|]. split.
      * intros Hs. exfalso. apply Hnot; [congruence|exact Hs].
      * intros H. destruct (Hsk H) as [H'|H']; [congruence|auto].
    + split; [eauto|]. split; [eauto|]. split.
      * intros _. apply Hst. left. exact Hr.
      * destruct o; discriminate.
Qed.

(** X8.  The schedule of the publish workflow cannot get stuck: in
    every state it can reach, either a job can start, be skipped or
    finish, or both jobs have concluded, and then nothing moves any more.
    When both have concluded, [publish] has been skipped exactly if
    [build] has failed or the condition of [publish] on the ref does not
    hold. *)
Theorem publish_schedule_completes (σ : gmap string job_state) :
  reachable ref publish_yml σ ->
  ((exists σ', sched_step ref publish_yml σ σ') \/ all_concluded publish_yml σ)
  /\ (all_concluded publish_yml σ ->
      (forall σ', ~ sched_step ref publish_yml σ σ')
      /\ (σ !! "publish" = Some (Done CSkipped) <->
          σ !! "build" = Some (Done CFailure)
          \/ cond_holds ref (job_if publish_job) = false)).
Proof.
  intros Hreach.
  destruct (publish_schedule_invariant σ Hreach)
    as ((sb & Hb & Hbn) & (sp & Hp) & Hst & Hsk).
  split.
  - destruct sb as [| |cb].
    + left. eexists. apply (sched_start _ _ build_job); cbn;
        [auto | exact Hb | intros n [] | reflexivity].
    + left. eexists. apply (sched_finish _ _ build_job Succeeded); cbn; auto.
    + destruct sp as [| |cp].
      * left. destruct cb; [destruct guard eqn:Hg| |contradiction Hbn; reflexivity].
        -- eexists. apply (sched_start _ _ publish_job); cbn [job_id job_needs publish_job];
             [right; left; reflexivity | exact Hp | intros n [<-|[]]; exact Hb | exact Hg].
        -- eexists. apply (sched_skip _ _ publish_job); cbn [job_id job_needs publish_job];
             [right; left; reflexivity | exact Hp | intros n [<-|[]]; eauto
             | right; exact Hg].
        -- eexists. apply (sched_skip _ _ publish_job); cbn [job_id job_needs publish_job];
             [right; left; reflexivity | exact Hp | intros n [<-|[]]; eauto|].
           left. exists "build". split; [left; reflexivity|]. rewrite Hb. discriminate.
      * left. eexists. apply (sched_finish _ _ publish_job Succeeded); cbn;
          [right; left; reflexivity | exact Hp].
      * right. intros j [<-|[<-|[]]]; cbn; eauto.
  - intros Hall. split.
    + intros σ' Hstep.
      destruct Hstep as [j σ Hj Hw _ _ | j σ Hj Hw _ _ | j o σ Hj Hr];
        destruct (Hall j Hj) as [c Hc]; congruence.
    + split; [exact Hsk|].
      destruct (Hall publish_job ltac:(right; left; reflexivity)) as [cp Hcp].
      cbn [job_id publish_job] in Hcp. intros Hwhy.
      destruct cp; [| |exact Hcp].
      * destruct Hst as [Hbs Hg]; [right; left; exact Hcp|].
        destruct Hwhy as [Hf|Hf]; [congruence|]. fold guard in Hf. congruence.
      * destruct Hst as [Hbs Hg]; [right; right; exact Hcp|].
        destruct Hwhy as [Hf|Hf]; [congruence|]. fold guard in Hf. congruence.
Qed.

End PublishSchedule.

Section PublishScheduleWitness.
Import Text Actions Runner Pipeline.

Lemma publish_schedule_completes_witness :
  let σ : gmap string job_state :=
    <["publish" := Done CSkipped]>
      (<["build" := Done CFailure]> (<["build" := Running]> (initial publish_yml))) in
  reachable "refs/heads/main" publish_yml σ
  /\ all_concluded publish_yml σ
  /\ forall σ', ~ sched_step "refs/heads/main" publish_yml σ σ'.
Proof.
  intros σ.
  assert (Hreach : reachable "refs/heads/main" publish_yml σ).
  { unfold reachable, σ.
    eapply rtc_l.
    { apply (sched_start _ _ build_job).
      - left. reflexivity.
      - reflexivity.
      - intros n [].
      - reflexivity. }
    eapply rtc_l.
    { apply (sched_finish _ _ build_job Failed).
      - left. reflexivity.
      - reflexivity. }
    eapply rtc_l.
    { apply (sched_skip _ _ publish_job).
      - right. left. reflexivity.
      - reflexivity.
      - intros n [<-|[]]. eexists. reflexivity.
      - left. exists "build". split; [left; reflexivity|]. discriminate. }
    apply rtc_refl. }
  assert (Hall : all_concluded publish_yml σ).
  { intros j [<-|[<-|[]]]; eexists; reflexivity. }
  split; [exact Hreach|]. split; [exact Hall|].
  exact (proj1 (proj2 (publish_schedule_completes "refs/heads/main" σ Hreach) Hall)).
Defined.

End PublishScheduleWitness.

From Stdlib Require Import Lqa.

(** ** Notebook code *)

Section MatchRatioMore.
Import Tutorials.

Variables keep_indices indices1 indices2 : list Z.

Lemma count_matches_fails (range : list nat) (i : nat) (e : exn) :
  In i range ->
  matched keep_indices indices1 indices2 i = Raise e ->
  forall match_ratio,
    exists e', count_matches keep_indices indices1 indices2 range match_ratio = Raise e'.
Proof.
  induction range as [|k rest IH]; intros Hin Hm acc; [contradiction|].
  cbn [count_matches].
  destruct (matched keep_indices indices1 indices2 k) as [m|e'] eqn:Hk; cbn.
  - destruct Hin as [->|Hin]; [congruence|]. apply IH; assumption.
  - eauto.
Qed.

Lemma matched_out_of_range (i : nat) :
  length indices1 <= i \/ length keep_indices <= i ->
  matched keep_indices indices1 indices2 i = Raise IndexError.
Proof.
  intros H. unfold matched, item.
  destruct (indices1 !! i) as [x|] eqn:E1; cbn; [|reflexivity].
  destruct (keep_indices !! i) as [k|] eqn:Ek; cbn; [|reflexivity].
  apply lookup_lt_Some in E1, Ek. lia.
Qed.

(** X10.  [compute_match_ratio] fails with IndexError exactly when
    [indices1] or [keep_indices] has fewer entries than [indices2]; with
    the claim on division by zero this leaves a value in every other
    case. *)
Theorem compute_match_ratio_index_error :
  compute_match_ratio keep_indices indices1 indices2 = Raise IndexError
  <-> length indices1 < length indices2 \/ length keep_indices < length indices2.
Proof.
  split.
  - intros H.
    destruct (Nat.lt_ge_cases (length indices1) (length indices2)) as [|H1]; [auto|].
    destruct (Nat.lt_ge_cases (length keep_indices) (length indices2)) as [|Hk]; [auto|].
    exfalso. unfold compute_match_ratio in H.
    rewrite count_matches_in_range in H; [|assumption|assumption|].
    2:{ apply List.Forall_forall. intros i Hi%in_seq. lia. }
    cbn in H. unfold truediv in H. destruct (_ =? 0)%Z; discriminate H.
  - intros H.
    set (i := Nat.min (length indices1) (length keep_indices)).
    assert (Hi : In i (seq 0 (length indices2))) by (apply in_seq; lia).
    assert (Hm : matched keep_indices indices1 indices2 i = Raise IndexError)
      by (apply matched_out_of_range; lia).
    destruct (count_matches_fails _ i _ Hi Hm 0%Z) as [e He].
    unfold compute_match_ratio. rewrite He.
    apply count_matches_raises in He. subst e. reflexivity.
Qed.

Lemma filter_all (A : Type) (f : A -> bool) (l : list A) :
  length (List.filter f l) = length l <-> forall x, In x l -> f x = true.
Proof.
  induction l as [|a l IH]; cbn; [tauto|].
  pose proof (List.filter_length_le f l) as Hle.
  destruct (f a) eqn:Ha; cbn.
  - split.
    + intros H x [<-|Hx]; [exact Ha|]. apply IH; [lia|exact Hx].
    + intros H. f_equal. apply IH. auto.
  - split; [lia|]. intros H. specialize (H a (or_introl eq_refl)). congruence.
Qed.

Lemma filter_none (A : Type) (f : A -> bool) (l : list A) :
  length (List.filter f l) = 0 <-> forall x, In x l -> f x = false.
Proof.
  induction l as [|a l IH]; cbn; [tauto|].
  destruct (f a) eqn:Ha; cbn.
  - split; [discriminate|]. intros H. specialize (H a (or_introl eq_refl)). congruence.
  - rewrite IH. split; [intros H x [<-|Hx]; auto | auto].
Qed.

Lemma position_matches_iff (i : nat) :
  position_matches keep_indices indices1 indices2 i = true <->
  (exists x, indices1 !! i = Some x /\ keep_indices !! i = Some x)
  /\ indices2 !! i = Some (Z.of_nat i).
Proof.
  unfold position_matches.
  destruct (indices1 !! i) as [x|], (keep_indices !! i) as [k|],
    (indices2 !! i) as [y|]; try (split; [discriminate|]).
  - rewrite andb_true_iff, !Z.eqb_eq. split.
    + intros [-> ->]. eauto.
    + intros [(x' & [= ->] & [= ->]) [= ->]]. auto.
  - intros [(x' & _) [=]].
  - intros [(x' & _ & [=]) _].
  - intros [(x' & _ & [=]) _].
  - intros [(x' & [=] & _) _].
  - intros [(x' & [=] & _) _].
  - intros [(x' & [=] & _) _].
  - intros [(x' & [=] & _) _].
Qed.

(** X11.  With the arrays in range, the ratio is 1 exactly when every
    position matches ([indices1] agrees with [keep_indices] and [indices2]
    is 0, 1, 2, ... on its whole length) and 0 exactly when none does. *)
Theorem match_ratio_extremes :
  indices2 <> [] ->
  length indices2 <= length indices1 ->
  length indices2 <= length keep_indices ->
  exists q : Q,
    compute_match_ratio keep_indices indices1 indices2 = Ok q
    /\ ((q == 1)%Q <->
        forall i, i < length indices2 ->
          (exists x, indices1 !! i = Some x /\ keep_indices !! i = Some x)
          /\ indices2 !! i = Some (Z.of_nat i))
    /\ ((q == 0)%Q <->
        forall i, i < length indices2 ->
          ~ ((exists x, indices1 !! i = Some x /\ keep_indices !! i = Some x)
             /\ indices2 !! i = Some (Z.of_nat i))).
Proof.
  intros Hne H1 Hk.
  assert (Hlen : (0 < Z.of_nat (length indices2))%Z).
  { destruct indices2; [contradiction|cbn [length]; lia]. }
  unfold compute_match_ratio.
  rewrite count_matches_in_range; [|assumption|assumption|].
  2:{ apply List.Forall_forall. intros i Hi%in_seq. lia. }
  cbn. unfold truediv.
  destruct (Z.eqb_spec (Z.of_nat (length indices2)) 0) as [E|_]; [lia|].
  eexists. split; [reflexivity|].
  set (f := position_matches keep_indices indices1 indices2).
  pose proof (List.filter_length_le f (seq 0 (length indices2))) as Hle.
  rewrite length_seq in Hle.
  split.
  - assert (Hq : (Z.of_nat (length (List.filter f (seq 0 (length indices2))))
                   # Z.to_pos (Z.of_nat (length indices2)) == 1)%Q
                 <-> length (List.filter f (seq 0 (length indices2)))
                     = length (seq 0 (length indices2))).
    { rewrite length_seq. unfold Qeq. cbn [Qnum Qden].
      rewrite Z2Pos.id by exact Hlen. lia. }
    rewrite Hq, filter_all. split.
    + intros H i Hi. apply position_matches_iff, H, in_seq. lia.
    + intros H i Hi%in_seq. apply position_matches_iff, H. lia.
  - assert (Hq : (Z.of_nat (length (List.filter f (seq 0 (length indices2))))
                   # Z.to_pos (Z.of_nat (length indices2)) == 0)%Q
                 <-> length (List.filter f (seq 0 (length indices2))) = 0).
    { unfold Qeq. cbn [Qnum Qden]. lia. }
    rewrite Hq, filter_none. split.
    + intros H i Hi Hm. apply position_matches_iff in Hm.
      assert (Hf : f i = false) by (apply H, in_seq; lia).
      unfold f in Hf. congruence.
    + intros H i Hi%in_seq. apply not_true_is_false. intros Hm.
      apply position_matches_iff in Hm. apply (H i); [lia|exact Hm].
Qed.

Lemma matched_take (n i : nat) :
  i < n ->
  matched (take n keep_indices) (take n indices1) indices2 i
  = matched keep_indices indices1 indices2 i.
Proof.
  intros Hi. unfold matched, item. rewrite !lookup_take_lt by exact Hi. reflexivity.
Qed.

(** X12.  [compute_match_ratio] reads [indices1] and [keep_indices] only
    at the positions [indices2] has: cutting both to the length of
    [indices2] changes neither the value nor the error. *)
Theorem compute_match_ratio_reads_prefix :
  compute_match_ratio (take (length indices2) keep_indices)
    (take (length indices2) indices1) indices2
  = compute_match_ratio keep_indices indices1 indices2.
Proof.
  unfold compute_match_ratio. f_equal.
  generalize 0%Z as acc.
  assert (Hr : Forall (fun i => i < length indices2) (seq 0 (length indices2))).
  { apply List.Forall_forall. intros i Hi%in_seq. lia. }
  revert Hr. generalize (seq 0 (length indices2)) as range.
  generalize (length indices2) as n. intros n range.
  induction range as [|i rest IH]; intros Hr acc; [reflexivity|].
  apply Forall_cons in Hr as [Hi Hr]. cbn [count_matches].
  rewrite (matched_take n i Hi).
  destruct (matched keep_indices indices1 indices2 i); cbn; [apply IH, Hr|reflexivity].
Qed.

End MatchRatioMore.

Lemma match_ratio_extremes_witness :
  exists q : Q,
    Tutorials.compute_match_ratio [ 0; 1 ]%Z [ 0; 1 ]%Z [ 0; 1 ]%Z = Tutorials.Ok q
    /\ ((q == 1)%Q <->
        forall i, i < 2 ->
          (exists x, [ 0; 1 ]%Z !! i = Some x /\ [ 0; 1 ]%Z !! i = Some x)
          /\ [ 0; 1 ]%Z !! i = Some (Z.of_nat i))
    /\ ((q == 0)%Q <->
        forall i, i < 2 ->
          ~ ((exists x, [ 0; 1 ]%Z !! i = Some x /\ [ 0; 1 ]%Z !! i = Some x)
             /\ [ 0; 1 ]%Z !! i = Some (Z.of_nat i))).
Proof.
  apply (match_ratio_extremes [ 0; 1 ]%Z [ 0; 1 ]%Z [ 0; 1 ]%Z);
    [discriminate | cbn; lia | cbn; lia].
Defined.

Section Seeds.
Import Tutorials Cells.

Lemma keep_indices_lookup (x : Z) :
  (0 <= x < 300)%Z ->
  keep_indices !! Z.to_nat x = Some (Z.quot x 75 * 25 + x)%Z.
Proof.
  intros Hx.
  assert (Hall : forallb (fun k => match keep_indices !! k with
                                   | Some v => (v =? Z.quot (Z.of_nat k) 75 * 25 + Z.of_nat k)%Z
                                   | None => false
                                   end) (seq 0 300) = true)
    by (vm_compute; reflexivity).
  rewrite forallb_forall in Hall.
  specialize (Hall (Z.to_nat x)).
  destruct (keep_indices !! Z.to_nat x) as [v|].
  - rewrite Z2Nat.id in Hall by lia. f_equal. apply Z.eqb_eq, Hall, in_seq. lia.
  - discriminate Hall. apply in_seq. lia.
Qed.

Lemma seed_rule_increasing (x y : Z) :
  (0 <= x < y)%Z -> (Z.quot x 75 * 25 + x < Z.quot y 75 * 25 + y)%Z.
Proof.
  intros H.
  assert (Z.quot x 75 <= Z.quot y 75)%Z by (apply Z.quot_le_mono; lia).
  lia.
Qed.

(** X13.  For seeds among the 300 vertices of G2, each entry of [seed1]
    is the vertex of G1 that [keep_indices] holds at the position of the
    seed: [seed1[k] == keep_indices[seed2[k]]]; and distinct seeds get
    distinct partners. *)
Theorem seed1_follows_keep_indices (seed2 : list Z) :
  Forall (fun x => 0 <= x < 300)%Z seed2 ->
  Forall2 (fun s x => item keep_indices (Z.to_nat x) = Ok s) (seed1 seed2) seed2
  /\ (NoDup seed2 -> NoDup (seed1 seed2)).
Proof.
  intros Hr. split.
  - induction Hr as [|x rest Hx _ IH]; cbn [seed1 List.map]; constructor; [|exact IH].
    unfold item. rewrite (keep_indices_lookup x Hx). reflexivity.
  - unfold seed1. change (List.map ?f ?l) with (f <$> l).
    apply NoDup_fmap_2_strong.
    intros x y Hx%list_elem_of_In Hy%list_elem_of_In E.
    rewrite List.Forall_forall in Hr.
    pose proof (Hr x Hx) as Rx. pose proof (Hr y Hy) as Ry. cbv beta in Rx, Ry.
    destruct (Z.lt_trichotomy x y) as [L|[L|L]]; [|exact L|].
    + pose proof (seed_rule_increasing x y). lia.
    + pose proof (seed_rule_increasing y x). lia.
Qed.

Lemma arange_lookup (n i : nat) :
  i < n -> arange 0 n !! i = Some (Z.of_nat i).
Proof.
  intros Hi. unfold arange. rewrite Nat.sub_0_r.
  change (List.map Z.of_nat (seq 0 n)) with (Z.of_nat <$> seq 0 n).
  rewrite list_lookup_fmap, lookup_seq_lt by exact Hi. reflexivity.
Qed.

Lemma arange_length (n : nat) : length (arange 0 n) = n.
Proof. unfold arange. rewrite length_map, length_seq. lia. Qed.

(** X14.  A matching that gives each of the first [n] vertices of G2
    the partner the seed formula gives scores 1: the formula of [seed1]
    and the test of [compute_match_ratio] against [keep_indices] mean the
    same pairs. *)
Theorem seed_rule_scores_one (n : nat) :
  0 < n <= 300 ->
  exists q : Q,
    compute_match_ratio keep_indices (seed1 (arange 0 n)) (arange 0 n) = Ok q
    /\ (q == 1)%Q.
Proof.
  intros Hn.
  assert (Hk : length keep_indices = 300) by reflexivity.
  assert (H1 : length (seed1 (arange 0 n)) = n)
    by (unfold seed1; rewrite length_map; apply arange_length).
  unfold compute_match_ratio.
  rewrite count_matches_in_range; rewrite ?arange_length; try lia.
  2:{ apply List.Forall_forall. intros i Hi%in_seq. lia. }
  set (c := length (List.filter _ _)).
  cbn -[keep_indices seed1 arange position_matches]. unfold truediv.
  destruct (Z.eqb_spec (Z.of_nat n) 0) as [E|_]; [lia|].
  eexists. split; [reflexivity|]. subst c.
  assert (Hall : length (List.filter
                   (position_matches keep_indices (seed1 (arange 0 n)) (arange 0 n))
                   (seq 0 n)) = length (seq 0 n)).
  { apply filter_all. intros i Hi%in_seq. apply position_matches_iff.
    split; [|apply arange_lookup; lia].
    exists (Z.quot (Z.of_nat i) 75 * 25 + Z.of_nat i)%Z. split.
    - unfold seed1.
      change (List.map ?f ?l) with (f <$> l).
      rewrite list_lookup_fmap, arange_lookup by lia. reflexivity.
    - rewrite <- (keep_indices_lookup (Z.of_nat i)) by lia.
      rewrite Nat2Z.id. reflexivity. }
  rewrite Hall, length_seq. unfold Qeq. cbn [Qnum Qden].
  rewrite Z2Pos.id by lia. lia.
Qed.

End Seeds.

Lemma seed1_follows_keep_indices_witness :
  Forall2 (fun s x => Tutorials.item Tutorials.keep_indices (Z.to_nat x) = Tutorials.Ok s)
    (Cells.seed1 [ 7; 80; 299 ]%Z) [ 7; 80; 299 ]%Z
  /\ (NoDup [ 7; 80; 299 ]%Z -> NoDup (Cells.seed1 [ 7; 80; 299 ]%Z)).
Proof.
  apply (seed1_follows_keep_indices [ 7; 80; 299 ]%Z).
  repeat constructor; lia.
Defined.

Lemma seed_rule_scores_one_witness :
  exists q : Q,
    Tutorials.compute_match_ratio Tutorials.keep_indices
      (Cells.seed1 (Tutorials.arange 0 8)) (Tutorials.arange 0 8) = Tutorials.Ok q
    /\ (q == 1)%Q.
Proof.
  apply (seed_rule_scores_one 8). lia.
Defined.

Section RoiNames.
Import Tutorials.

Variable atlas : Z -> result string.

(** X15.  [lookup_roi_name] pairs the two hemispheres: for a region
    number [i] from 0 to 165 with atlas name [name], vertex [i] is named
    [name (L)], and every vertex [i + 166 * k] with [k <> 0] is named
    [name (R)]: vertex numbers outside 0..331 are not rejected but wrap
    around onto the right hemisphere. *)
Theorem lookup_roi_name_hemispheres (i : Z) (name : string) :
  (0 <= i < 166)%Z ->
  atlas (i + 1)%Z = Ok name ->
  lookup_roi_name atlas i = Ok (name +:+ " (L)")
  /\ forall k, k <> 0%Z ->
       lookup_roi_name atlas (i + 166 * k)%Z = Ok (name +:+ " (R)").
Proof.
  intros Hi Hname. split.
  - unfold lookup_roi_name.
    rewrite (Z.mod_small i 166) by lia. rewrite (Z.div_small i 166) by lia.
    rewrite Hname. reflexivity.
  - intros k Hk. unfold lookup_roi_name.
    replace (i + 166 * k)%Z with (i + k * 166)%Z by lia.
    rewrite Z.mod_add, Z.div_add by lia.
    rewrite (Z.mod_small i 166) by lia. rewrite (Z.div_small i 166) by lia.
    rewrite Hname. cbn [mbind result_bind].
    destruct (Z.eqb_spec (0 + k) 0) as [E|_]; [lia|]. reflexivity.
Qed.

(** X16.  [lookup_roi_name] asks the atlas for one key, between 1 and
    166, whatever the index: atlases that agree on these keys give the
    same names, and when the atlas fails for the key the function fails
    with the same exception. *)
Theorem lookup_roi_name_reads_atlas (atlas' : Z -> result string) (index : Z) :
  (forall k, (1 <= k <= 166)%Z -> atlas k = atlas' k) ->
  lookup_roi_name atlas index = lookup_roi_name atlas' index
  /\ exists k, (1 <= k <= 166)%Z
       /\ (forall e, atlas k = Raise e -> lookup_roi_name atlas index = Raise e)
       /\ (forall name, atlas k = Ok name ->
             exists h, lookup_roi_name atlas index = Ok (name +:+ " (" +:+ h +:+ ")")).
Proof.
  intros Hagree.
  pose proof (Z.mod_pos_bound index 166 ltac:(lia)) as Hm.
  split.
  - unfold lookup_roi_name. rewrite Hagree by lia. reflexivity.
  - exists (index mod 166 + 1)%Z. split; [lia|]. split.
    + intros e He. unfold lookup_roi_name. rewrite He. reflexivity.
    + intros name Hn. unfold lookup_roi_name. rewrite Hn.
      eexists. reflexivity.
Qed.

End RoiNames.

Lemma lookup_roi_name_hemispheres_witness :
  Tutorials.lookup_roi_name (fun _ => Tutorials.Ok "corpus callosum") 120
  = Tutorials.Ok ("corpus callosum" +:+ " (L)")
  /\ forall k, k <> 0%Z ->
       Tutorials.lookup_roi_name (fun _ => Tutorials.Ok "corpus callosum") (120 + 166 * k)
       = Tutorials.Ok ("corpus callosum" +:+ " (R)").
Proof.
  apply (lookup_roi_name_hemispheres (fun _ => Tutorials.Ok "corpus callosum") 120
           "corpus callosum"); [lia | reflexivity].
Defined.

Lemma lookup_roi_name_reads_atlas_witness :
  Tutorials.lookup_roi_name (fun _ => Tutorials.Ok "pons") 200
  = Tutorials.lookup_roi_name
      (fun k => if (k <=? 166)%Z then Tutorials.Ok "pons" else Tutorials.Raise Tutorials.ValueError)
      200
  /\ exists k, (1 <= k <= 166)%Z
       /\ (forall e, (fun _ : Z => Tutorials.Ok "pons") k = Tutorials.Raise e ->
             Tutorials.lookup_roi_name (fun _ => Tutorials.Ok "pons") 200 = Tutorials.Raise e)
       /\ (forall name, (fun _ : Z => Tutorials.Ok "pons") k = Tutorials.Ok name ->
             exists h, Tutorials.lookup_roi_name (fun _ => Tutorials.Ok "pons") 200
                       = Tutorials.Ok (name +:+ " (" +:+ h +:+ ")")).
Proof.
  apply (lookup_roi_name_reads_atlas (fun _ => Tutorials.Ok "pons")
           (fun k => if (k <=? 166)%Z then Tutorials.Ok "pons"
                     else Tutorials.Raise Tutorials.ValueError) 200).
  intros k Hk. destruct (Z.leb_spec k 166) as [_|H]; [reflexivity | lia].
Defined.

Section EdgeRows.
Import Tutorials.
Context {genotype sample stat pval : Type}.
Variable nan : stat.
Variable one : pval.
Variable value_error_classes : string -> bool.
Variable ksample_test : list sample -> result (stat * pval).
Variable subscript : genotype -> nat -> nat -> result sample.
Variable connectomes : list genotype.

Lemma edge_row_ok (i j : nat) (row : nat * nat * stat * pval) :
  edge_row nan one value_error_classes ksample_test subscript connectomes i j = Ok row ->
  (fst (fst (fst row)), snd (fst (fst row))) = (i, j)
  /\ Cells.row_of_test nan one value_error_classes ksample_test subscript connectomes row.
Proof.
  unfold edge_row, guarded_test, Cells.row_of_test.
  destruct (edge_samples subscript connectomes i j) as [samples|e] eqn:Es;
    cbn [mbind result_bind]; [|discriminate].
  destruct (ksample_test samples) as [[s p]|e] eqn:Et.
  - cbn. intros [= <-]. split; [reflexivity|]. exists samples. auto.
  - destruct (isinstance_ValueError value_error_classes e) eqn:Ei; cbn; [|discriminate].
    intros [= <-]. split; [reflexivity|]. exists samples. split; [assumption|].
    right. exists e. auto.
Qed.

Lemma edge_row_raise (i j : nat) (e : exn) :
  edge_row nan one value_error_classes ksample_test subscript connectomes i j = Raise e ->
  edge_samples subscript connectomes i j = Raise e
  \/ exists samples, edge_samples subscript connectomes i j = Ok samples
       /\ ksample_test samples = Raise e
       /\ isinstance_ValueError value_error_classes e = false.
Proof.
  unfold edge_row, guarded_test.
  destruct (edge_samples subscript connectomes i j) as [samples|e'] eqn:Es;
    cbn [mbind result_bind]; [|intros [= <-]; left; reflexivity].
  destruct (ksample_test samples) as [[s p]|e'] eqn:Et; [discriminate|].
  destruct (isinstance_ValueError value_error_classes e') eqn:Ei; cbn; [discriminate|].
  intros [= <-]. right. exists samples. auto.
Qed.

Lemma edge_row_total (i j : nat) (samples : list sample) :
  edge_samples subscript connectomes i j = Ok samples ->
  (forall e, ksample_test samples = Raise e ->
     isinstance_ValueError value_error_classes e = true) ->
  exists row,
    edge_row nan one value_error_classes ksample_test subscript connectomes i j = Ok row.
Proof.
  intros Es H. unfold edge_row, guarded_test. rewrite Es. cbn [mbind result_bind].
  destruct (ksample_test samples) as [[s p]|e] eqn:Et; [cbn; eauto|].
  rewrite (H e eq_refl). cbn. eauto.
Qed.

Lemma edge_loop_ok (indices : list (nat * nat)) :
  forall edge_pvals rows,
    edge_loop nan one value_error_classes ksample_test subscript connectomes
      indices edge_pvals = Ok rows ->
    exists new, rows = edge_pvals ++ new
      /\ List.map (fun row => (fst (fst (fst row)), snd (fst (fst row)))) new = indices
      /\ Forall (Cells.row_of_test nan one value_error_classes ksample_test subscript
                   connectomes) new.
Proof.
  induction indices as [|[i j] rest IH]; intros acc rows; cbn [edge_loop].
  - intros [= <-]. exists []. rewrite app_nil_r. repeat split. constructor.
  - destruct (edge_row nan one value_error_classes ksample_test subscript connectomes i j)
      as [row|e] eqn:E; cbn [mbind result_bind]; [|discriminate].
    intros H. apply IH in H as (new & -> & Hmap & Hall).
    apply edge_row_ok in E as [Eij Erow].
    exists (row :: new). rewrite <- app_assoc. split; [reflexivity|].
    split; [cbn [List.map]; rewrite Eij, Hmap; reflexivity|].
    constructor; assumption.
Qed.

Lemma edge_loop_raise (indices : list (nat * nat)) :
  forall edge_pvals e,
    edge_loop nan one value_error_classes ksample_test subscript connectomes
      indices edge_pvals = Raise e ->
    exists i j, In (i, j) indices
      /\ (edge_samples subscript connectomes i j = Raise e
          \/ exists samples, edge_samples subscript connectomes i j = Ok samples
               /\ ksample_test samples = Raise e
               /\ isinstance_ValueError value_error_classes e = false).
Proof.
  induction indices as [|[i j] rest IH]; intros acc e; cbn [edge_loop].
  - discriminate.
  - destruct (edge_row nan one value_error_classes ksample_test subscript connectomes i j)
      as [row|e'] eqn:E; cbn [mbind result_bind].
    + intros H. apply IH in H as (i' & j' & Hin & Ht).
      exists i', j'. split; [right; exact Hin | exact Ht].
    + intros [= <-]. apply edge_row_raise in E.
      exists i, j. split; [left; reflexivity | exact E].
Qed.

Lemma edge_loop_total (indices : list (nat * nat)) :
  (forall i j, In (i, j) indices ->
     exists samples, edge_samples subscript connectomes i j = Ok samples
       /\ forall e, ksample_test samples = Raise e ->
            isinstance_ValueError value_error_classes e = true) ->
  forall edge_pvals,
    exists rows,
      edge_loop nan one value_error_classes ksample_test subscript connectomes
        indices edge_pvals = Ok rows.
Proof.
  induction indices as [|[i j] rest IH]; intros H acc; cbn [edge_loop]; [eauto|].
  destruct (H i j (or_introl eq_refl)) as (samples & Es & Ht).
  destruct (edge_row_total i j samples Es Ht) as [row ->].
  cbn [mbind result_bind]. apply IH. intros i' j' Hin. apply H. right. exact Hin.
Qed.

Lemma edge_samples_raise (gs : list genotype) (i j : nat) (e : exn) :
  edge_samples subscript gs i j = Raise e ->
  exists g, In g gs /\ subscript g i j = Raise e.
Proof.
  induction gs as [|g gs IH]; cbn [edge_samples]; [discriminate|].
  destruct (subscript g i j) as [s|e'] eqn:Eg; cbn [mbind result_bind].
  - destruct (edge_samples subscript gs i j) as [ss|e'] eqn:Es; cbn [mbind result_bind];
      [discriminate|].
    intros [= <-]. destruct (IH eq_refl) as (g' & Hin & Hg).
    exists g'. split; [right; exact Hin | exact Hg].
  - intros [= <-]. exists g. split; [left; reflexivity | exact Eg].
Qed.

(** X17.  The edge-wise loop as a whole.  When it returns, it has
    appended one row per index pair, in the order of the pairs, and each
    row holds either what the test returned for the samples of that edge
    or nan and 1 where the test raised an instance of ValueError.  An
    exception of the loop was raised for one of the pairs, either by a
    subscript [genotype[:, roi_i, roi_j]], which stands before the [try],
    or by the test, and then it is no instance of ValueError.  The loop
    returns if for every pair the subscripts return and the test raises
    nothing but instances of ValueError. *)
Theorem edge_loop_rows (indices : list (nat * nat))
    (edge_pvals : list (nat * nat * stat * pval)) :
  (forall rows,
     edge_loop nan one value_error_classes ksample_test subscript connectomes
       indices edge_pvals = Ok rows ->
     exists new, rows = edge_pvals ++ new
       /\ List.map (fun row => (fst (fst (fst row)), snd (fst (fst row)))) new = indices
       /\ Forall (Cells.row_of_test nan one value_error_classes ksample_test subscript
                    connectomes) new)
  /\ (forall e,
        edge_loop nan one value_error_classes ksample_test subscript connectomes
          indices edge_pvals = Raise e ->
        exists i j, In (i, j) indices
          /\ ((exists g, In g connectomes /\ subscript g i j = Raise e)
              \/ exists samples, edge_samples subscript connectomes i j = Ok samples
                   /\ ksample_test samples = Raise e
                   /\ isinstance_ValueError value_error_classes e = false))
  /\ ((forall i j, In (i, j) indices ->
         exists samples, edge_samples subscript connectomes i j = Ok samples
           /\ forall e, ksample_test samples = Raise e ->
                isinstance_ValueError value_error_classes e = true) ->
      exists rows,
        edge_loop nan one value_error_classes ksample_test subscript connectomes
          indices edge_pvals = Ok rows).
Proof.
  split; [|split].
  - intros rows. apply edge_loop_ok.
  - intros e H. apply edge_loop_raise in H as (i & j & Hin & [H|H]).
    + exists i, j. split; [exact Hin|]. left. apply edge_samples_raise, H.
    + exists i, j. split; [exact Hin|]. right. exact H.
  - intros H. apply edge_loop_total. exact H.
Qed.

(** X18.  The [try] changes nothing where nothing is raised: if the
    loop without it returns, the loop of the cell returns the same
    rows. *)
Theorem edge_loop_agrees_without_try (indices : list (nat * nat)) :
  forall edge_pvals rows,
    unguarded_loop ksample_test subscript connectomes indices edge_pvals = Ok rows ->
    edge_loop nan one value_error_classes ksample_test subscript connectomes
      indices edge_pvals = Ok rows.
Proof.
  induction indices as [|[i j] rest IH]; intros acc rows;
    cbn [unguarded_loop edge_loop]; [tauto|].
  unfold edge_row, guarded_test.
  destruct (edge_samples subscript connectomes i j) as [samples|e];
    cbn [mbind result_bind]; [|discriminate].
  destruct (ksample_test samples) as [[s p]|e]; cbn; [|discriminate].
  apply IH.
Qed.

End EdgeRows.

Lemma edge_loop_agrees_without_try_witness :
  Tutorials.edge_loop None 1%Q Tutorials.builtin_value_errors Tutorials.strict_test
    Tutorials.edge_weights Tutorials.example_connectomes [ (0, 1) ] []
  = Tutorials.Ok [ (0, 1, Some (1 # 2), 1 # 20) ].
Proof.
  apply (edge_loop_agrees_without_try None 1%Q Tutorials.builtin_value_errors
           Tutorials.strict_test Tutorials.edge_weights Tutorials.example_connectomes
           [ (0, 1) ] []).
  reflexivity.
Defined.

Section Holm.
Import Tutorials Cells.

(** X19.  The correction can only lose significance.  For a p-value
    that is not negative and a rank of at least 1, the corrected value is
    at most 1 and, for a p-value up to 1, not below the p-value; a row is
    marked significant only if its p-value itself is below alpha; and a
    p-value of 1 or more is never marked. *)
Theorem holm_correction_is_conservative (pval pval_rank : Q) :
  (0 <= pval)%Q ->
  (1 <= pval_rank)%Q ->
  (0 <= holm_pval pval pval_rank <= 1)%Q
  /\ ((pval <= 1)%Q -> (pval <= holm_pval pval pval_rank)%Q)
  /\ (significant (holm_pval pval pval_rank) = true -> (pval < alpha)%Q)
  /\ ((1 <= pval)%Q -> significant (holm_pval pval pval_rank) = false).
Proof.
  intros Hp Hr.
  assert (Hmul : (pval <= pval * pval_rank)%Q) by nra.
  unfold holm_pval, significant, holm_clip, alpha.
  destruct (Qlt_le_dec 1 (pval * pval_rank)) as [H|H].
  - split; [lra|]. split; [lra|]. split.
    + destruct (Qlt_le_dec 1 (5 # 100)); [lra|discriminate].
    + intros _. destruct (Qlt_le_dec 1 (5 # 100)); [lra|reflexivity].
  - split; [lra|]. split; [lra|]. split.
    + destruct (Qlt_le_dec (pval * pval_rank) (5 # 100)); [lra|discriminate].
    + intros H1. destruct (Qlt_le_dec (pval * pval_rank) (5 # 100)); [lra|reflexivity].
Qed.

(** X20.  An edge whose test raised ValueError, or an exception of a
    class derived from it, is never reported as significant: the loop
    records the p-value 1 for it, and the correction leaves a 1 whatever
    the rank of the row. *)
Theorem zero_variance_edges_not_significant {genotype sample stat : Type} (nan : stat)
    (value_error_classes : string -> bool)
    (ksample_test : list sample -> result (stat * Q))
    (subscript : genotype -> nat -> nat -> result sample)
    (connectomes : list genotype)
    (indices : list (nat * nat)) (rows : list (nat * nat * stat * Q))
    (i j : nat) (s : stat) (p pval_rank : Q) (samples : list sample) (e : exn) :
  edge_loop nan 1%Q value_error_classes ksample_test subscript connectomes indices []
  = Ok rows ->
  In (i, j, s, p) rows ->
  edge_samples subscript connectomes i j = Ok samples ->
  ksample_test samples = Raise e ->
  isinstance_ValueError value_error_classes e = true ->
  (1 <= pval_rank)%Q ->
  p = 1%Q /\ significant (holm_pval p pval_rank) = false.
Proof.
  intros Hloop Hin Hs Hraise He Hrank.
  apply edge_loop_ok in Hloop as (new & -> & _ & Hall).
  rewrite List.Forall_forall in Hall. specialize (Hall _ Hin).
  cbn in Hall. destruct Hall as (samples' & Hs' & Hrow).
  assert (samples' = samples) by congruence. subst samples'.
  destruct Hrow as [Hok|(e' & _ & _ & _ & ->)]; [congruence|].
  split; [reflexivity|].
  unfold holm_pval, significant, holm_clip, alpha.
  destruct (Qlt_le_dec 1 (1 * pval_rank)) as [H|H].
  - destruct (Qlt_le_dec 1 (5 # 100)); [lra|reflexivity].
  - destruct (Qlt_le_dec (1 * pval_rank) (5 # 100)); [lra|reflexivity].
Qed.

End Holm.

Lemma holm_correction_is_conservative_witness :
  (0 <= Cells.holm_pval (1 # 100) 3 <= 1)%Q
  /\ ((1 # 100 <= 1)%Q -> (1 # 100 <= Cells.holm_pval (1 # 100) 3)%Q)
  /\ (Cells.significant (Cells.holm_pval (1 # 100) 3) = true -> (1 # 100 < Cells.alpha)%Q)
  /\ ((1 <= 1 # 100)%Q -> Cells.significant (Cells.holm_pval (1 # 100) 3) = false).
Proof.
  apply (holm_correction_is_conservative (1 # 100) 3); lra.
Defined.

Lemma zero_variance_edges_not_significant_witness :
  1%Q = 1%Q /\ Cells.significant (Cells.holm_pval 1 2) = false.
Proof.
  apply (zero_variance_edges_not_significant None Tutorials.builtin_value_errors
           Tutorials.strict_test Tutorials.edge_weights Tutorials.example_connectomes
           [ (0, 1); (0, 2) ]
           [ (0, 1, Some (1 # 2), 1 # 20); (0, 2, None, 1%Q) ] 0 2 None 1%Q 2%Q
           [ [ 6; 6 ]; [ 2; 7 ]; [ 1; 4 ] ]%Z Tutorials.ValueError).
  - reflexivity.
  - right. left. reflexivity.
  - reflexivity.
  - reflexivity.
  - reflexivity.
  - lra.
Defined.

Section ErrorLabels.
Import Tutorials Cells.

Lemma count_true_bounds (m : list bool) :
  (0 <= count_true m <= Z.of_nat (length m))%Z.
Proof.
  unfold count_true. pose proof (List.filter_length_le (fun b => b) m). lia.
Qed.

Lemma count_true_negb (m : list bool) :
  count_true (List.map negb m) = (Z.of_nat (length m) - count_true m)%Z.
Proof.
  unfold count_true. induction m as [|[] m IH]; cbn [List.map List.filter negb length];
    lia.
Qed.

Lemma map_negb_involutive (m : list bool) : List.map negb (List.map negb m) = m.
Proof.
  induction m as [|b m IH]; cbn; [reflexivity|].
  rewrite Bool.negb_involutive, IH. reflexivity.
Qed.

Lemma half_lt_iff (c : Z) : ((1 # 2) < c # 200)%Q <-> (100 < c)%Z.
Proof. unfold Qlt. cbn [Qnum Qden]. lia. Qed.

Lemma label_errors_total (m : list bool) :
  length m = 2 * n_verts ->
  exists out, label_errors m = Ok out
    /\ ((error out = m /\ (count_true m <= 100)%Z)
        \/ (error out = List.map negb m /\ (100 < count_true m)%Z))
    /\ error_rate out = count_true (error out) # 200
    /\ error_label out
       = List.map (fun e : bool => if e then "Wrong" else "Right") (error out).
Proof.
  intros Hlen. unfold label_errors.
  change (Pos.of_nat (2 * n_verts)) with 200%positive.
  set (E := if Qlt_le_dec (1 # 2) (count_true m # 200) then List.map negb m else m).
  assert (HE : length E = 2 * n_verts).
  { unfold E. destruct (Qlt_le_dec _ _); [rewrite length_map|]; exact Hlen. }
  unfold mask_assign. rewrite repeat_length, HE, Nat.eqb_refl.
  cbn [mbind result_bind]. eexists. split; [reflexivity|].
  cbn [error error_rate error_label].
  split; [|split; [reflexivity|]].
  - unfold E. destruct (Qlt_le_dec _ _) as [H|H].
    + right. split; [reflexivity|]. apply half_lt_iff, H.
    + left. split; [reflexivity|].
      destruct (Z_le_gt_dec (count_true m) 100) as [|G]; [assumption|].
      exfalso. apply (Qle_not_lt _ _ H), half_lt_iff. lia.
  - clear -HE. revert HE. generalize (2 * n_verts) as n. intros n.
    revert n. induction E as [|e E IH]; intros [|n] Hn; try discriminate Hn.
    + reflexivity.
    + cbn [repeat zip_with List.map]. rewrite (IH n) by (cbn in Hn; lia).
      destruct e; reflexivity.
Qed.

Lemma subtract1_length (a b d : list Z) :
  subtract1 a b = Ok d ->
  (length b = length a \/ length b = 1) -> length d = length a.
Proof.
  unfold subtract1, broadcast1. intros H Hb.
  destruct (Nat.eqb_spec (length a) (length b)) as [E|NE].
  - cbn in H. injection H as <-. rewrite length_zip_with. lia.
  - destruct (Nat.eqb_spec (length a) 1) as [E1|NE1]; [lia|].
    destruct (Nat.eqb_spec (length b) 1) as [E2|NE2]; [|lia].
    cbn in H. injection H as <-. rewrite length_zip_with, repeat_length. lia.
Qed.

Lemma subtract1_defined (a b : list Z) :
  length a <> 1 ->
  (exists d, subtract1 a b = Ok d) <-> (length b = length a \/ length b = 1).
Proof.
  intros Ha. unfold subtract1, broadcast1.
  destruct (Nat.eqb_spec (length a) (length b)) as [E|NE].
  - cbn. split; [intros _; lia | eauto].
  - destruct (Nat.eqb_spec (length a) 1) as [E1|NE1]; [lia|].
    destruct (Nat.eqb_spec (length b) 1) as [E2|NE2]; cbn.
    + split; [intros _; lia | eauto].
    + split; [intros [d [=]] | lia].
Qed.

Lemma subtract1_raises (a b : list Z) (e : exn) :
  subtract1 a b = Raise e -> e = ValueError.
Proof.
  unfold subtract1, broadcast1.
  destruct (_ =? _)%nat; [discriminate|].
  destruct (_ =? _)%nat; [discriminate|].
  destruct (_ =? _)%nat; [discriminate|].
  cbn. congruence.
Qed.

Lemma mismatches_of_difference (a b : list Z) :
  List.map (fun d => negb (d =? 0)%Z) (zip_with Z.sub a b)
  = zip_with (fun x y => negb (x =? y)%Z) a b.
Proof.
  revert b. induction a as [|x a IH]; intros [|y b]; cbn [zip_with List.map];
    try reflexivity.
  rewrite IH. f_equal.
  destruct (Z.eqb_spec (x - y) 0), (Z.eqb_spec x y); try reflexivity; lia.
Qed.

Lemma error_cell_rate_aux (labels_kmeans : list Z) :
  length labels_kmeans = 2 * n_verts ->
  exists out, error_cell labels_kmeans = Ok out
    /\ ((error out = mismatches labels_kmeans
         /\ (count_true (mismatches labels_kmeans) <= 100)%Z)
        \/ (error out = List.map negb (mismatches labels_kmeans)
            /\ (100 < count_true (mismatches labels_kmeans))%Z))
    /\ error_rate out = count_true (error out) # 200
    /\ error_label out
       = List.map (fun e : bool => if e then "Wrong" else "Right") (error out).
Proof.
  intros Hlen.
  assert (Hs : length labels_sbm = 2 * n_verts) by reflexivity.
  unfold error_cell, subtract1, broadcast1.
  rewrite Hs, Hlen, Nat.eqb_refl. cbn [mbind result_bind fst snd].
  rewrite mismatches_of_difference. fold (mismatches labels_kmeans).
  assert (Hm : length (mismatches labels_kmeans) = 2 * n_verts).
  { unfold mismatches. rewrite length_zip_with, Hs, Hlen. lia. }
  destruct (label_errors_total _ Hm) as (out & -> & Hmask & Hrate & Hlab).
  exists out. split; [reflexivity|]. split; [exact Hmask|].
  split; [exact Hrate|exact Hlab].
Qed.


(** X21.  For the labels of 200 vertices, whatever integers they are,
    the cell computes a mask, a rate and the labels: the mask marks the
    vertices whose label differs from [labels_sbm] when these are at most
    half, and the others when they are more; so the error rate is the
    share of marked vertices and never exceeds 1/2, and a vertex is
    labelled Wrong exactly when it is marked. *)
Theorem error_cell_rate (labels_kmeans : list Z) :
  length labels_kmeans = 2 * n_verts ->
  exists out, error_cell labels_kmeans = Ok out
    /\ ((error out = mismatches labels_kmeans
         /\ (count_true (mismatches labels_kmeans) <= 100)%Z)
        \/ (error out = List.map negb (mismatches labels_kmeans)
            /\ (100 < count_true (mismatches labels_kmeans))%Z))
    /\ error_rate out = count_true (error out) # 200
    /\ (0 <= error_rate out <= 1 # 2)%Q
    /\ error_label out
       = List.map (fun e : bool => if e then "Wrong" else "Right") (error out).
Proof.
  intros Hlen.
  destruct (error_cell_rate_aux labels_kmeans Hlen)
    as (out & Ho & Hmask & Hrate & Hlab).
  exists out. split; [exact Ho|]. split; [exact Hmask|].
  split; [exact Hrate|]. split; [|exact Hlab].
  assert (Hm : length (mismatches labels_kmeans) = 200).
  { unfold mismatches. rewrite length_zip_with, Hlen. reflexivity. }
  rewrite Hrate. unfold Qle. cbn [Qnum Qden].
  pose proof (count_true_bounds (mismatches labels_kmeans)) as Hb.
  rewrite Hm in Hb. change (Z.of_nat 200) with 200%Z in Hb.
  destruct Hmask as [[-> Hc]|[-> Hc]]; [lia|].
  rewrite count_true_negb, Hm. change (Z.of_nat 200) with 200%Z. lia.
Qed.

(** X22.  The cell fails only in the subtraction, with ValueError, and
    it does so exactly when [labels_kmeans] has neither 200 entries nor a
    single one (which numpy repeats); the assignment through the mask
    never fails. *)
Theorem error_cell_fails (labels_kmeans : list Z) (e : exn) :
  error_cell labels_kmeans = Raise e
  <-> e = ValueError
      /\ length labels_kmeans <> 2 * n_verts /\ length labels_kmeans <> 1.
Proof.
  assert (Hs : length labels_sbm = 2 * n_verts) by reflexivity.
  assert (Hs1 : length labels_sbm <> 1) by (rewrite Hs; discriminate).
  pose proof (subtract1_defined labels_sbm labels_kmeans Hs1) as Hdef.
  unfold error_cell.
  destruct (subtract1 labels_sbm labels_kmeans) as [d|e'] eqn:Hd;
    cbn [mbind result_bind].
  - assert (Hb : length labels_kmeans = length labels_sbm \/ length labels_kmeans = 1)
      by (apply Hdef; eauto).
    pose proof (subtract1_length _ _ _ Hd Hb) as Hlen.
    destruct (label_errors_total (List.map (fun d => negb (d =? 0)%Z) d))
      as (out & -> & _); [rewrite length_map, Hlen; exact Hs|].
    split; [discriminate|]. rewrite Hs in Hb. intros (_ & H1 & H2). lia.
  - apply subtract1_raises in Hd as He. subst e'. split.
    + intros [= <-]. split; [reflexivity|]. rewrite <- Hs.
      split; intros H; destruct Hdef as [_ Hdef];
        (destruct Hdef as [d' Hd']; [auto|]; discriminate Hd').
    + intros (-> & _). reflexivity.
Qed.

Lemma mismatches_swap (a b : list Z) :
  Forall (fun l => l = 0 \/ l = 1)%Z a ->
  Forall (fun l => l = 0 \/ l = 1)%Z b ->
  zip_with (fun x y => negb (x =? y)%Z) a (List.map (fun l => 1 - l)%Z b)
  = List.map negb (zip_with (fun x y => negb (x =? y)%Z) a b).
Proof.
  intros Ha. revert b. induction Ha as [|x a Hx _ IH]; intros b Hb; [reflexivity|].
  destruct Hb as [|y b Hy Hb]; [reflexivity|].
  cbn [zip_with List.map]. rewrite (IH b Hb). f_equal.
  destruct Hx as [-> | ->], Hy as [-> | ->]; reflexivity.
Qed.

Lemma labels_sbm_binary : Forall (fun l => l = 0 \/ l = 1)%Z labels_sbm.
Proof.
  unfold labels_sbm. apply Forall_app. split; apply List.Forall_forall;
    intros l Hl%repeat_spec; auto.
Qed.

(** X23.  The error rate does not depend on which of the two clusters
    kmeans calls 0: for 200 labels that are 0 or 1, exchanging 0 and 1
    gives the same error rate; unless the rate is exactly 1/2, it also
    gives the same mask and the same Right and Wrong labels. *)
Theorem error_rate_ignores_label_names (labels_kmeans : list Z) :
  length labels_kmeans = 2 * n_verts ->
  Forall (fun l => l = 0 \/ l = 1)%Z labels_kmeans ->
  exists out out',
    error_cell labels_kmeans = Ok out
    /\ error_cell (List.map (fun l => 1 - l)%Z labels_kmeans) = Ok out'
    /\ error_rate out' = error_rate out
    /\ (~ (error_rate out == 1 # 2)%Q ->
        error out' = error out /\ error_label out' = error_label out).
Proof.
  intros Hlen Hbin.
  destruct (error_cell_rate_aux labels_kmeans Hlen)
    as (out & Ho & Hmask & Hrate & Hlab).
  destruct (error_cell_rate_aux (List.map (fun l => 1 - l)%Z labels_kmeans))
    as (out' & Ho' & Hmask' & Hrate' & Hlab'); [rewrite length_map; exact Hlen|].
  exists out, out'. split; [exact Ho|]. split; [exact Ho'|].
  assert (Hsw : mismatches (List.map (fun l => 1 - l)%Z labels_kmeans)
                = List.map negb (mismatches labels_kmeans))
    by (apply mismatches_swap; [apply labels_sbm_binary | exact Hbin]).
  assert (Hm : length (mismatches labels_kmeans) = 200).
  { unfold mismatches. rewrite length_zip_with, Hlen. reflexivity. }
  rewrite Hsw in Hmask'. rewrite count_true_negb, Hm in Hmask'.
  rewrite map_negb_involutive in Hmask'.
  change (Z.of_nat 200) with 200%Z in Hmask'.
  rewrite Hrate, Hrate', Hlab, Hlab'.
  destruct Hmask as [[-> Hc]|[-> Hc]], Hmask' as [[-> Hc']|[-> Hc']]; try lia.
  - assert (Hc100 : count_true (mismatches labels_kmeans) = 100%Z) by lia.
    split.
    + rewrite count_true_negb, Hm, Hc100. reflexivity.
    + intros Hne. exfalso. apply Hne. rewrite Hc100. reflexivity.
  - split; [reflexivity|]. intros _. split; reflexivity.
  - split; [reflexivity|]. intros _. split; reflexivity.
Qed.

End ErrorLabels.

Lemma error_cell_rate_witness :
  exists out, Cells.error_cell (repeat 1%Z 200) = Tutorials.Ok out
    /\ ((Cells.error out = Cells.mismatches (repeat 1%Z 200)
         /\ (Cells.count_true (Cells.mismatches (repeat 1%Z 200)) <= 100)%Z)
        \/ (Cells.error out = List.map negb (Cells.mismatches (repeat 1%Z 200))
            /\ (100 < Cells.count_true (Cells.mismatches (repeat 1%Z 200)))%Z))
    /\ Cells.error_rate out = Cells.count_true (Cells.error out) # 200
    /\ (0 <= Cells.error_rate out <= 1 # 2)%Q
    /\ Cells.error_label out
       = List.map (fun e : bool => if e then "Wrong" else "Right") (Cells.error out).
Proof.
  apply (error_cell_rate (repeat 1%Z 200)). reflexivity.
Defined.

Lemma error_rate_ignores_label_names_witness :
  exists out out',
    Cells.error_cell (repeat 0%Z 150 ++ repeat 1%Z 50) = Tutorials.Ok out
    /\ Cells.error_cell (List.map (fun l => 1 - l)%Z (repeat 0%Z 150 ++ repeat 1%Z 50))
       = Tutorials.Ok out'
    /\ Cells.error_rate out' = Cells.error_rate out
    /\ (~ (Cells.error_rate out == 1 # 2)%Q ->
        Cells.error out' = Cells.error out
        /\ Cells.error_label out' = Cells.error_label out).
Proof.
  apply (error_rate_ignores_label_names (repeat 0%Z 150 ++ repeat 1%Z 50)).
  - reflexivity.
  - apply Forall_app. split; apply List.Forall_forall; intros l Hl%repeat_spec; auto.
Defined.

Section Arrays.
Import Tutorials Cells.

Lemma sum_list_nonneg (l : list Z) :
  (forall x, In x l -> 0 <= x)%Z -> (0 <= sum_list l)%Z.
Proof.
  induction l as [|a l IH]; intros H; cbn [sum_list fold_right]; [lia|].
  fold (sum_list l).
  pose proof (H a (or_introl eq_refl)).
  assert (0 <= sum_list l)%Z by (apply IH; intros x Hx; apply H; right; exact Hx).
  lia.
Qed.

Lemma sum_list_zero (l : list Z) :
  (forall x, In x l -> 0 <= x)%Z ->
  sum_list l = 0%Z <-> (forall x, In x l -> x = 0%Z).
Proof.
  induction l as [|a l IH]; intros H; cbn [sum_list fold_right].
  { split; [intros _ x [] | reflexivity]. }
  fold (sum_list l).
  pose proof (H a (or_introl eq_refl)) as Ha.
  assert (Hl : (forall x, In x l -> 0 <= x)%Z) by (intros x Hx; apply H; right; exact Hx).
  pose proof (sum_list_nonneg l Hl) as Hs.
  specialize (IH Hl). split.
  - intros E x [<-|Hx]; [lia|]. apply IH; [lia|exact Hx].
  - intros E. rewrite (E a (or_introl eq_refl)).
    assert (sum_list l = 0%Z) by (apply IH; intros x Hx; apply E; right; exact Hx).
    lia.
Qed.

Lemma sum_list_le (l : list Z) (b : Z) :
  (forall x, In x l -> x <= b)%Z -> (sum_list l <= Z.of_nat (length l) * b)%Z.
Proof.
  induction l as [|a l IH]; intros H; cbn [sum_list fold_right length]; [lia|].
  fold (sum_list l).
  pose proof (H a (or_introl eq_refl)).
  assert (sum_list l <= Z.of_nat (length l) * b)%Z
    by (apply IH; intros x Hx; apply H; right; exact Hx).
  lia.
Qed.

Lemma row_sum_nonneg (a : array2) (i n : nat) :
  (0 <= sum_list (List.map (at_ (np_abs a) i) (seq 0 n)))%Z.
Proof.
  apply sum_list_nonneg. intros x (j & <- & _)%in_map_iff. cbn. lia.
Qed.

Lemma np_sum_abs_nonneg (a : array2) : (0 <= np_sum (np_abs a))%Z.
Proof.
  unfold np_sum. apply sum_list_nonneg.
  intros x (i & <- & _)%in_map_iff. apply row_sum_nonneg.
Qed.

Lemma np_sum_abs_zero (a : array2) :
  np_sum (np_abs a) = 0%Z
  <-> (forall i j, i < nrows a -> j < ncols a -> at_ a i j = 0%Z).
Proof.
  unfold np_sum. rewrite sum_list_zero.
  2:{ intros x (i & <- & _)%in_map_iff. apply row_sum_nonneg. }
  cbn [nrows ncols np_abs]. split.
  - intros H i j Hi Hj.
    assert (Hrow : sum_list (List.map (at_ (np_abs a) i) (seq 0 (ncols a))) = 0%Z).
    { apply H, in_map_iff. exists i. split; [reflexivity|apply in_seq; lia]. }
    rewrite sum_list_zero in Hrow.
    2:{ intros x (j' & <- & _)%in_map_iff. cbn. lia. }
    assert (Hz : at_ (np_abs a) i j = 0%Z).
    { apply Hrow, in_map_iff. exists j. split; [reflexivity|apply in_seq; lia]. }
    cbn in Hz. lia.
  - intros H x (i & <- & Hi%in_seq)%in_map_iff.
    apply sum_list_zero.
    + intros y (j & <- & _)%in_map_iff. cbn. lia.
    + intros y (j & <- & Hj%in_seq)%in_map_iff. cbn. rewrite H by lia. reflexivity.
Qed.

Lemma np_sum_abs_le (a : array2) :
  (forall i j, i < nrows a -> j < ncols a -> (Z.abs (at_ a i j) <= 1)%Z) ->
  (np_sum (np_abs a) <= Z.of_nat (nrows a * ncols a))%Z.
Proof.
  intros H. unfold np_sum. cbn [nrows ncols np_abs].
  etransitivity.
  - apply (sum_list_le _ (Z.of_nat (ncols a))).
    intros x (i & <- & Hi%in_seq)%in_map_iff.
    etransitivity.
    + apply (sum_list_le _ 1%Z).
      intros y (j & <- & Hj%in_seq)%in_map_iff. cbn. apply H; lia.
    + rewrite length_map, length_seq. lia.
  - rewrite length_map, length_seq. lia.
Qed.

Lemma subtract_same_shape (a b : array2) :
  nrows a = nrows b -> ncols a = ncols b ->
  exists d, subtract a b = Ok d
    /\ nrows d = nrows a /\ ncols d = ncols a
    /\ forall i j, i < nrows a -> j < ncols a ->
         at_ d i j = (at_ a i j - at_ b i j)%Z.
Proof.
  intros Hr Hc. unfold subtract, broadcast_dim.
  rewrite <- Hr, <- Hc, !Nat.eqb_refl. cbn [mbind result_bind].
  eexists. split; [reflexivity|]. cbn [nrows ncols at_].
  split; [reflexivity|]. split; [reflexivity|].
  intros i j Hi Hj.
  destruct (Nat.eqb_spec (nrows a) 1) as [E1|_], (Nat.eqb_spec (ncols a) 1) as [E2|_];
    repeat match goal with
           | H : ?n = 1, L : ?k < ?n |- _ =>
               assert (k = 0) by lia; subst k; clear L
           end; reflexivity.
Qed.

Lemma np_index_ok (n : nat) (i : Z) :
  (0 <= i < Z.of_nat n)%Z -> np_index n i = Ok (Z.to_nat i).
Proof.
  intros H. unfold np_index.
  destruct (Z.leb_spec 0 i), (Z.ltb_spec i (Z.of_nat n)); try lia. reflexivity.
Qed.

Lemma np_indices_ok (n : nat) (idx : list Z) :
  Forall (fun i => 0 <= i < Z.of_nat n)%Z idx ->
  np_indices n idx = Ok (List.map Z.to_nat idx).
Proof.
  induction 1 as [|i idx Hi _ IH]; [reflexivity|].
  cbn [np_indices List.map]. rewrite (np_index_ok n i Hi), IH. reflexivity.
Qed.

Lemma nth_to_nat (l : list Z) (i : nat) (x : Z) :
  l !! i = Some x -> nth i (List.map Z.to_nat l) 0 = Z.to_nat x.
Proof.
  intros H. rewrite nth_lookup.
  change (List.map Z.to_nat l) with (Z.to_nat <$> l).
  rewrite list_lookup_fmap, H. reflexivity.
Qed.

(** X24.  The two indexing idioms of the graph matching notebook undo
    each other.  For a square [G1], a shuffle [s] of its vertices and
    indices [p] with [s[p[i]] == i] for every vertex,
    [G1[np.ix_(s, s)]] followed by [G2[p][:, p]] gives back the entries
    of [G1], and the number of edge disagreements the cell prints is 0. *)
Theorem shuffle_then_unshuffle (G1 : array2) (s p : list Z) (n : nat) :
  nrows G1 = n -> ncols G1 = n ->
  length s = n -> length p = n ->
  Forall (fun x => 0 <= x < Z.of_nat n)%Z s ->
  Forall (fun x => 0 <= x < Z.of_nat n)%Z p ->
  (forall i x, p !! i = Some x -> s !! Z.to_nat x = Some (Z.of_nat i)) ->
  exists G2 G2',
    shuffle G1 s = Ok G2
    /\ unshuffle G2 p = Ok G2'
    /\ nrows G2' = n /\ ncols G2' = n
    /\ (forall i j, i < n -> j < n -> at_ G2' i j = at_ G1 i j)
    /\ disagreements G1 G2' = Ok 0%Z.
Proof.
  intros Hr Hc Hs Hp Fs Fp Hinv.
  assert (Hback : forall i, i < n ->
            nth (nth i (List.map Z.to_nat p) 0) (List.map Z.to_nat s) 0 = i).
  { intros i Hi.
    destruct (lookup_lt_is_Some_2 p i) as [x Hx]; [lia|].
    rewrite (nth_to_nat p i x Hx).
    rewrite (nth_to_nat s (Z.to_nat x) (Z.of_nat i) (Hinv i x Hx)).
    apply Nat2Z.id. }
  unfold shuffle, take_ix. rewrite Hr, Hc, (np_indices_ok n s Fs).
  cbn [mbind result_bind]. eexists. eexists. split; [reflexivity|].
  unfold unshuffle, take_rows, take_cols. cbn [nrows ncols at_].
  rewrite length_map, Hs, (np_indices_ok n p Fp). cbn [mbind result_bind nrows ncols at_].
  rewrite (np_indices_ok n p Fp). cbn [mbind result_bind].
  split; [reflexivity|]. cbn [nrows ncols at_]. rewrite !length_map, Hp.
  split; [reflexivity|]. split; [reflexivity|].
  assert (Hat : forall i j, i < n -> j < n ->
            at_ G1 (nth (nth i (List.map Z.to_nat p) 0) (List.map Z.to_nat s) 0)
              (nth (nth j (List.map Z.to_nat p) 0) (List.map Z.to_nat s) 0)
            = at_ G1 i j).
  { intros i j Hi Hj. rewrite !Hback by assumption. reflexivity. }
  split; [exact Hat|].
  unfold disagreements.
  match goal with
  | |- context [subtract G1 ?G] =>
      destruct (subtract_same_shape G1 G) as (d & -> & Hdr & Hdc & Hd)
  end.
  - cbn [nrows]. rewrite ?length_map. lia.
  - cbn [ncols]. rewrite ?length_map. lia.
  - cbn [mbind result_bind]. f_equal. apply np_sum_abs_zero.
    intros i j Hi Hj. rewrite Hd by lia. cbn [at_].
    rewrite Hat by lia. lia.
Qed.




(** X26.  For two graphs on the same [ndim > 0] vertices whose entries
    are 0 or 1, the difference rate [np.sum(abs(g1-g2))/(ndim*ndim)] is a
    number between 0 and 1, and it is 0 exactly when the graphs have the
    same entries. *)
Theorem difference_rate_bounds (ndim : nat) (g1 g2 : array2) :
  0 < ndim ->
  nrows g1 = ndim -> ncols g1 = ndim -> nrows g2 = ndim -> ncols g2 = ndim ->
  (forall i j, i < ndim -> j < ndim ->
     (at_ g1 i j = 0 \/ at_ g1 i j = 1)%Z /\ (at_ g2 i j = 0 \/ at_ g2 i j = 1)%Z) ->
  exists q, difference_rate ndim g1 g2 = Ok (Finite q)
    /\ (0 <= q <= 1)%Q
    /\ ((q == 0)%Q <->
        forall i j, i < ndim -> j < ndim -> at_ g1 i j = at_ g2 i j).
Proof.
  intros Hn Hr1 Hc1 Hr2 Hc2 Hbin.
  unfold difference_rate, disagreements.
  destruct (subtract_same_shape g1 g2) as (d & -> & Hdr & Hdc & Hd); [lia|lia|].
  cbn [mbind result_bind]. unfold np_truediv.
  destruct (Z.eqb_spec (Z.of_nat (ndim * ndim)) 0) as [E|_]; [nia|].
  eexists. split; [reflexivity|].
  pose proof (np_sum_abs_nonneg d) as Hlo.
  assert (Hhi : (np_sum (np_abs d) <= Z.of_nat (ndim * ndim))%Z).
  { rewrite <- Hr1 at 1. rewrite <- Hc1, <- Hdr, <- Hdc. apply np_sum_abs_le.
    intros i j Hi Hj. rewrite Hd by lia.
    destruct (Hbin i j) as [[-> | ->] [-> | ->]]; lia. }
  assert (Hzero : np_sum (np_abs d) = 0%Z <->
            forall i j, i < ndim -> j < ndim -> at_ g1 i j = at_ g2 i j).
  { rewrite np_sum_abs_zero, Hdr, Hdc, Hr1, Hc1. split.
    - intros H i j Hi Hj. specialize (H i j Hi Hj). rewrite Hd in H by lia. lia.
    - intros H i j Hi Hj. rewrite Hd, H by lia. lia. }
  rewrite <- Hzero.
  destruct (Z.of_nat (ndim * ndim)) as [|m|m] eqn:Em; try lia.
  unfold Qle, Qeq, Qdiv, Qmult, Qinv. cbn [Qnum Qden].
  split; [split|]; lia.
Qed.

End Arrays.

Lemma shuffle_then_unshuffle_witness :
  exists G2 G2',
    Cells.shuffle Cells.example_graph [ 2; 0; 1 ]%Z = Tutorials.Ok G2
    /\ Cells.unshuffle G2 [ 1; 2; 0 ]%Z = Tutorials.Ok G2'
    /\ Cells.nrows G2' = 3 /\ Cells.ncols G2' = 3
    /\ (forall i j, i < 3 -> j < 3 ->
          Cells.at_ G2' i j = Cells.at_ Cells.example_graph i j)
    /\ Cells.disagreements Cells.example_graph G2' = Tutorials.Ok 0%Z.
Proof.
  apply (shuffle_then_unshuffle Cells.example_graph [ 2; 0; 1 ]%Z [ 1; 2; 0 ]%Z 3);
    try reflexivity.
  - repeat constructor; lia.
  - repeat constructor; lia.
  - intros [|[|[|i]]] x; intros [= <-]; reflexivity.
Defined.


Lemma difference_rate_bounds_witness :
  exists q, Cells.difference_rate 3 Cells.example_graph Cells.example_graph
            = Tutorials.Ok (Cells.Finite q)
    /\ (0 <= q <= 1)%Q
    /\ ((q == 0)%Q <->
        forall i j, i < 3 -> j < 3 ->
          Cells.at_ Cells.example_graph i j = Cells.at_ Cells.example_graph i j).
Proof.
  apply (difference_rate_bounds 3 Cells.example_graph Cells.example_graph);
    try reflexivity; [lia|].
  intros i j _ _. cbn. destruct (i + j =? 1)%nat; auto.
Defined.

Section Rates.
Import Tutorials Cells.

Variable rdpg_corr : PrimFloat.float -> result (array2 * array2).

Lemma rate_loop_ok (range : list Z) :
  forall acc rl,
    rate_loop rdpg_corr range acc = Ok rl ->
    exists new, rl = acc ++ new
      /\ Forall2 (fun i rate =>
                    exists g1 g2, rdpg_corr (Doubles.correlation i) = Ok (g1, g2)
                      /\ difference_rate (nrows g1) g1 g2 = Ok rate) range new.
Proof.
  induction range as [|i rest IH]; intros acc rl; cbn [rate_loop].
  - intros [= <-]. exists []. rewrite app_nil_r. split; [reflexivity|constructor].
  - destruct (rdpg_corr (Doubles.correlation i)) as [[g1 g2]|e] eqn:Eg;
      cbn [mbind result_bind fst snd]; [|discriminate].
    destruct (difference_rate (nrows g1) g1 g2) as [rate|e] eqn:Er;
      cbn [mbind result_bind]; [|discriminate].
    intros H. apply IH in H as (new & -> & Hall).
    exists (rate :: new). rewrite <- app_assoc. split; [reflexivity|].
    constructor; [|exact Hall]. exists g1, g2. rewrite Eg. auto.
Qed.

Lemma rate_loop_raise (range : list Z) :
  forall acc e,
    rate_loop rdpg_corr range acc = Raise e ->
    exists i, In i range
      /\ (rdpg_corr (Doubles.correlation i) = Raise e
          \/ exists g1 g2, rdpg_corr (Doubles.correlation i) = Ok (g1, g2)
               /\ difference_rate (nrows g1) g1 g2 = Raise e).
Proof.
  induction range as [|i rest IH]; intros acc e; cbn [rate_loop]; [discriminate|].
  destruct (rdpg_corr (Doubles.correlation i)) as [[g1 g2]|e'] eqn:Eg;
    cbn [mbind result_bind fst snd].
  - destruct (difference_rate (nrows g1) g1 g2) as [rate|e'] eqn:Er;
      cbn [mbind result_bind].
    + intros H. apply IH in H as (i' & Hin & H). exists i'. split; [right; exact Hin|exact H].
    + intros [= <-]. exists i. split; [left; reflexivity|]. right. exists g1, g2. auto.
  - intros [= <-]. exists i. split; [left; reflexivity|]. left. exact Eg.
Qed.

Lemma rate_loop_total (range : list Z) :
  (forall i, In i range ->
     exists g1 g2, rdpg_corr (Doubles.correlation i) = Ok (g1, g2)
       /\ nrows g1 = nrows g2 /\ ncols g1 = ncols g2) ->
  forall acc, exists rl, rate_loop rdpg_corr range acc = Ok rl.
Proof.
  induction range as [|i rest IH]; intros H acc; cbn [rate_loop]; [eauto|].
  destruct (H i (or_introl eq_refl)) as (g1 & g2 & -> & Hr & Hc).
  cbn [mbind result_bind fst snd].
  unfold difference_rate, disagreements.
  destruct (subtract_same_shape g1 g2 Hr Hc) as (d & -> & _).
  cbn [mbind result_bind]. apply IH. intros i' Hi'. apply H. right. exact Hi'.
Qed.

Lemma py_range_lookup (lo hi : Z) (k : nat) :
  k < Z.to_nat (hi - lo) -> py_range lo hi !! k = Some (lo + Z.of_nat k)%Z.
Proof.
  intros Hk. unfold py_range.
  change (List.map ?f ?l) with (f <$> l).
  rewrite list_lookup_fmap, lookup_seq_lt by exact Hk. reflexivity.
Qed.

Lemma py_range_In (lo hi i : Z) : In i (py_range lo hi) <-> (lo <= i < hi)%Z.
Proof.
  unfold py_range. rewrite in_map_iff. split.
  - intros (k & <- & Hk%in_seq). lia.
  - intros H. exists (Z.to_nat (i - lo)). split; [lia|apply in_seq; lia].
Qed.

Lemma x_list_points (k : nat) :
  k < 15 ->
  exists x, Doubles.x_list !! k = Some x
    /\ Doubles.within_2_52 x (Doubles.correlation (Z.of_nat k - 5)) = true
    /\ (Doubles.equal x (Doubles.correlation (Z.of_nat k - 5)) = true
        <-> In k [ 0; 1; 3; 12; 14 ]).
Proof.
  intros Hk.
  do 15 (destruct k as [|k];
         [eexists; split; [vm_compute; reflexivity|];
          split; [vm_compute; reflexivity|];
          vm_compute; split;
          [ first [ discriminate | intros _; tauto ]
          | first [ reflexivity
                  | intros H; repeat (destruct H as [H|H]; [discriminate H|]);
                    destruct H ] ]|]).
  lia.
Qed.

(** X27.  The loop of the correlated RDPG notebook and the points it is
    plotted against.  When the loop returns, [rlist] has 15 rates, and
    the rate at position [k] is the difference rate of the pair that
    [rdpg_corr] returned for the correlation [i/10] with [i = k - 5].
    The point of [x_list = np.linspace(-0.5,0.9,15)] at position [k] is
    not always this correlation: as doubles the two are equal at the
    positions 0, 1, 3, 12 and 14 only, and at every position they differ
    by at most 2^-52 (the point plotted for the correlation 0 is -2^-54).
    An exception of the loop is one that [rdpg_corr] or the subtraction
    raised in one of the 15 rounds, and the loop returns whenever each
    round gets two graphs of one shape. *)
Theorem rlist_matches_x_list :
  (forall rl, rlist rdpg_corr = Ok rl ->
     length rl = 15 /\ length Doubles.x_list = 15
     /\ forall k, k < 15 ->
          exists x g1 g2 rate,
            Doubles.x_list !! k = Some x
            /\ Doubles.within_2_52 x (Doubles.correlation (Z.of_nat k - 5)) = true
            /\ (Doubles.equal x (Doubles.correlation (Z.of_nat k - 5)) = true
                <-> In k [ 0; 1; 3; 12; 14 ])
            /\ rdpg_corr (Doubles.correlation (Z.of_nat k - 5)) = Ok (g1, g2)
            /\ difference_rate (nrows g1) g1 g2 = Ok rate
            /\ rl !! k = Some rate)
  /\ (Doubles.x_list !! 5 = Some Doubles.minus_2_54
      /\ Doubles.correlation 0 = PrimFloat.zero)
  /\ (forall e, rlist rdpg_corr = Raise e ->
        exists i, (-5 <= i < 10)%Z
          /\ (rdpg_corr (Doubles.correlation i) = Raise e
              \/ exists g1 g2, rdpg_corr (Doubles.correlation i) = Ok (g1, g2)
                   /\ difference_rate (nrows g1) g1 g2 = Raise e))
  /\ ((forall i, (-5 <= i < 10)%Z ->
         exists g1 g2, rdpg_corr (Doubles.correlation i) = Ok (g1, g2)
           /\ nrows g1 = nrows g2 /\ ncols g1 = ncols g2) ->
      exists rl, rlist rdpg_corr = Ok rl).
Proof.
  unfold rlist. split; [|split; [|split]].
  - intros rl H. apply rate_loop_ok in H as (new & -> & Hall).
    cbn [app].
    pose proof (Forall2_length _ _ _ Hall) as Hlen.
    assert (Hr : length (py_range (-5) 10) = 15) by reflexivity.
    split; [lia|]. split; [reflexivity|].
    intros k Hk.
    destruct (x_list_points k Hk) as (x & Hx & Hclose & Heq).
    destruct (Forall2_lookup_l _ _ _ k (-5 + Z.of_nat k)%Z Hall)
      as (rate & Hrate & g1 & g2 & Hg & Hd).
    { apply py_range_lookup. cbn. lia. }
    replace (-5 + Z.of_nat k)%Z with (Z.of_nat k - 5)%Z in Hg by lia.
    exists x, g1, g2, rate. auto 10.
  - split; vm_compute; reflexivity.
  - intros e H. apply rate_loop_raise in H as (i & Hin%py_range_In & H).
    exists i. auto.
  - intros H. apply rate_loop_total. intros i Hi%py_range_In. apply H, Hi.
Qed.

End Rates.
